(** * Debug_Moi_Ca: the context extractor and the retrieval escalator

    A shallow embedding of [src/utils.py] (byte-size humanisation and
    [ProjectContextExtractor]) and of the smart-query logic of
    [src/main.py] ([HolaIbotApp]), with the properties of the
    specification stated over it.

    Modelling conventions.
    - A Python [str] is a Rocq [string].  The white-space tests of [str]
      and the case mapping of extensions are modelled on ASCII text; where
      the names of files are compared with the targets of a selection,
      [str.lower] is a parameter, [lower].
    - [os.path] is [posixpath].
    - A Python [int] is a [Z]; a Python [float] is a binary64 [float].
    - A Python [set] of strings is a [gset string].
    - A call that may raise is an [outcome]: its value, or the text of the
      exception.
    - The file system is a finite tree, as [os.listdir] and
      [os.path.isdir] show it: a symbolic link to a directory is a
      directory of the tree, and [os.path.islink], a parameter, tells
      which paths are such links.  Every operation the extractor performs
      on the tree is recorded in a trace of [event]s. *)

From Stdlib Require Import ZArith Lia String Ascii List.
From Stdlib Require Import PrimFloat SpecFloat FloatOps.
From stdpp Require Import base tactics option list gmap sets strings pretty sorting.
Import ListNotations.

Set Warnings "-register-all".

Local Open Scope Z_scope.
Local Open Scope string_scope.
Local Open Scope list_scope.

(** ** Python strings *)

Module Py.

(** [str.isspace] on ASCII characters. *)
Definition isspace (c : ascii) : bool :=
  match c with
  | "009" | "010" | "011" | "012" | "013"
  | "028" | "029" | "030" | "031" | " " => true
  | _ => false
  end%char.

(** [s.lstrip()] *)
Fixpoint lstrip (s : string) : string :=
  match s with
  | "" => ""
  | String c s' => if isspace c then lstrip s' else s
  end.

(** [s.rstrip()] *)
Fixpoint rstrip (s : string) : string :=
  match s with
  | "" => ""
  | String c s' =>
      match rstrip s' with
      | "" => if isspace c then "" else String c ""
      | r => String c r
      end
  end.

(** [s.strip()] *)
Definition strip (s : string) : string := rstrip (lstrip s).

(** [c.lower()] on one character. *)
Definition lower_char (c : ascii) : ascii :=
  let n := N_of_ascii c in
  if ((65 <=? n) && (n <=? 90))%N then ascii_of_N (n + 32) else c.

(** [s.lower()] *)
Fixpoint lower (s : string) : string :=
  match s with
  | "" => ""
  | String c s' => String (lower_char c) (lower s')
  end.

(** [s.isascii()] *)
Fixpoint isascii (s : string) : bool :=
  match s with
  | "" => true
  | String c s' => (N_of_ascii c <? 128)%N && isascii s'
  end.

(** [s.startswith(p)] *)
Definition startswith (s p : string) : bool := String.prefix p s.

(** [s.endswith(p)]: some suffix of [s] is [p]. *)
Fixpoint endswith (s p : string) : bool :=
  String.eqb s p ||
  match s with
  | "" => false
  | String _ s' => endswith s' p
  end.

(** [sub in s] *)
Fixpoint contains (sub s : string) : bool :=
  String.prefix sub s ||
  match s with
  | "" => false
  | String _ s' => contains sub s'
  end.

(** [s.count(c)] for a one-character [c]. *)
Fixpoint count (c : ascii) (s : string) : Z :=
  match s with
  | "" => 0
  | String a s' => (if Ascii.eqb a c then 1 else 0) + count c s'
  end.

(** [len(s.split())]: the number of maximal runs of non-blank characters. *)
Fixpoint split_len_go (in_word : bool) (s : string) : Z :=
  match s with
  | "" => 0
  | String c s' =>
      if isspace c then split_len_go false s'
      else (if in_word then 0 else 1) + split_len_go true s'
  end.
Definition split_len (s : string) : Z := split_len_go false s.

(** [len(s)] *)
Definition len (s : string) : Z := Z.of_nat (String.length s).

(** [sep.join(l)] *)
Definition join (sep : string) (l : list string) : string := String.concat sep l.

(** [s * n] *)
Fixpoint repeat (s : string) (n : nat) : string :=
  match n with
  | O => ""
  | S n' => s +:+ repeat s n'
  end.

(** [s.split(sep)] for a one-character separator. *)
Fixpoint split (sep : ascii) (s : string) : list string :=
  match s with
  | "" => [""]
  | String c s' =>
      if Ascii.eqb c sep then "" :: split sep s'
      else match split sep s' with
           | [] => [String c ""]
           | w :: ws => String c w :: ws
           end
  end.

(** [s.find(c)] and [s.rfind(c)] for a one-character [c]: the index of the
    first, respectively last, occurrence, or [-1]. *)
Fixpoint find_from (c : ascii) (s : string) (i : Z) : Z :=
  match s with
  | "" => -1
  | String a s' => if Ascii.eqb a c then i else find_from c s' (i + 1)
  end.
Definition find (c : ascii) (s : string) : Z := find_from c s 0.

Fixpoint rfind_from (c : ascii) (s : string) (i last : Z) : Z :=
  match s with
  | "" => last
  | String a s' => rfind_from c s' (i + 1) (if Ascii.eqb a c then i else last)
  end.
Definition rfind (c : ascii) (s : string) : Z := rfind_from c s 0 (-1).

(** [s[i:j]] for [0 <= i <= j]. *)
Definition slice (s : string) (i j : Z) : string :=
  String.substring (Z.to_nat i) (Z.to_nat (j - i)) s.

(** [s[i:]] for [0 <= i]. *)
Definition slice_from (s : string) (i : Z) : string :=
  String.substring (Z.to_nat i) (String.length s - Z.to_nat i) s.

(** [str(n)] for an integer. *)
Definition str_int (n : Z) : string := pretty n.

End Py.

(** A call that returns a value or raises; [Raise] carries [str(ex)]. *)
Inductive outcome (A : Type) : Type :=
| Ok (a : A)
| Raise (ex : string).
Arguments Ok {A} a.
Arguments Raise {A} ex.

(** ** [os.path] (POSIX) *)

Module OsPath.

(** [os.path.join(a, b)] *)
Definition join (a b : string) : string :=
  if Py.startswith b "/" then b
  else if (String.eqb a "" || Py.endswith a "/")%bool then a +:+ b
  else a +:+ "/" +:+ b.

(** The scan of [genericpath._splitext] over the leading dots of the file
    name: is there a character other than the dot in [p[i:dotIndex]]? *)
Fixpoint has_non_dot (s : string) : bool :=
  match s with
  | "" => false
  | String c s' => if Ascii.eqb c "." then has_non_dot s' else true
  end.

(** [os.path.splitext(p)] *)
Definition splitext (p : string) : string * string :=
  let sepIndex := Py.rfind "/" p in
  let dotIndex := Py.rfind "." p in
  if (dotIndex >? sepIndex)%Z && has_non_dot (Py.slice p (sepIndex + 1) dotIndex)
  then (Py.slice p 0 dotIndex, Py.slice_from p dotIndex)
  else (p, "").

(** The loop of [os.path.normpath] over the components of the path. *)
Fixpoint normpath_comps (initial_slashes : Z) (comps new_comps : list string)
  : list string :=
  match comps with
  | [] => new_comps
  | comp :: rest =>
      if (String.eqb comp "" || String.eqb comp ".")%bool
      then normpath_comps initial_slashes rest new_comps
      else if (negb (String.eqb comp "..")
               || ((initial_slashes =? 0)%Z && bool_decide (new_comps = []))
               || bool_decide (last new_comps = Some ".."))%bool
      then normpath_comps initial_slashes rest (new_comps ++ [comp])
      else normpath_comps initial_slashes rest (removelast new_comps)
  end.

(** [os.path.normpath(path)] *)
Definition normpath (path : string) : string :=
  if String.eqb path "" then "."
  else
    let initial_slashes :=
      if Py.startswith path "/" then
        if (Py.startswith path "//" && negb (Py.startswith path "///"))%bool
        then 2 else 1
      else 0 in
    let comps := normpath_comps initial_slashes (Py.split "/" path) [] in
    let path' := Py.repeat "/" (Z.to_nat initial_slashes) +:+ Py.join "/" comps in
    if String.eqb path' "" then "." else path'.

(** [os.path.isabs] *)
Definition isabs (path : string) : bool := Py.startswith path "/".

(** [os.path.abspath], with [cwd] for [os.getcwd()]. *)
Definition abspath (cwd path : string) : string :=
  normpath (if negb (isabs path) then join cwd path else path).

(** [len(os.path.commonprefix([l1, l2]))] on two lists of components. *)
Fixpoint commonprefix_len (l1 l2 : list string) : nat :=
  match l1, l2 with
  | x :: l1', y :: l2' => if String.eqb x y then S (commonprefix_len l1' l2') else O
  | _, _ => O
  end.

(** [os.path.join] applied to the elements of a non-empty list. *)
Definition join_all (l : list string) : string :=
  match l with
  | [] => ""
  | a :: p => fold_left join p a
  end.

(** [os.path.relpath(path, start)] for a non-empty [path]. *)
Definition relpath (cwd path start : string) : string :=
  let nonempty := filter (fun x => x <> "") in
  let start_list := nonempty (Py.split "/" (abspath cwd start)) in
  let path_list := nonempty (Py.split "/" (abspath cwd path)) in
  let i := commonprefix_len start_list path_list in
  let rel_list :=
    List.repeat ".." (List.length start_list - i) ++ drop i path_list in
  match rel_list with
  | [] => "."
  | _ => join_all rel_list
  end.

End OsPath.

(** ** The file system and the trace of operations *)

(** What the extractor can observe of a regular file. *)
Record file : Type := mkFile {
  st_size : outcome Z;        (* [os.path.getsize] *)
  text : outcome string       (* [open(p, 'r', encoding='utf-8', errors='ignore').read()] *)
}.

(** A directory entry is a regular file or a directory; [os.listdir] on a
    directory returns its entries (in the order of the list) or raises. *)
Inductive node : Type :=
| File (f : file)
| Dir (listing : outcome (list (string * node))).

(** The calls the extractor makes on the file system and on the format
    readers, each with the path it is given. *)
Inductive event : Type :=
| Listdir (path : string)
| Isdir (path : string)
| Getsize (path : string)
| OpenText (path : string)
| ReadExcel (path : string)
| ReadIpynb (path : string)
| ReadDocx (path : string)
| Scandir (path : string).

Definition event_path (e : event) : string :=
  match e with
  | Listdir p | Isdir p | Getsize p | OpenText p
  | ReadExcel p | ReadIpynb p | ReadDocx p | Scandir p => p
  end.

(** A computation that performs file-system calls: its value and the calls
    in the order they were made. *)
Definition IO (A : Type) : Type := (A * list event)%type.

Definition ret {A} (a : A) : IO A := (a, []).
Definition bind {A B} (m : IO A) (k : A -> IO B) : IO B :=
  let r := k (fst m) in (fst r, snd m ++ snd r).
Definition tell (e : event) : IO unit := (tt, [e]).

Notation "'let*' x := m 'in' k" := (bind m (fun x => k))
  (at level 10, x pattern, m at level 100, k at level 200).
Notation "m ;;; k" := (bind m (fun _ => k))
  (at level 100, k at level 200, right associativity).

(** A loop with an accumulator: [for x in l: acc = body(acc, x)]. *)
Fixpoint for_each {A B} (l : list A) (body : B -> A -> IO B) (acc : B) : IO B :=
  match l with
  | [] => ret acc
  | x :: l' => let* acc' := body acc x in for_each l' body acc'
  end.

(** [str(ex)] of the [NotADirectoryError] of [os.listdir] on a regular
    file. *)
Definition not_a_directory (path : string) : string :=
  "[Errno 20] Not a directory: '" +:+ path +:+ "'".

(** [os.listdir] *)
Definition listdir (t : node) (path : string) : IO (outcome (list (string * node))) :=
  tell (Listdir path) ;;;
  ret (match t with
       | Dir l => l
       | File _ => Raise (not_a_directory path)
       end).

(** [sorted(items)] on directory entries, by name.  Insertion from the
    right keeps entries of equal name in their order, as Python's stable
    sort does. *)
Fixpoint insert_sorted {A} (x : string * A) (l : list (string * A)) : list (string * A) :=
  match l with
  | [] => [x]
  | y :: l' => if String.leb (fst x) (fst y) then x :: l else y :: insert_sorted x l'
  end.
Fixpoint sorted {A} (l : list (string * A)) : list (string * A) :=
  match l with
  | [] => []
  | x :: l' => insert_sorted x (sorted l')
  end.

(** ** Statistics *)

(** The [stats] dictionary of the extractor. *)
Record Stats : Type := mkStats {
  words : Z; lines : Z; characters : Z; tokens : Z; size : Z
}.

(** The [stats] dictionary of a format reader: it has no ['size'] key. *)
Record FileStats : Type := mkFileStats {
  f_words : Z; f_lines : Z; f_characters : Z; f_tokens : Z
}.

Definition stats0 : Stats := mkStats 0 0 0 0 0.
Definition file_stats0 : FileStats := mkFileStats 0 0 0 0.

(** [for key in stats: stats[key] += sub_stats[key]] *)
Definition add_stats (s sub : Stats) : Stats :=
  mkStats (words s + words sub) (lines s + lines sub)
          (characters s + characters sub) (tokens s + tokens sub)
          (size s + size sub).

(** [for key in stats: if key in file_stats: stats[key] += file_stats[key]] *)
Definition add_file_stats (s : Stats) (fs : FileStats) : Stats :=
  mkStats (words s + f_words fs) (lines s + f_lines fs)
          (characters s + f_characters fs) (tokens s + f_tokens fs)
          (size s).

(** [stats['size'] += file_size] *)
Definition add_size (s : Stats) (file_size : Z) : Stats :=
  mkStats (words s) (lines s) (characters s) (tokens s) (size s + file_size).

(** ** Byte-size humanisation *)

(** [float(n)] for an integer: the nearest binary64 number, ties to even. *)
Definition float_of_int (n : Z) : float :=
  SF2Prim (binary_normalize prec emax n 0 false).

(** The quotient [n / d] of two positive integers rounded to the nearest
    integer, ties to even. *)
Definition round_half_even (n d : Z) : Z :=
  let q := (n / d)%Z in
  let r := (n mod d)%Z in
  if (2 * r <? d)%Z then q
  else if (d <? 2 * r)%Z then (q + 1)%Z
  else if Z.even q then q else (q + 1)%Z.

(** [s.rjust(width)] *)
Definition rjust (width : nat) (s : string) : string :=
  Py.repeat " " (width - String.length s) +:+ s.

(** [f"{num:W.1f}"]: the exact value of the float, rounded to one decimal
    (ties to even), right-aligned in [width] columns. *)
Definition format_1f (width : nat) (num : float) : string :=
  rjust width
    match Prim2SF num with
    | S754_nan => "nan"
    | S754_infinity s => if s then "-inf" else "inf"
    | S754_zero s => if s then "-0.0" else "0.0"
    | S754_finite s m e =>
        let tenths :=
          if (0 <=? e)%Z then (Zpos m * 10 * 2 ^ e)%Z
          else round_half_even (Zpos m * 10) (2 ^ (- e)) in
        (if s then "-" else "")
        +:+ Py.str_int (tenths / 10) +:+ "." +:+ Py.str_int (tenths mod 10)
    end.

(** The loop [for unit in ['B', 'KB', 'MB', 'GB', 'TB']] of
    [human_readable_size], with the final [PB] line. *)
Fixpoint human_readable_size_loop (units : list string) (num : float) : string :=
  match units with
  | [] => format_1f 0 num +:+ " PB"
  | unit :: rest =>
      if (num <? 1024)%float then format_1f 3 num +:+ " " +:+ unit
      else human_readable_size_loop rest (num / 1024)%float
  end.

(** [human_readable_size] *)
Definition human_readable_size (num : float) : string :=
  human_readable_size_loop ["B"; "KB"; "MB"; "GB"; "TB"] num.

(** ** JSON values *)

(** What [json.loads] returns. *)
Inductive json : Type :=
| JNull
| JBool (b : bool)
| JInt (n : Z)
| JFloat (x : float)
| JStr (s : string)
| JList (l : list json)
| JDict (d : list (string * json)).

(** [type(v).__name__] *)
Definition type_name (v : json) : string :=
  match v with
  | JNull => "NoneType"
  | JBool _ => "bool"
  | JInt _ => "int"
  | JFloat _ => "float"
  | JStr _ => "str"
  | JList _ => "list"
  | JDict _ => "dict"
  end.

(** ** [ProjectContextExtractor] *)

(** The newline character, [\n]. *)
Definition nl : string := String "010"%char "".

(** The instance attributes of the extractor. *)
Record extractor : Type := mkExtractor {
  exclusions : gset string;
  extensions : gset string
}.

Definition DEFAULT_EXCLUSIONS : gset string :=
  {[ "venv"; "MyVenv"; ".venv"; "env"; "log"; "logs"; ".env"; "node_modules";
     ".git"; "__pycache__"; ".mypy_cache"; ".pytest_cache"; ".idea"; ".vscode";
     ".DS_Store"; ".cache"; ".ipynb_checkpoints"; ".history"; ".svn"; ".hg";
     ".tox"; ".coverage"; ".gitignore"; ".gitattributes"; ".yarn";
     ".parcel-cache"; ".next"; ".nuxt"; ".node_modules"; ".dist" ]}.

(** [ProjectContextExtractor.__init__] *)
Definition init_extractor : extractor :=
  {| exclusions := ∅;
     extensions :=
       {[ ".py"; ".pyw"; ".ipynb"; ".txt"; ".pdf"; ".docx"; ".xlsx"; ".xls";
          ".js"; ".jsx"; ".ts"; ".tsx"; ".vue"; ".html"; ".css";
          ".c"; ".h"; ".hpp"; ".hh"; ".cc"; ".cpp"; ".cxx"; ".c++";
          ".sh"; ".bash"; ".zsh"; ".ksh"; ".bat"; ".cmd"; ".make"; ".mk"; "Makefile";
          ".java"; ".go"; ".rs"; ".swift"; ".php"; ".rb"; ".pl"; ".pm";
          ".scala"; ".kt"; ".kts"; ".lua"; ".sql";
          ".xml"; ".yml"; ".yaml"; ".json"; ".md"; ".csv"; ".ini"; ".cfg"; ".conf"; ".toml";
          ".ps1"; ".psm1"; ".psd1"; ".cmake"; "CMakeLists.txt"; "Dockerfile";
          "dockerfile"; "Vagrantfile"; "Procfile" ]} |}.

(** [set_extensions]: the loop over [extension_list]. *)
Fixpoint set_extensions_loop (extension_list : list string) (acc : gset string)
  : gset string :=
  match extension_list with
  | [] => acc
  | e :: rest =>
      let e := Py.lower (Py.strip e) in
      if String.eqb e "" then set_extensions_loop rest acc
      else
        let e := if negb (Py.startswith e ".") then "." +:+ e else e in
        set_extensions_loop rest (acc ∪ {[ e ]})
  end.

Definition set_extensions (self : extractor) (extension_list : list string)
  : extractor :=
  {| exclusions := exclusions self;
     extensions := set_extensions_loop extension_list ∅ |}.

(** [set_exclusions] *)
Definition set_exclusions (self : extractor) (exclusions_arg : list string)
  : extractor :=
  let new_exclusions : gset string :=
    list_to_set (map Py.strip
                   (filter (fun x => Py.strip x <> "") exclusions_arg)) in
  {| exclusions := DEFAULT_EXCLUSIONS ∪ new_exclusions;
     extensions := extensions self |}.

(** The readers of the spreadsheet, notebook and document formats wrap
    third-party parsers; they are taken as given functions of the file path
    and the indentation level. *)
Record FormatReaders : Type := mkReaders {
  DOCX_AVAILABLE : bool;
  extract_excel_content : string -> nat -> string * FileStats;
  extract_ipynb_content : string -> nat -> string * FileStats;
  extract_docx_content : string -> nat -> string * FileStats
}.

Definition supported_text_exts : gset string :=
  {[ ".txt"; ".py"; ".js"; ".jsx"; ".ts"; ".tsx"; ".vue";
     ".html"; ".css"; ".json"; ".xml"; ".md"; ".csv"; ".log";
     ".ini"; ".cfg"; ".conf"; ".sh"; ".bat"; ".c"; ".cpp"; ".h";
     ".java"; ".yml"; ".yaml" ]}.

(** [' ' * 4 * indent_level] *)
Definition indentation (indent_level : nat) : string :=
  Py.repeat "    " indent_level.

(** The three lists and the dictionary that the traversal accumulates. *)
Record Report : Type := mkReport {
  structure_output : list string;
  content_output : list string;
  stats : Stats
}.

Definition empty_report : Report := mkReport [] [] stats0.

Section Extraction.

Variable readers : FormatReaders.

(** [extract_file_content].  The lower-cased extension is only compared
    with ASCII literals, and no character outside ASCII is lower-cased to
    a letter of one of them; the ASCII case mapping decides these tests as
    [str.lower] does. *)
Definition extract_file_content (f : file) (filepath : string) (indent_level : nat)
  : IO (string * FileStats) :=
  let ext := Py.lower (snd (OsPath.splitext filepath)) in
  let indent := indentation indent_level in
  if decide (ext ∈ supported_text_exts) then
    tell (OpenText filepath) ;;;
    ret (match text f with
         | Ok file_content =>
             (indent +:+ "Content:" +:+ nl +:+ file_content,
              mkFileStats (Py.split_len file_content) (Py.count "010" file_content)
                          (Py.len file_content) (Py.split_len file_content))
         | Raise e =>
             (indent +:+ "[Error reading text file: " +:+ e +:+ "]", file_stats0)
         end)
  else if decide (ext ∈ ({[ ".xlsx"; ".xls" ]} : gset string)) then
    tell (ReadExcel filepath) ;;;
    ret (extract_excel_content readers filepath indent_level)
  else if String.eqb ext ".ipynb" then
    tell (ReadIpynb filepath) ;;;
    ret (extract_ipynb_content readers filepath indent_level)
  else if String.eqb ext ".docx" then
    if DOCX_AVAILABLE readers then
      tell (ReadDocx filepath) ;;;
      ret (extract_docx_content readers filepath indent_level)
    else ret (indent +:+ "[python-docx not installed]", file_stats0)
  else if String.eqb ext ".pdf" then
    ret (indent +:+ "[PDF file (content not extracted)]", file_stats0)
  else
    ret (indent +:+ "[Binary or unsupported file]", file_stats0).

(** The body of the loop [for item in items] of
    [get_folder_structure_and_content]; [recurse] is the recursive call on
    the entry. *)
Definition visit_item (self : extractor) (extract_content : bool)
    (folder_path : string) (indent_level : nat)
    (acc : Report) (item : string) (child : node)
    (recurse : string -> nat -> IO Report) : IO Report :=
  let indent := indentation indent_level in
  if decide (item ∈ exclusions self) then ret acc
  else
    let item_path := OsPath.join folder_path item in
    tell (Isdir item_path) ;;;
    match child with
    | Dir _ =>
        (* Process Directory: [os.path.isdir(item_path)] holds *)
        let* sub := recurse item_path (S indent_level) in
        ret {| structure_output :=
                 (structure_output acc ++ [indent +:+ item +:+ "/"])
                 ++ structure_output sub;
               content_output := content_output acc ++ content_output sub;
               stats := add_stats (stats acc) (stats sub) |}
    | File f =>
        (* Process File *)
        let ext := Py.lower (snd (OsPath.splitext item_path)) in
        if decide (ext ∈ extensions self) then
          let structure_output' := structure_output acc ++ [indent +:+ item] in
          if negb extract_content then
            ret {| structure_output := structure_output';
                   content_output := content_output acc;
                   stats := stats acc |}
          else
            let content_output' :=
              content_output acc ++ [nl +:+ indent +:+ "File: " +:+ item_path] in
            tell (Getsize item_path) ;;;
            match st_size f with
            | Ok file_size =>
                let stats' := add_size (stats acc) file_size in
                if (file_size >? 100 * 1024)%Z then
                  ret {| structure_output := structure_output';
                         content_output :=
                           content_output' ++ [indent +:+ "[File too large to display]"];
                         stats := stats' |}
                else
                  let* r := extract_file_content f item_path indent_level in
                  ret {| structure_output := structure_output';
                         content_output := content_output' ++ [fst r];
                         stats := add_file_stats stats' (snd r) |}
            | Raise e =>
                ret {| structure_output := structure_output';
                       content_output :=
                         content_output'
                         ++ [indent +:+ "[Error reading file: " +:+ e +:+ "]"];
                       stats := stats acc |}
            end
        else ret acc
    end.

(** [get_folder_structure_and_content].  The recursive calls are attached to
    the entries before they are sorted, so that the recursion is on the
    tree; [get_folder_structure_and_content_eq] below gives the function in
    the form of the source. *)
Fixpoint get_folder_structure_and_content (self : extractor)
    (extract_content : bool) (t : node) {struct t}
  : string -> nat -> IO Report :=
  fun folder_path indent_level =>
    let cannot_open ex :=
      {| structure_output := [indentation indent_level +:+ "[Cannot open: " +:+ ex +:+ "]"];
         content_output := [];
         stats := stats0 |} in
    tell (Listdir folder_path) ;;;
    match t with
    | Dir (Ok entries) =>
        for_each
          (sorted (map (fun e => (fst e, (snd e,
                          get_folder_structure_and_content self extract_content (snd e))))
                       entries))
          (fun acc it =>
             visit_item self extract_content folder_path indent_level
                        acc (fst it) (fst (snd it)) (snd (snd it)))
          empty_report
    | Dir (Raise ex) => ret (cannot_open ex)
    | File _ => ret (cannot_open (not_a_directory folder_path))
    end.


(** [self.exclusions = self.DEFAULT_EXCLUSIONS.union(self.exclusions)] *)
Definition with_default_exclusions (self : extractor) : extractor :=
  {| exclusions := DEFAULT_EXCLUSIONS ∪ exclusions self;
     extensions := extensions self |}.

Definition separator : string := nl +:+ "######################################" +:+ nl.

(** [build_context]: the extractor after the call, and the report. *)
Definition build_context (self : extractor) (t : node) (folder_path : string)
    (extract_content : bool) : extractor * IO string :=
  let self := with_default_exclusions self in
  (self,
   let* r := get_folder_structure_and_content self extract_content t folder_path 0 in
   let result := ["FOLDER STRUCTURE:"] ++ structure_output r in
   let result :=
     if extract_content then
       result ++ [separator] ++ ["FILE CONTENTS:"] ++ content_output r
       ++ [separator]
       ++ ["Statistics: " +:+ Py.str_int (words (stats r)) +:+ " words, "
           +:+ Py.str_int (lines (stats r)) +:+ " lines, "
           +:+ Py.str_int (characters (stats r)) +:+ " chars, ~"
           +:+ Py.str_int (tokens (stats r)) +:+ " tokens. "
           +:+ "Size: " +:+ human_readable_size (float_of_int (size (stats r)))]
     else result in
   ret (Py.strip (Py.join nl result))).

Variable cwd : string.               (* [os.getcwd()] *)
Variable islink : string -> bool.    (* [os.path.islink] *)
Variable lower : string -> string.   (* [str.lower] *)

(** The first entry of a directory with the given name. *)
Fixpoint lookup_entry {A} (name : string) (entries : list (string * A)) : option A :=
  match entries with
  | [] => None
  | e :: rest => if String.eqb (fst e) name then Some (snd e) else lookup_entry name rest
  end.

(** The names of the sub-directories, and the regular files, of a listing,
    in the order of the listing. *)
Definition subdir_names (entries : list (string * node)) : list string :=
  omap (fun e => match snd e with Dir _ => Some (fst e) | File _ => None end) entries.
Definition regular_files (entries : list (string * node)) : list (string * file) :=
  omap (fun e => match snd e with File f => Some (fst e, f) | Dir _ => None end) entries.

(** [for root, dirs, files in os.walk(top): body], top-down.  [body] gets
    the accumulator, [root], [dirs] and [files] (each file with what can be
    observed of it) and returns the accumulator and the list [dirs] as its
    in-place edits left it.  Of these, [os.walk], called without
    [followlinks], walks the ones that are not symbolic links: a link to a
    directory is in [dirs] and is not entered.  A directory that cannot be
    scanned is passed over.  The trace records the scans; the tests of
    [os.walk] on the entries of a scan ([is_dir], [islink]) are not
    recorded. *)
Fixpoint os_walk {A} (body : A -> string -> list string -> list (string * file)
                             -> IO (A * list string))
    (t : node) {struct t} : string -> A -> IO A :=
  fun top acc =>
    tell (Scandir top) ;;;
    match t with
    | Dir (Ok entries) =>
        let children := map (fun e => (fst e, os_walk body (snd e))) entries in
        let* r := body acc top (subdir_names entries) (regular_files entries) in
        for_each (snd r)
          (fun acc dirname =>
             let new_path := OsPath.join top dirname in
             (* [if followlinks or not islink(new_path)] *)
             if islink new_path then ret acc
             else
               match lookup_entry dirname children with
               | Some walk_child => walk_child new_path acc
               | None => tell (Scandir new_path) ;;; ret acc
               end)
          (fst r)
    | Dir (Raise _) | File _ => ret acc
    end.

(** [[os.path.normpath(f).lower() for f in target_files]]; a target that is
    not a string makes [os.path.normpath] raise [TypeError]. *)
Fixpoint clean_targets_of (target_files : list json) : outcome (list string) :=
  match target_files with
  | [] => Ok []
  | JStr f :: rest =>
      match clean_targets_of rest with
      | Ok l => Ok (lower (OsPath.normpath f) :: l)
      | Raise ex => Raise ex
      end
  | v :: _ =>
      Raise ("expected str, bytes or os.PathLike object, not " +:+ type_name v)
  end.

(** The accumulators of the second walk of [build_targeted_context]. *)
Definition targeted_acc : Type := (list string * FileStats)%type.

(** The loop [for file in files] of [build_targeted_context]. *)
Definition targeted_file (self : extractor) (folder_path : string)
    (clean_targets : list string) (root : string)
    (acc : targeted_acc) (entry : string * file) : IO targeted_acc :=
  let file := fst entry in
  if decide (file ∈ exclusions self) then ret acc
  else
    let full_path := OsPath.join root file in
    let rel_path := OsPath.relpath cwd full_path folder_path in
    if (bool_decide (lower (OsPath.normpath rel_path) ∈ clean_targets)
        || bool_decide (lower file ∈ clean_targets))%bool
    then
      let* r := extract_file_content (snd entry) full_path 1 in
      ret (fst acc ++ [nl +:+ "File: " +:+ rel_path] ++ [fst r],
           mkFileStats (f_words (snd acc) + f_words (snd r))
                       (f_lines (snd acc) + f_lines (snd r))
                       (f_characters (snd acc) + f_characters (snd r))
                       (f_tokens (snd acc) + f_tokens (snd r)))
    else ret acc.

(** The body of the loop over [os.walk(folder_path)]. *)
Definition targeted_body (self : extractor) (folder_path : string)
    (clean_targets : list string)
    (acc : targeted_acc) (root : string) (dirs : list string)
    (files : list (string * file)) : IO (targeted_acc * list string) :=
  (* Apply directory exclusions: [dirs[:] = [d for d in dirs if ...]] *)
  let dirs := filter (fun d => d ∉ exclusions self) dirs in
  let* acc := for_each files (targeted_file self folder_path clean_targets root) acc in
  ret (acc, dirs).

(** [build_targeted_context]: the extractor after the call, and the report
    or the exception. *)
Definition build_targeted_context (self : extractor) (t : node)
    (folder_path : string) (target_files : list json)
  : extractor * IO (outcome string) :=
  let self := with_default_exclusions self in
  (self,
   (* 1. Retrieve full folder structure (without content) *)
   let* r := get_folder_structure_and_content self false t folder_path 0 in
   let struct := structure_output r in
   (* 2. Extract content specific to the target files *)
   match clean_targets_of target_files with
   | Raise ex => ret (Raise ex)
   | Ok clean_targets =>
       let* w := os_walk (targeted_body self folder_path clean_targets)
                         t folder_path ([], file_stats0) in
       let content_output := fst w in
       let stats := snd w in
       let result :=
         ["FOLDER STRUCTURE (Full):"] ++ struct ++ [separator]
         ++ ["SELECTED RELEVANT FILE CONTENTS ("
             +:+ Py.str_int (Z.of_nat (List.length content_output) / 2)
             +:+ " files):"]
         ++ content_output ++ [separator]
         ++ ["Targeted Stats: ~" +:+ Py.str_int (f_tokens stats) +:+ " tokens."] in
       ret (Ok (Py.strip (Py.join nl result)))
   end).

End Extraction.

(** ** [HolaIbotApp]: the smart query and its retries *)

(** The double quote character. *)
Definition dq : string := String "034"%char "".

(** An entry of a chat: [{"role": ..., "content": ...}]. *)
Record message : Type := mkMessage { role : string; content : string }.

(** The slot connected to the [finished] signal of a worker. *)
Inductive slot : Type := on_filter_response_slot | on_gpt_response_slot.

(** A started [GptWorker]: the request it carries and the slot that will
    receive the reply. *)
Record GptWorker : Type := mkWorker {
  messages : list message;
  model_name : string;
  finished : slot
}.

(** The calls on the response pane. *)
Inductive edit_op : Type :=
| Append (s : string)
| InsertPlainText (s : string).

(** The attributes and widgets of the application that the project chat
    reads or writes. *)
Record HolaIbotApp : Type := mkApp {
  the_extractor : extractor;
  chat_history : list message;
  loaded_context : string;
  loaded_path : option string;
  gpt_worker : option GptWorker;
  conversation_font_size : Z;
  markdown_enabled : bool;
  current_query_attempt : Z;
  current_user_prompt : string;
  is_smart_filtering : bool;
  responseEdit : list edit_op;    (* the calls made on the pane, in order *)
  promptEdit : string;            (* its text *)
  contextEdit : string;           (* its text *)
  mode_show_prompt : bool;        (* is the radio button checked *)
  askButton : bool;               (* is the button enabled *)
  otherButtons : bool             (* select, reload, extensions, exclusions *)
}.

(** [HolaIbotApp.__init__] *)
Definition init_app : HolaIbotApp :=
  {| the_extractor := init_extractor;
     chat_history := [];
     loaded_context := "";
     loaded_path := None;
     gpt_worker := None;
     conversation_font_size := 8;
     markdown_enabled := false;
     current_query_attempt := 0;
     current_user_prompt := "";
     is_smart_filtering := false;
     responseEdit := [];
     promptEdit := "";
     contextEdit := "";
     mode_show_prompt := false;
     askButton := true;
     otherButtons := true |}.

(** What happens around the application: the calls on the file system, the
    workers started ([GptWorker.start]) and the replies they deliver
    ([GptWorker.finished]). *)
Inductive app_event : Type :=
| Fs (e : event)
| Started (w : GptWorker)
| Finished (w : GptWorker) (result : string).

(** How a call ends: it returns, or an exception leaves it. *)
Inductive completion (A : Type) : Type :=
| Returned (a : A)
| Uncaught (ex : string).
Arguments Returned {A} a.
Arguments Uncaught {A} ex.

(** A method of the application: from the application before the call to
    the completion, the application after it and the events. *)
Definition Method (A : Type) : Type :=
  HolaIbotApp -> completion A * HolaIbotApp * list app_event.

Definition mret {A} (a : A) : Method A := fun self => (Returned a, self, []).

Definition mbind {A B} (m : Method A) (k : A -> Method B) : Method B :=
  fun self =>
    match m self with
    | (Returned a, self1, ev1) =>
        match k a self1 with
        | (c, self2, ev2) => (c, self2, ev1 ++ ev2)
        end
    | (Uncaught ex, self1, ev1) => (Uncaught ex, self1, ev1)
    end.

Notation "'let!' x := m 'in' k" := (mbind m (fun x => k))
  (at level 10, x pattern, m at level 100, k at level 200).
Notation "m >>> k" := (mbind m (fun _ => k))
  (at level 100, k at level 200, right associativity).

Definition get {A} (field : HolaIbotApp -> A) : Method A :=
  fun self => (Returned (field self), self, []).
Definition modify (f : HolaIbotApp -> HolaIbotApp) : Method unit :=
  fun self => (Returned tt, f self, []).
Definition raise {A} (ex : string) : Method A :=
  fun self => (Uncaught ex, self, []).
Definition emit (evs : list app_event) : Method unit :=
  fun self => (Returned tt, self, evs).

(** Run a computation of the extractor, recording its file-system calls. *)
Definition lift_io {A} (m : IO A) : Method A :=
  fun self => (Returned (fst m), self, map Fs (snd m)).

(** Assignment to one attribute. *)
Definition set_the_extractor (v : extractor) (self : HolaIbotApp) : HolaIbotApp :=
  {| the_extractor := v;
     chat_history := chat_history self;
     loaded_context := loaded_context self;
     loaded_path := loaded_path self;
     gpt_worker := gpt_worker self;
     conversation_font_size := conversation_font_size self;
     markdown_enabled := markdown_enabled self;
     current_query_attempt := current_query_attempt self;
     current_user_prompt := current_user_prompt self;
     is_smart_filtering := is_smart_filtering self;
     responseEdit := responseEdit self;
     promptEdit := promptEdit self;
     contextEdit := contextEdit self;
     mode_show_prompt := mode_show_prompt self;
     askButton := askButton self;
     otherButtons := otherButtons self |}.
Definition set_chat_history (v : list message) (self : HolaIbotApp) : HolaIbotApp :=
  {| the_extractor := the_extractor self;
     chat_history := v;
     loaded_context := loaded_context self;
     loaded_path := loaded_path self;
     gpt_worker := gpt_worker self;
     conversation_font_size := conversation_font_size self;
     markdown_enabled := markdown_enabled self;
     current_query_attempt := current_query_attempt self;
     current_user_prompt := current_user_prompt self;
     is_smart_filtering := is_smart_filtering self;
     responseEdit := responseEdit self;
     promptEdit := promptEdit self;
     contextEdit := contextEdit self;
     mode_show_prompt := mode_show_prompt self;
     askButton := askButton self;
     otherButtons := otherButtons self |}.
Definition set_loaded_context (v : string) (self : HolaIbotApp) : HolaIbotApp :=
  {| the_extractor := the_extractor self;
     chat_history := chat_history self;
     loaded_context := v;
     loaded_path := loaded_path self;
     gpt_worker := gpt_worker self;
     conversation_font_size := conversation_font_size self;
     markdown_enabled := markdown_enabled self;
     current_query_attempt := current_query_attempt self;
     current_user_prompt := current_user_prompt self;
     is_smart_filtering := is_smart_filtering self;
     responseEdit := responseEdit self;
     promptEdit := promptEdit self;
     contextEdit := contextEdit self;
     mode_show_prompt := mode_show_prompt self;
     askButton := askButton self;
     otherButtons := otherButtons self |}.
Definition set_loaded_path (v : option string) (self : HolaIbotApp) : HolaIbotApp :=
  {| the_extractor := the_extractor self;
     chat_history := chat_history self;
     loaded_context := loaded_context self;
     loaded_path := v;
     gpt_worker := gpt_worker self;
     conversation_font_size := conversation_font_size self;
     markdown_enabled := markdown_enabled self;
     current_query_attempt := current_query_attempt self;
     current_user_prompt := current_user_prompt self;
     is_smart_filtering := is_smart_filtering self;
     responseEdit := responseEdit self;
     promptEdit := promptEdit self;
     contextEdit := contextEdit self;
     mode_show_prompt := mode_show_prompt self;
     askButton := askButton self;
     otherButtons := otherButtons self |}.
Definition set_gpt_worker (v : option GptWorker) (self : HolaIbotApp) : HolaIbotApp :=
  {| the_extractor := the_extractor self;
     chat_history := chat_history self;
     loaded_context := loaded_context self;
     loaded_path := loaded_path self;
     gpt_worker := v;
     conversation_font_size := conversation_font_size self;
     markdown_enabled := markdown_enabled self;
     current_query_attempt := current_query_attempt self;
     current_user_prompt := current_user_prompt self;
     is_smart_filtering := is_smart_filtering self;
     responseEdit := responseEdit self;
     promptEdit := promptEdit self;
     contextEdit := contextEdit self;
     mode_show_prompt := mode_show_prompt self;
     askButton := askButton self;
     otherButtons := otherButtons self |}.
Definition set_current_query_attempt (v : Z) (self : HolaIbotApp) : HolaIbotApp :=
  {| the_extractor := the_extractor self;
     chat_history := chat_history self;
     loaded_context := loaded_context self;
     loaded_path := loaded_path self;
     gpt_worker := gpt_worker self;
     conversation_font_size := conversation_font_size self;
     markdown_enabled := markdown_enabled self;
     current_query_attempt := v;
     current_user_prompt := current_user_prompt self;
     is_smart_filtering := is_smart_filtering self;
     responseEdit := responseEdit self;
     promptEdit := promptEdit self;
     contextEdit := contextEdit self;
     mode_show_prompt := mode_show_prompt self;
     askButton := askButton self;
     otherButtons := otherButtons self |}.
Definition set_current_user_prompt (v : string) (self : HolaIbotApp) : HolaIbotApp :=
  {| the_extractor := the_extractor self;
     chat_history := chat_history self;
     loaded_context := loaded_context self;
     loaded_path := loaded_path self;
     gpt_worker := gpt_worker self;
     conversation_font_size := conversation_font_size self;
     markdown_enabled := markdown_enabled self;
     current_query_attempt := current_query_attempt self;
     current_user_prompt := v;
     is_smart_filtering := is_smart_filtering self;
     responseEdit := responseEdit self;
     promptEdit := promptEdit self;
     contextEdit := contextEdit self;
     mode_show_prompt := mode_show_prompt self;
     askButton := askButton self;
     otherButtons := otherButtons self |}.
Definition set_is_smart_filtering (v : bool) (self : HolaIbotApp) : HolaIbotApp :=
  {| the_extractor := the_extractor self;
     chat_history := chat_history self;
     loaded_context := loaded_context self;
     loaded_path := loaded_path self;
     gpt_worker := gpt_worker self;
     conversation_font_size := conversation_font_size self;
     markdown_enabled := markdown_enabled self;
     current_query_attempt := current_query_attempt self;
     current_user_prompt := current_user_prompt self;
     is_smart_filtering := v;
     responseEdit := responseEdit self;
     promptEdit := promptEdit self;
     contextEdit := contextEdit self;
     mode_show_prompt := mode_show_prompt self;
     askButton := askButton self;
     otherButtons := otherButtons self |}.
Definition set_responseEdit (v : list edit_op) (self : HolaIbotApp) : HolaIbotApp :=
  {| the_extractor := the_extractor self;
     chat_history := chat_history self;
     loaded_context := loaded_context self;
     loaded_path := loaded_path self;
     gpt_worker := gpt_worker self;
     conversation_font_size := conversation_font_size self;
     markdown_enabled := markdown_enabled self;
     current_query_attempt := current_query_attempt self;
     current_user_prompt := current_user_prompt self;
     is_smart_filtering := is_smart_filtering self;
     responseEdit := v;
     promptEdit := promptEdit self;
     contextEdit := contextEdit self;
     mode_show_prompt := mode_show_prompt self;
     askButton := askButton self;
     otherButtons := otherButtons self |}.
Definition set_promptEdit (v : string) (self : HolaIbotApp) : HolaIbotApp :=
  {| the_extractor := the_extractor self;
     chat_history := chat_history self;
     loaded_context := loaded_context self;
     loaded_path := loaded_path self;
     gpt_worker := gpt_worker self;
     conversation_font_size := conversation_font_size self;
     markdown_enabled := markdown_enabled self;
     current_query_attempt := current_query_attempt self;
     current_user_prompt := current_user_prompt self;
     is_smart_filtering := is_smart_filtering self;
     responseEdit := responseEdit self;
     promptEdit := v;
     contextEdit := contextEdit self;
     mode_show_prompt := mode_show_prompt self;
     askButton := askButton self;
     otherButtons := otherButtons self |}.
Definition set_contextEdit (v : string) (self : HolaIbotApp) : HolaIbotApp :=
  {| the_extractor := the_extractor self;
     chat_history := chat_history self;
     loaded_context := loaded_context self;
     loaded_path := loaded_path self;
     gpt_worker := gpt_worker self;
     conversation_font_size := conversation_font_size self;
     markdown_enabled := markdown_enabled self;
     current_query_attempt := current_query_attempt self;
     current_user_prompt := current_user_prompt self;
     is_smart_filtering := is_smart_filtering self;
     responseEdit := responseEdit self;
     promptEdit := promptEdit self;
     contextEdit := v;
     mode_show_prompt := mode_show_prompt self;
     askButton := askButton self;
     otherButtons := otherButtons self |}.
Definition set_askButton (v : bool) (self : HolaIbotApp) : HolaIbotApp :=
  {| the_extractor := the_extractor self;
     chat_history := chat_history self;
     loaded_context := loaded_context self;
     loaded_path := loaded_path self;
     gpt_worker := gpt_worker self;
     conversation_font_size := conversation_font_size self;
     markdown_enabled := markdown_enabled self;
     current_query_attempt := current_query_attempt self;
     current_user_prompt := current_user_prompt self;
     is_smart_filtering := is_smart_filtering self;
     responseEdit := responseEdit self;
     promptEdit := promptEdit self;
     contextEdit := contextEdit self;
     mode_show_prompt := mode_show_prompt self;
     askButton := v;
     otherButtons := otherButtons self |}.
Definition set_otherButtons (v : bool) (self : HolaIbotApp) : HolaIbotApp :=
  {| the_extractor := the_extractor self;
     chat_history := chat_history self;
     loaded_context := loaded_context self;
     loaded_path := loaded_path self;
     gpt_worker := gpt_worker self;
     conversation_font_size := conversation_font_size self;
     markdown_enabled := markdown_enabled self;
     current_query_attempt := current_query_attempt self;
     current_user_prompt := current_user_prompt self;
     is_smart_filtering := is_smart_filtering self;
     responseEdit := responseEdit self;
     promptEdit := promptEdit self;
     contextEdit := contextEdit self;
     mode_show_prompt := mode_show_prompt self;
     askButton := askButton self;
     otherButtons := v |}.

Section Application.

Variable readers : FormatReaders.
Variable cwd : string.                           (* [os.getcwd()] *)
Variable islink : string -> bool.                (* [os.path.islink] *)
Variable lower : string -> string.               (* [str.lower] *)
Variable project : node.                         (* the tree at [loaded_path] *)
Variable json_loads : string -> outcome json.    (* [json.loads] *)
Variable MARKDOWN_AVAILABLE : bool.
Variable markdown_to_html : string -> string.

(** [_display_agent_message] *)
Definition display_agent_message (prefix message color : string) : Method unit :=
  let msg := "<b style=" +:+ dq +:+ "color:" +:+ color +:+ ";" +:+ dq +:+ ">["
             +:+ prefix +:+ "]</b> <i>" +:+ message +:+ "</i>" in
  modify (fun self => set_responseEdit (responseEdit self ++ [Append msg]) self).

(** The default of the [color] parameter. *)
Definition default_color : string := "#F2B134".

(** [set_buttons_enabled] *)
Definition set_buttons_enabled (enabled : bool) : Method unit :=
  modify (fun self => set_askButton enabled (set_otherButtons enabled self)).

(** [clear_response] *)
Definition clear_response : Method unit :=
  modify (fun self =>
            set_chat_history [] (set_promptEdit "" (set_responseEdit [] self))).

(** [self.extractor.build_context(self.loaded_path, extract_content)].  With
    no path loaded the call raises [TypeError]. *)
Definition call_build_context (extract_content : bool) : Method (outcome string) :=
  let! path := get loaded_path in
  match path with
  | None => mret (Raise "expected str, bytes or os.PathLike object, not NoneType")
  | Some folder_path =>
      let! ex := get the_extractor in
      let r := build_context readers ex project folder_path extract_content in
      modify (set_the_extractor (fst r)) >>>
      let! text := lift_io (snd r) in
      mret (Ok text)
  end.

(** [self.extractor.build_targeted_context(self.loaded_path, target_files)] *)
Definition call_build_targeted_context (target_files : list json)
  : Method (outcome string) :=
  let! path := get loaded_path in
  match path with
  | None => mret (Raise "expected str, bytes or os.PathLike object, not NoneType")
  | Some folder_path =>
      let! ex := get the_extractor in
      let r := build_targeted_context readers cwd islink lower ex project folder_path
                 target_files in
      modify (set_the_extractor (fst r)) >>>
      lift_io (snd r)
  end.

(** [reload_context] *)
Definition reload_context : Method unit :=
  let! path := get loaded_path in
  if bool_decide (path = None \/ path = Some "") then mret tt
  else
    clear_response >>>
    modify (set_contextEdit "") >>>
    set_buttons_enabled false >>>
    modify (set_contextEdit "Extracting project structure...") >>>
    display_agent_message "System" "Extracting structure (Lazy Loading)..." default_color >>>
    (* Always extract just structure first. *)
    let! r := call_build_context false in
    match r with
    | Ok structure_only_text =>
        modify (set_loaded_context structure_only_text) >>>
        modify (set_contextEdit ("Structure Ready:" +:+ nl +:+ nl +:+ structure_only_text)) >>>
        display_agent_message "System"
          "Project Structure Loaded. Content will be fetched on demand." "#8ede64" >>>
        modify (set_promptEdit "") >>>
        modify (set_chat_history []) >>>
        set_buttons_enabled true
    | Raise e =>
        modify (set_contextEdit ("Error during structure extraction: " +:+ e)) >>>
        display_agent_message "Error" ("Structure extraction error : " +:+ e) "#FF6347" >>>
        set_buttons_enabled true
    end.

(** [build_system_prompt] *)
Definition build_system_prompt (specific_context : string) : string :=
  "You are an expert coding assistant.
Project context:
#####
" +:+ specific_context +:+ "
#####
If the context above is just a structure, it means the project is too large. Do your best with just filenames.
".

(** [display_user_prompt] *)
Definition display_user_prompt (prompt : string) : Method unit :=
  modify (fun self =>
    set_responseEdit
      (responseEdit self ++
       [Append (if markdown_enabled self
                then "<span style=" +:+ dq +:+ "color:#AAA;" +:+ dq +:+ ">You:</span>"
                     +:+ nl +:+ "<pre style=" +:+ dq +:+ "background:#222;color:#ddd"
                     +:+ dq +:+ ">" +:+ prompt +:+ "</pre>" +:+ nl
                else "You: " +:+ prompt +:+ nl)])
      self).

(** [display_gpt_output] *)
Definition display_gpt_output (response : string) : Method unit :=
  modify (fun self =>
    set_responseEdit
      (responseEdit self ++
       [Append (if (markdown_enabled self && MARKDOWN_AVAILABLE)%bool
                then "<div style='font-family:" +:+ dq +:+ "Fira Mono" +:+ dq
                     +:+ ",monospace; font-size:"
                     +:+ Py.str_int (conversation_font_size self) +:+ "pt;'>"
                     +:+ markdown_to_html response +:+ "</div>"
                else response)])
      self).

(** [GptWorker(messages, model_name)], [finished.connect(slot)], [start()]. *)
Definition start_worker (msgs : list message) (model : string) (s : slot)
  : Method unit :=
  let w := mkWorker msgs model s in
  modify (set_gpt_worker (Some w)) >>> emit [Started w].

Definition aggressive_instruction : string :=
  "Select ONLY the top 5 absolute most critical files needed to answer. Be extremely strict.".
Definition standard_instruction : string :=
  "Select all files that might be relevant to the user request.".

(** The [brain_prompt] of [run_mini_filter]. *)
Definition brain_prompt (loaded_context current_user_prompt instruction : string)
  : string :=
  "
You are the Context Optimizer. 
Project Structure:
" +:+ loaded_context +:+ "

User Request: " +:+ dq +:+ current_user_prompt +:+ dq +:+ "

Task: " +:+ instruction +:+ "
Return a JSON list of file paths (strings) relative to root. Example: ["
  +:+ dq +:+ "src/main.py" +:+ dq +:+ ", " +:+ dq +:+ "utils.py" +:+ dq +:+ "]
Do not write markdown, just the JSON array.
".

(** [run_mini_filter] *)
Definition run_mini_filter (aggressive : bool) : Method unit :=
  modify (set_is_smart_filtering true) >>>
  let instruction :=
    if aggressive then aggressive_instruction else standard_instruction in
  let! ctx := get loaded_context in
  let! prompt := get current_user_prompt in
  let messages := [mkMessage "user" (brain_prompt ctx prompt instruction)] in
  start_worker messages "gpt-5-mini" on_filter_response_slot.

(** [send_to_worker] *)
Definition send_to_worker (context_content : string) : Method unit :=
  modify (set_is_smart_filtering false) >>>
  let system_prompt := build_system_prompt context_content in
  let! history := get chat_history in
  let messages := [mkMessage "system" system_prompt] ++ history in
  display_agent_message "Worker (GPT-5.1)" "Transmitting request..." "#8ede64" >>>
  start_worker messages "gpt-5.1" on_gpt_response_slot.

(** [execute_smart_query_step] *)
Definition execute_smart_query_step : Method unit :=
  let! attempt := get current_query_attempt in
  (* ATTEMPT 1: Standard Smart Filter *)
  if (attempt =? 1)%Z then
    display_agent_message "Brain" "Analyzing query to select relevant files..." default_color >>>
    run_mini_filter false
  (* ATTEMPT 2: Aggressive Filter (Triggered after a 429) *)
  else if (attempt =? 2)%Z then
    display_agent_message ("Brain (Attempt " +:+ Py.str_int attempt +:+ ")")
      "Previous context too large. Switching to aggressive filtering..." "#FFA500" >>>
    run_mini_filter true
  (* ATTEMPT 3: Structure Only (Last Resort) *)
  else if (attempt =? 3)%Z then
    display_agent_message ("Brain (Attempt " +:+ Py.str_int attempt +:+ ")")
      "Still failing. Sending structure ONLY (No file content)." "#FF6347" >>>
    (* Skip Brain, go straight to Worker with Structure Only *)
    let! ctx := get loaded_context in
    send_to_worker ctx
  (* FAILED *)
  else
    display_agent_message "System"
      "Error: Project is too voluminous. Even structure-only failed or max retries reached."
      "#FF0000" >>>
    modify (set_askButton true).

(** [ask_gpt] *)
Definition ask_gpt : Method unit :=
  let! text := get promptEdit in
  let prompt := Py.strip text in
  if String.eqb prompt "" then mret tt
  else
    let! ctx := get loaded_context in
    if String.eqb ctx "" then mret tt   (* a warning box is shown *)
    else
      (* Save prompt and state *)
      modify (set_current_user_prompt prompt) >>>
      modify (fun self =>
                set_chat_history (chat_history self ++ [mkMessage "user" prompt]) self) >>>
      display_user_prompt prompt >>>
      modify (fun self =>
                set_responseEdit (responseEdit self ++ [InsertPlainText nl]) self) >>>
      modify (set_promptEdit "") >>>
      (* Check interaction mode *)
      let! show := get mode_show_prompt in
      if show then
        display_agent_message "System" "Generating full prompt (Reading files)..."
          default_color >>>
        let! r := call_build_context true in
        match r with
        | Raise e => raise e
        | Ok full_ctx =>
            let system_instruction := build_system_prompt full_ctx in
            let final_prompt_block :=
              "### FINAL PROMPT (FULL CONTENT) ###" +:+ nl +:+ nl
              +:+ "--- [PART 1: SYSTEM INSTRUCTION & CONTEXT] ---" +:+ nl
              +:+ system_instruction +:+ nl +:+ nl
              +:+ "--- [PART 2: USER REQUEST] ---" +:+ nl
              +:+ "User: " +:+ prompt +:+ nl in
            display_gpt_output final_prompt_block
        end
      else
        modify (set_askButton false) >>>
        (* Initialize Retry Logic Sequence *)
        modify (set_current_query_attempt 1) >>>
        execute_smart_query_step.

(** [re.search(r'\[.*\]', s, re.DOTALL)]: the span from the first opening
    bracket to the last closing bracket after it. *)
Definition bracket_span (s : string) : option string :=
  let i := Py.find "[" s in
  let j := Py.rfind "]" s in
  if ((0 <=? i) && (i <? j))%Z then Some (Py.slice s i (j + 1)) else None.

(** The [try] block of [on_filter_response]: the list of [relevant_files],
    or [str(e)] of the exception. *)
Definition parse_file_list (response : string) : outcome (list json) :=
  (* Cleanup code blocks if present *)
  let clean_resp := Py.strip response in
  let clean_resp :=
    if Py.contains "```" clean_resp then
      match bracket_span clean_resp with
      | Some m => m
      | None => clean_resp
      end
    else clean_resp in
  match json_loads clean_resp with
  | Ok (JList relevant_files) => Ok relevant_files
  | Ok _ => Raise "Not a list"
  | Raise ex => Raise ex
  end.

(** [', '.join(items)], where [items] starts at index [i] of the sequence:
    an item that is not a string raises [TypeError]. *)
Fixpoint join_items (i : Z) (items : list json) : outcome (list string) :=
  match items with
  | [] => Ok []
  | JStr x :: rest =>
      match join_items (i + 1) rest with
      | Ok l => Ok (x :: l)
      | Raise ex => Raise ex
      end
  | v :: _ =>
      Raise ("sequence item " +:+ Py.str_int i +:+ ": expected str instance, "
             +:+ type_name v +:+ " found")
  end.
Definition comma_join (items : list json) : outcome string :=
  match join_items 0 items with
  | Ok l => Ok (Py.join ", " l)
  | Raise ex => Raise ex
  end.

(** [on_filter_response] *)
Definition on_filter_response (response : string) : Method unit :=
  modify (set_gpt_worker None) >>>
  (* Parse JSON *)
  match parse_file_list response with
  | Raise e =>
      display_agent_message "Brain (Error)"
        ("Failed to parse file list: " +:+ e +:+ ". Using structure only fallback.")
        default_color >>>
      (* If parsing fails, jump to Attempt 3 logic immediately *)
      let! ctx := get loaded_context in
      send_to_worker ctx
  | Ok relevant_files =>
      (* Build Custom Context *)
      match comma_join (take 3 relevant_files) with
      | Raise e => raise e
      | Ok first_three =>
          display_agent_message "Brain"
            ("Selected " +:+ Py.str_int (Z.of_nat (List.length relevant_files))
             +:+ " files: " +:+ first_three +:+ "...") "#87CEEB" >>>
          let! r := call_build_targeted_context relevant_files in
          match r with
          | Ok custom_context => send_to_worker custom_context
          | Raise e =>
              display_agent_message "System" ("Error building context: " +:+ e)
                "#FF0000" >>>
              modify (set_askButton true)
          end
      end
  end.

Definition rate_limit_marker : string := "API Error (429)".

(** [on_gpt_response] *)
Definition on_gpt_response (response : string) : Method unit :=
  modify (set_gpt_worker None) >>>
  (* --- RETRY LOGIC CHECK --- *)
  if Py.contains rate_limit_marker response then
    display_agent_message "System" "Rate Limit (429) exceeded." "#FF6347" >>>
    (* Increment attempt counter and recurse *)
    modify (fun self =>
              set_current_query_attempt (current_query_attempt self + 1) self) >>>
    execute_smart_query_step
  else
    (* --- SUCCESS --- *)
    modify (set_askButton true) >>>
    display_agent_message "Worker (GPT-5.1)" "Response received." "#87CEEB" >>>
    modify (fun self =>
              set_chat_history (chat_history self ++ [mkMessage "assistant" response])
                               self) >>>
    modify (fun self =>
              set_responseEdit
                (responseEdit self ++
                 [Append (if (markdown_enabled self && MARKDOWN_AVAILABLE)%bool
                          then "<b style='color:#87CEEB'>Worker (GPT-5.1):</b>"
                          else nl +:+ "--- Worker (GPT-5.1) says: ---" +:+ nl)])
                self) >>>
    display_gpt_output response.

(** The worker in flight finishes with [response]: its [finished] signal
    calls the connected slot.  With no worker in flight nothing happens. *)
Definition deliver (response : string) : Method unit :=
  let! w := get gpt_worker in
  match w with
  | None => mret tt
  | Some w =>
      emit [Finished w response] >>>
      match finished w with
      | on_filter_response_slot => on_filter_response response
      | on_gpt_response_slot => on_gpt_response response
      end
  end.

(** The replies of the remote model arrive one after the other. *)
Fixpoint run (replies : list string) : Method unit :=
  match replies with
  | [] => mret tt
  | response :: rest => deliver response >>> run rest
  end.

End Application.

(** ** Notions used in the statements *)

(** The loop body of [get_folder_structure_and_content] at one entry of the
    listing, with the recursive call on that entry. *)
Definition walk_entry (readers : FormatReaders) (self : extractor)
    (extract_content : bool) (folder_path : string) (indent_level : nat)
    (acc : Report) (e : string * node) : IO Report :=
  visit_item readers self extract_content folder_path indent_level acc
    (fst e) (snd e)
    (get_folder_structure_and_content readers self extract_content (snd e)).

(** The report [a] extended with the report [b]: the lists appended, the
    statistics added. *)
Definition report_app (a b : Report) : Report :=
  {| structure_output := structure_output a ++ structure_output b;
     content_output := content_output a ++ content_output b;
     stats := add_stats (stats a) (stats b) |}.

(** The report of a directory that cannot be listed. *)
Definition cannot_open (indent_level : nat) (ex : string) : Report :=
  {| structure_output :=
       [indentation indent_level +:+ "[Cannot open: " +:+ ex +:+ "]"];
     content_output := [];
     stats := stats0 |}.

(** [visits self t folder_path indent_level item child dir n]: the traversal
    of [t], started at [folder_path] with [indent_level], runs its loop body
    past the exclusion test on the entry [item] (the node [child]) of the
    folder [dir], at indentation [n]; it got there through directories that
    the exclusion test let pass. *)
Inductive visits (self : extractor)
  : node -> string -> nat -> string -> node -> string -> nat -> Prop :=
| visits_here entries folder_path indent_level item child :
    In (item, child) entries ->
    item ∉ exclusions self ->
    visits self (Dir (Ok entries)) folder_path indent_level
           item child folder_path indent_level
| visits_below entries folder_path indent_level d sub item child dir n :
    In (d, sub) entries ->
    d ∉ exclusions self ->
    visits self sub (OsPath.join folder_path d) (S indent_level) item child dir n ->
    visits self (Dir (Ok entries)) folder_path indent_level item child dir n.

(** [block] occurs in [l] as a run of consecutive elements. *)
Definition has_block {A} (block l : list A) : Prop :=
  exists pre post, l = pre ++ block ++ post.

(** ** Sample inputs for the examples *)

(** Format readers of an installation without the optional packages:
    [extract_excel_content] reports the missing library, [python-docx] is
    absent, and the notebooks read have no cells. *)
Definition sample_readers : FormatReaders :=
  {| DOCX_AVAILABLE := false;
     extract_excel_content := fun _ indent_level =>
       (indentation indent_level +:+ "[Excel library not installed or unknown format]",
        file_stats0);
     extract_ipynb_content := fun _ indent_level =>
       (indentation indent_level +:+ "[Jupyter Notebook]", file_stats0);
     extract_docx_content := fun _ indent_level =>
       (indentation indent_level +:+ "[Word Document]", file_stats0) |}.

(** A readable text file with the given content. *)
Definition text_file (s : string) : node :=
  File {| st_size := Ok (Py.len s); text := Ok s |}.

(** A file of 150 KiB. *)
Definition big_file : file :=
  {| st_size := Ok (150 * 1024); text := Ok "x" |}.

(** A small project: sources, a build file, a log, a large file, a
    repository directory and a directory that cannot be listed. *)
Definition sample_project : node :=
  Dir (Ok [
    ("src", Dir (Ok [("main.py", text_file "print(1)");
                     ("Makefile", text_file "all:");
                     ("big.txt", File big_file)]));
    ("README.md", text_file "# hi there");
    (".git", Dir (Ok [("config.txt", text_file "secret")]));
    ("notes.log", text_file "log line");
    ("locked", Dir (Raise "[Errno 13] Permission denied: '/p/locked'"))
  ]).

(** A file system without symbolic links. *)
Definition no_links : string -> bool := fun _ => false.

(** A project at [/p] with a directory and a symbolic link to it: the
    link shows the entries of the directory. *)
Definition linked_project : node :=
  Dir (Ok [
    ("real", Dir (Ok [("x.py", text_file "print(1)");
                      ("notes.log", text_file "log line")]));
    ("link", Dir (Ok [("x.py", text_file "print(1)");
                      ("notes.log", text_file "log line")]))
  ]).
Definition linked_islink : string -> bool :=
  fun path => String.eqb path "/p/link".

(** The extractor as [build_context] runs it from a fresh instance. *)
Definition sample_extractor : extractor := with_default_exclusions init_extractor.

(** Is the entry a directory? *)
Definition is_dir (t : node) : bool :=
  match t with Dir _ => true | File _ => false end.

(** The tree without the entries that [keep], a test on the name and the
    kind of an entry, rejects. *)
Fixpoint prune (keep : string -> bool -> bool) (t : node) : node :=
  match t with
  | Dir (Ok entries) =>
      Dir (Ok (filter (fun e => keep (fst e) (is_dir (snd e)) = true)
                 (map (fun e => (fst e, prune keep (snd e))) entries)))
  | _ => t
  end.

(** The calls of a trace that satisfy [observed]. *)
Definition observe (observed : event -> bool) (trace : list event) : list event :=
  List.filter observed trace.

(** A line of the structure report that belongs to a visited entry, or is
    the diagnostic of a folder that could not be listed. *)
Definition structure_line_of (self : extractor) (t : node) (folder_path : string)
    (indent_level : nat) (line : string) : Prop :=
  (exists item child dir n,
      visits self t folder_path indent_level item child dir n
      /\ (line = indentation n +:+ item +:+ "/" \/ line = indentation n +:+ item))
  \/ (exists n ex, line = indentation n +:+ "[Cannot open: " +:+ ex +:+ "]").

(** A line of the content report that the loop body emits for a visited
    file. *)
Definition content_line_of (readers : FormatReaders) (self : extractor)
    (extract_content : bool) (t : node) (folder_path : string)
    (indent_level : nat) (line : string) : Prop :=
  exists item f dir n,
    visits self t folder_path indent_level item (File f) dir n
    /\ In line (content_output
                  (fst (visit_item readers self extract_content dir n empty_report
                          item (File f) (fun _ _ => ret empty_report)))).

(** A call on the folder the traversal started at, or on a visited entry. *)
Definition call_of (self : extractor) (t : node) (folder_path : string)
    (indent_level : nat) (ev : event) : Prop :=
  event_path ev = folder_path
  \/ exists item child dir n,
       visits self t folder_path indent_level item child dir n
       /\ event_path ev = OsPath.join dir item.

(** The test that keeps the entries whose name is not in [E]. *)
Definition not_excluded (E : gset string) : string -> bool -> bool :=
  fun name _ => bool_decide (name ∉ E).

(** The states of the extractor that the application can reach: a fresh
    instance, changed by the two setters and by the two report builders. *)
Inductive reachable_extractor : extractor -> Prop :=
| reach_init : reachable_extractor init_extractor
| reach_set_extensions self l :
    reachable_extractor self -> reachable_extractor (set_extensions self l)
| reach_set_exclusions self l :
    reachable_extractor self -> reachable_extractor (set_exclusions self l)
| reach_build self :
    reachable_extractor self -> reachable_extractor (with_default_exclusions self).

(** The test that keeps the directories and the files with a dot in their
    name. *)
Definition dotted_or_dir : string -> bool -> bool :=
  fun name dir => (dir || Py.contains "." name)%bool.

(** Is the call something else than [os.path.isdir]? *)
Definition not_isdir (ev : event) : bool :=
  match ev with Isdir _ => false | _ => true end.

(** A tree in which the names of the entries of every directory are
    distinct. *)
Inductive wf_tree : node -> Prop :=
| wf_file f : wf_tree (File f)
| wf_unreadable ex : wf_tree (Dir (Raise ex))
| wf_dir entries :
    NoDup (map fst entries) ->
    Forall (fun e => wf_tree (snd e)) entries ->
    wf_tree (Dir (Ok entries)).

(** [clean_targets] for a list of strings. *)
Definition clean_targets (lower : string -> string) (target_files : list string)
  : list string :=
  map (fun f => lower (OsPath.normpath f)) target_files.

(** The test of [build_targeted_context] on the file [item] of the folder
    [dir]: its normalised relative path, or its bare name, lower-cased, is
    one of the targets, normalised and lower-cased. *)
Definition matches_target (cwd : string) (lower : string -> string)
    (folder_path : string) (target_files : list string) (dir item : string) : Prop :=
  lower (OsPath.normpath (OsPath.relpath cwd (OsPath.join dir item) folder_path))
    ∈ clean_targets lower target_files
  \/ lower item ∈ clean_targets lower target_files.

#[global] Instance matches_target_dec cwd lower folder_path target_files dir item :
  Decision (matches_target cwd lower folder_path target_files dir item).
Proof. unfold matches_target. apply _. Defined.

(** The file [x], an entry [item] of the folder [dir], passes the test. *)
Definition is_target (cwd : string) (lower : string -> string)
    (folder_path : string) (target_files : list string)
    (x : string * file * string) : Prop :=
  matches_target cwd lower folder_path target_files (snd x) (fst (fst x)).

#[global] Instance is_target_dec cwd lower folder_path target_files x :
  Decision (is_target cwd lower folder_path target_files x).
Proof. unfold is_target. apply _. Defined.

(** The second walk of [build_targeted_context]: its accumulators and its
    trace. *)
Definition targeted_walk (readers : FormatReaders) (cwd : string)
    (islink : string -> bool) (lower : string -> string) (self : extractor)
    (t : node) (folder_path : string) (target_files : list string)
  : IO targeted_acc :=
  os_walk islink
    (targeted_body readers cwd lower (with_default_exclusions self) folder_path
       (clean_targets lower target_files))
    t folder_path ([], file_stats0).

(** [walked self islink t root item f dir]: the regular file [item] is an
    entry of the folder [dir] of the tree [t] at [root], neither its name
    nor the name of a directory on the way from [root] to it is excluded,
    and none of the directories entered below [root] on that way is a
    symbolic link. *)
Inductive walked (self : extractor) (islink : string -> bool)
  : node -> string -> string -> file -> string -> Prop :=
| walked_here entries root item f :
    In (item, File f) entries ->
    item ∉ exclusions self ->
    walked self islink (Dir (Ok entries)) root item f root
| walked_below entries root d sub item f dir :
    In (d, sub) entries ->
    d ∉ exclusions self ->
    islink (OsPath.join root d) = false ->
    walked self islink sub (OsPath.join root d) item f dir ->
    walked self islink (Dir (Ok entries)) root item f dir.

(** The files of [walked] in the order of a top-down walk: the files of a
    folder in the order of its listing, then what lies in its
    sub-directories, in the order of the listing. *)
Fixpoint walked_files (self : extractor) (islink : string -> bool) (t : node)
    {struct t} : string -> list (string * file * string) :=
  fun root =>
    match t with
    | Dir (Ok entries) =>
        omap (fun e =>
                match snd e with
                | File f =>
                    if decide (fst e ∈ exclusions self) then None
                    else Some (fst e, f, root)
                | Dir _ => None
                end) entries
        ++ flat_map
             (fun e =>
                match snd e with
                | Dir _ =>
                    if decide (fst e ∈ exclusions self) then []
                    else if islink (OsPath.join root (fst e)) then []
                    else walked_files self islink (snd e) (OsPath.join root (fst e))
                | File _ => []
                end)
             entries
    | _ => []
    end.

(** The two lines that the targeted extraction appends for the file [item]
    of the folder [dir]. *)
Definition targeted_entry (readers : FormatReaders) (cwd folder_path : string)
    (x : string * file * string) : list string :=
  let '(item, f, dir) := x in
  let full_path := OsPath.join dir item in
  [nl +:+ "File: " +:+ OsPath.relpath cwd full_path folder_path;
   fst (fst (extract_file_content readers f full_path 1))].

(** The statistics of the targeted extraction after the files [sel], from
    the statistics [acc]. *)
Definition targeted_stats (readers : FormatReaders)
    (sel : list (string * file * string)) (acc : FileStats) : FileStats :=
  fold_left
    (fun st x =>
       let '(item, f, dir) := x in
       let r := snd (fst (extract_file_content readers f (OsPath.join dir item) 1)) in
       mkFileStats (f_words st + f_words r) (f_lines st + f_lines r)
                   (f_characters st + f_characters r) (f_tokens st + f_tokens r))
    sel acc.

(** Is the call something else than [os.path.getsize]? *)
Definition not_getsize (ev : event) : bool :=
  match ev with Getsize _ => false | _ => true end.

(** [json.loads] on the replies of the examples: it decodes the arrays
    below and raises on the text that is not JSON.  The examples use it on
    no other text. *)
Definition sample_json_loads (s : string) : outcome json :=
  if String.eqb s "[1, 2]" then Ok (JList [JInt 1; JInt 2])
  else if String.eqb s ("[" +:+ dq +:+ "a.py" +:+ dq +:+ "]") then Ok (JList [JStr "a.py"])
  else Raise "Expecting value: line 1 column 1 (char 0)".

(** The replies delivered to [on_gpt_response], in order. *)
Definition main_replies (evs : list app_event) : list string :=
  omap (fun ev =>
          match ev with
          | Finished w result =>
              match finished w with
              | on_gpt_response_slot => Some result
              | on_filter_response_slot => None
              end
          | _ => None
          end) evs.

(** The workers started, in order. *)
Definition started (evs : list app_event) : list GptWorker :=
  omap (fun ev => match ev with Started w => Some w | _ => None end) evs.

(** The notice of [execute_smart_query_step] when no attempt is left. *)
Definition failure_notice : edit_op :=
  Append ("<b style=" +:+ dq +:+ "color:#FF0000;" +:+ dq +:+ ">[System]</b> <i>"
          +:+ "Error: Project is too voluminous. Even structure-only failed or max retries reached."
          +:+ "</i>").

(** The query waits for the selector, at attempt [a]. *)
Definition awaiting_selector (a : Z) (self : HolaIbotApp) : Prop :=
  current_query_attempt self = a
  /\ exists w, gpt_worker self = Some w /\ finished w = on_filter_response_slot.

(** The query waits for the main model, at attempt [a]. *)
Definition awaiting_main (a : Z) (self : HolaIbotApp) : Prop :=
  current_query_attempt self = a
  /\ exists w, gpt_worker self = Some w /\ finished w = on_gpt_response_slot.

(** The query has failed for good: no call is in flight, the failure notice
    is the last thing shown and the button is enabled again. *)
Definition failed (self : HolaIbotApp) : Prop :=
  gpt_worker self = None
  /\ current_query_attempt self = 4
  /\ askButton self = true
  /\ last (responseEdit self) = Some failure_notice.

(** The retrieval strategy that a started worker carries out. *)
Inductive strategy : Type :=
| SmartFilter
| AggressiveFilter
| StructureOnly
| TargetedContent.

(** The outcome of a run that has failed for good right after the reply
    [g] of the main model. *)
Definition fails_after (g : string) (r : completion unit * HolaIbotApp * list app_event)
  : Prop :=
  fst (fst r) = Returned tt
  /\ failed (snd (fst r))
  /\ exists pre w, snd r = pre ++ [Finished w g].


(** The call of the selector that [run_mini_filter] starts. *)
Definition selector_call (loaded_context current_user_prompt : string)
    (aggressive : bool) : GptWorker :=
  mkWorker
    [mkMessage "user"
       (brain_prompt loaded_context current_user_prompt
          (if aggressive then aggressive_instruction else standard_instruction))]
    "gpt-5-mini" on_filter_response_slot.

(** The call of the main model that [send_to_worker] starts. *)
Definition main_call (context_content : string) (chat_history : list message)
  : GptWorker :=
  mkWorker ([mkMessage "system" (build_system_prompt context_content)] ++ chat_history)
           "gpt-5.1" on_gpt_response_slot.

(** An application with a project loaded and a question typed. *)
Definition sample_app : HolaIbotApp :=
  set_promptEdit "why does it fail?"
    (set_loaded_context "FOLDER STRUCTURE:
main.py" (set_loaded_path (Some "/p") init_app)).

(** ** Further notions used in the statements *)

(** Is the call [os.listdir] or [os.path.isdir]? *)
Definition lists_only (ev : event) : bool :=
  match ev with
  | Listdir _ | Isdir _ => true
  | _ => false
  end.

(** Does the call read the content of a file? *)
Definition reads_content (ev : event) : bool :=
  match ev with
  | OpenText _ | ReadExcel _ | ReadIpynb _ | ReadDocx _ => true
  | _ => false
  end.

(** [reordered t t']: the tree [t'] is the tree [t] with the entries of its
    directories listed in another order. *)
Inductive reordered : node -> node -> Prop :=
| reordered_file f : reordered (File f) (File f)
| reordered_unreadable ex : reordered (Dir (Raise ex)) (Dir (Raise ex))
| reordered_dir entries mid entries' :
    Forall2 (fun e m => fst e = fst m /\ reordered (snd e) (snd m)) entries mid ->
    Permutation mid entries' ->
    reordered (Dir (Ok entries)) (Dir (Ok entries')).

(** A file that has gone by the time the extractor asks for its size. *)
Definition vanished_file : file :=
  {| st_size := Raise "[Errno 2] No such file or directory: '/p/gone.py'";
     text := Raise "[Errno 2] No such file or directory: '/p/gone.py'" |}.

(** A project folder with such a file in it. *)
Definition sample_volatile : node :=
  Dir (Ok [("gone.py", File vanished_file); ("kept.py", text_file "x = 1")]).

(** Is the call [os.scandir], the call [os.walk] makes on a directory? *)
Definition scans_only (ev : event) : bool :=
  match ev with
  | Scandir _ => true
  | _ => false
  end.

(** ** [HolaIbotApp]: choosing the project folder *)

Section Folder.

Variable readers : FormatReaders.
Variable project : node.                         (* the tree at [loaded_path] *)

(** [select_folder]; [folder] is what the directory dialog returns, the
    empty string when it is cancelled. *)
Definition select_folder (folder : string) : Method unit :=
  if String.eqb folder "" then mret tt
  else
    modify (set_loaded_path (Some folder)) >>>
    reload_context readers project.

End Folder.

(** The two notices of [reload_context]. *)
Definition extracting_notice : edit_op :=
  Append ("<b style=" +:+ dq +:+ "color:#F2B134;" +:+ dq +:+ ">[System]</b> <i>"
          +:+ "Extracting structure (Lazy Loading)..." +:+ "</i>").
Definition loaded_notice : edit_op :=
  Append ("<b style=" +:+ dq +:+ "color:#8ede64;" +:+ dq +:+ ">[System]</b> <i>"
          +:+ "Project Structure Loaded. Content will be fetched on demand." +:+ "</i>").

(** The sample application with the radio button of the prompt view
    checked. *)
Definition sample_app_prompt_view : HolaIbotApp :=
  {| the_extractor := the_extractor sample_app;
     chat_history := chat_history sample_app;
     loaded_context := loaded_context sample_app;
     loaded_path := loaded_path sample_app;
     gpt_worker := gpt_worker sample_app;
     conversation_font_size := conversation_font_size sample_app;
     markdown_enabled := markdown_enabled sample_app;
     current_query_attempt := current_query_attempt sample_app;
     current_user_prompt := current_user_prompt sample_app;
     is_smart_filtering := is_smart_filtering sample_app;
     responseEdit := responseEdit sample_app;
     promptEdit := promptEdit sample_app;
     contextEdit := contextEdit sample_app;
     mode_show_prompt := true;
     askButton := askButton sample_app;
     otherButtons := otherButtons sample_app |}.

(** The slots that the workers started will call, in the order the workers
    were started. *)
Definition slots (evs : list app_event) : list slot :=
  map finished (started evs).

(** The order of the calls of one query: the selector, the main model, the
    selector again, and the main model twice. *)
Definition escalation_order : list slot :=
  [on_filter_response_slot; on_gpt_response_slot;
   on_filter_response_slot; on_gpt_response_slot; on_gpt_response_slot].

(** [json.loads] on the replies of the further examples. *)
Definition sample_json_loads_mixed (s : string) : outcome json :=
  if String.eqb s ("[" +:+ dq +:+ "a.py" +:+ dq +:+ ", " +:+ dq +:+ "b.py" +:+ dq
                   +:+ ", " +:+ dq +:+ "c.py" +:+ dq +:+ ", 4]")
  then Ok (JList [JStr "a.py"; JStr "b.py"; JStr "c.py"; JInt 4])
  else if String.eqb s ("[" +:+ dq +:+ "src/main.py" +:+ dq +:+ "]")
  then Ok (JList [JStr "src/main.py"])
  else Raise "Expecting value: line 1 column 1 (char 0)".

(** The replies of the selector in these examples. *)
Definition reply_mixed : string :=
  "[" +:+ dq +:+ "a.py" +:+ dq +:+ ", " +:+ dq +:+ "b.py" +:+ dq
  +:+ ", " +:+ dq +:+ "c.py" +:+ dq +:+ ", 4]".
Definition reply_main_py : string :=
  "[" +:+ dq +:+ "src/main.py" +:+ dq +:+ "]".

(** The line that [_display_agent_message] appends to the response pane. *)
Definition agent_message (prefix message color : string) : edit_op :=
  Append ("<b style=" +:+ dq +:+ "color:" +:+ color +:+ ";" +:+ dq +:+ ">["
          +:+ prefix +:+ "]</b> <i>" +:+ message +:+ "</i>").

(** ** [HolaIbotApp]: the dialogs of the allowlist and of the exclusions *)

(** [s.lstrip(c)] for a one-character [c]. *)
Fixpoint lstrip_char (c : ascii) (s : string) : string :=
  match s with
  | "" => ""
  | String a s' => if Ascii.eqb a c then lstrip_char c s' else s
  end.

(** [sorted(l)] on strings. *)
Definition sorted_strings (l : list string) : list string :=
  map fst (sorted (map (fun s => (s, tt)) l)).

(** [if self.loaded_path: self.reload_context()] *)
Definition reload_if_loaded (readers : FormatReaders) (project : node) : Method unit :=
  let! path := get loaded_path in
  if bool_decide (path = None \/ path = Some "") then mret tt
  else reload_context readers project.

Module App.

Section Dialogs.

Variable readers : FormatReaders.
Variable project : node.                         (* the tree at [loaded_path] *)

(** [HolaIbotApp.set_extensions]; [getText] is the text dialog: from the
    text it is opened with to the text it is closed with and whether it
    was accepted. *)
Definition set_extensions (getText : string -> string * bool) : Method unit :=
  let! ex := get the_extractor in
  let cur :=
    Py.join "," (sorted_strings (map (lstrip_char ".") (elements (extensions ex)))) in
  let answer := getText cur in
  let txt := fst answer in
  let ok := snd answer in
  if ok then
    let exts :=
      map (fun x => Py.lower (Py.strip x))
          (filter (fun x => Py.strip x <> "") (Py.split "," txt)) in
    modify (set_the_extractor (set_extensions ex exts)) >>>
    reload_if_loaded readers project
  else mret tt.

(** [HolaIbotApp.set_exclusions] *)
Definition set_exclusions (getText : string -> string * bool) : Method unit :=
  let! ex := get the_extractor in
  let current_exclusions := DEFAULT_EXCLUSIONS ∪ exclusions ex in
  let cur := Py.join "," (sorted_strings (elements current_exclusions)) in
  let answer := getText cur in
  let txt := fst answer in
  let ok := snd answer in
  if ok then
    let xs := map Py.strip (filter (fun x => Py.strip x <> "") (Py.split "," txt)) in
    modify (set_the_extractor (set_exclusions ex xs)) >>>
    reload_if_loaded readers project
  else mret tt.

End Dialogs.

End App.

(** The user accepts the dialog as it is opened; the user cancels it; the
    user replaces the text. *)
Definition accept_unchanged : string -> string * bool := fun cur => (cur, true).
Definition cancel_dialog : string -> string * bool := fun cur => (cur, false).
Definition replace_text (txt : string) : string -> string * bool := fun _ => (txt, true).

(** A name that passes through the dialogs unchanged: it has no blank at
    either end, is not empty and holds no comma. *)
Definition plain_name (x : string) : Prop :=
  Py.strip x = x /\ x <> "" /\ Py.contains "," x = false.

(** An extension as [set_extensions] stores it from a name that passes
    unchanged: a dot, then a plain name in lower case that does not start
    with a dot. *)
Definition plain_extension (x : string) : Prop :=
  exists y, x = "." +:+ y /\ plain_name y /\ Py.lower y = y
            /\ Py.startswith y "." = false.

(** An application whose allowlist holds two plain extensions, and one with
    a user exclusion. *)
Definition sample_app_two_extensions : HolaIbotApp :=
  set_the_extractor {| exclusions := ∅; extensions := {[ ".py"; ".md" ]} |} init_app.
Definition sample_app_user_exclusion : HolaIbotApp :=
  set_the_extractor {| exclusions := {[ "build" ]}; extensions := {[ ".py" ]} |} init_app.

(** ** The request to the remote model *)

(** [v[key]] for a string [key], and [v[0]], on a decoded JSON value; the
    texts of the exceptions are those of CPython 3.12. *)
Definition not_subscriptable (v : json) : string :=
  "'" +:+ type_name v +:+ "' object is not subscriptable".

Definition getitem_key (v : json) (key : string) : outcome json :=
  match v with
  | JDict d =>
      match lookup_entry key d with
      | Some x => Ok x
      | None => Raise ("'" +:+ key +:+ "'")
      end
  | JList _ => Raise "list indices must be integers or slices, not str"
  | JStr _ => Raise "string indices must be integers, not 'str'"
  | _ => Raise (not_subscriptable v)
  end.

Definition getitem_0 (v : json) : outcome json :=
  match v with
  | JList (x :: _) => Ok x
  | JList [] => Raise "list index out of range"
  | JDict _ => Raise "0"
  | JStr (String c _) => Ok (JStr (String c ""))
  | JStr "" => Raise "string index out of range"
  | _ => Raise (not_subscriptable v)
  end.

(** The arguments of [requests.post]. *)
Record Request : Type := mkRequest {
  url : string;
  headers : list (string * string);
  data_model : string;                     (* [data["model"]] *)
  data_messages : list message;            (* [data["messages"]] *)
  data_response_format : string;           (* [data["response_format"]["type"]] *)
  timeout : Z
}.

(** What [requests.post] returns: the status, the body as text, and what
    [response.json()] gives. *)
Record Response : Type := mkResponse {
  status_code : Z;
  response_text : string;
  response_json : outcome json
}.

Section Network.

Variable getenv : string -> option string.         (* [os.getenv] *)
Variable post : Request -> outcome Response.       (* [requests.post] *)
Variable format_exc : string.                      (* [traceback.format_exc()] *)

(** [gpt4_1_request]: what it returns and the requests it has sent. *)
Definition gpt4_1_request (messages : list message) (model_name : option string)
  : json * list Request :=
  let api_base := "https://api.openai.com/v1" in
  (* Securely retrieve API key from environment variables *)
  match getenv "OPENAI_API_KEY" with
  | None | Some "" =>
      (JStr "API Error: The environment variable 'OPENAI_API_KEY' is not defined.", [])
  | Some api_key =>
      let default_model := "gpt-4o" in
      let target_model :=
        match model_name with
        | None | Some "" => default_model
        | Some m => m
        end in
      let request :=
        {| url := api_base +:+ "/chat/completions";
           headers := [("Content-Type", "application/json");
                       ("Authorization", "Bearer " +:+ api_key)];
           data_model := target_model;
           data_messages := messages;
           data_response_format := "text";
           timeout := 120 |} in
      let request_error e :=
        JStr ("Request error: " +:+ e +:+ nl +:+ format_exc) in
      (match post request with
       | Raise e => request_error e
       | Ok response =>
           if negb (status_code response =? 200)%Z then
             JStr ("API Error (" +:+ Py.str_int (status_code response) +:+ "): "
                   +:+ response_text response)
           else
             match response_json response with
             | Raise e => request_error e
             | Ok response_json =>
                 match getitem_key response_json "choices" with
                 | Raise e => request_error e
                 | Ok choices =>
                     match getitem_0 choices with
                     | Raise e => request_error e
                     | Ok choice =>
                         match getitem_key choice "message" with
                         | Raise e => request_error e
                         | Ok msg =>
                             match getitem_key msg "content" with
                             | Raise e => request_error e
                             | Ok content => content
                             end
                         end
                     end
                 end
             end
       end,
       [request])
  end.

End Network.

(** An environment without the API key, and one with it. *)
Definition no_api_key : string -> option string := fun _ => None.
Definition with_api_key : string -> option string :=
  fun name => if String.eqb name "OPENAI_API_KEY" then Some "sk-test" else None.

(** A server that answers every request with the given status and body. *)
Definition server_replies (status : Z) (body : string) (decoded : outcome json)
  : Request -> outcome Response :=
  fun _ => Ok {| status_code := status; response_text := body;
                response_json := decoded |}.

(** The decoded body of a completion whose message has the given
    content. *)
Definition completion_body (content : json) : json :=
  JDict [("id", JStr "chatcmpl-1");
         ("choices", JList [JDict [("index", JInt 0);
                                   ("message", JDict [("role", JStr "assistant");
                                                      ("content", content)])]])].

(** ** [CodeExecutionWorker]: running the code of the sandbox *)

(** How [subprocess.run] ends: the process completes with its two
    outputs, the time limit expires, or another exception is raised. *)
Inductive run_outcome : Type :=
| Completed (stdout stderr : string)
| TimeoutExpired
| RunError (e : string).

(** The calls of [CodeExecutionWorker.run] on the system, and the signal it
    emits. *)
Inductive exec_event : Type :=
| TempFile                                   (* [tempfile.NamedTemporaryFile] *)
| WriteFile (path code : string)             (* [f.write] *)
| CloseFile (path : string)                  (* leaving the [with] block *)
| RunPython (path : string) (limit : Z)      (* [subprocess.run] *)
| PathExists (path : string)                 (* [os.path.exists] *)
| Unlink (path : string)                     (* [os.unlink] *)
| Emit (stdout stderr : string).             (* [self.finished.emit] *)

(** What the system answers to these calls. *)
Record System : Type := mkSystem {
  named_temporary_file : outcome string;     (* the name of the file created *)
  write_file : string -> string -> outcome unit;
  close_file : string -> outcome unit;
  subprocess_run : string -> run_outcome;
  path_exists : string -> bool;
  unlink : string -> outcome unit;
  exec_format_exc : string                   (* [traceback.format_exc()] *)
}.

(** The [try] block of [run] up to the end of the [with] block: the name
    bound to [filepath] when the block is left, the exception that leaves
    it if any, and the calls made. *)
Definition write_temporary (sys : System) (code_to_execute : string)
  : string * option string * list exec_event :=
  match named_temporary_file sys with
  | Raise e => ("", Some e, [TempFile])
  | Ok name =>
      match write_file sys name code_to_execute with
      | Raise e =>
          (* the [with] block closes the file on the way out *)
          match close_file sys name with
          | Raise e' => ("", Some e', [TempFile; WriteFile name code_to_execute;
                                       CloseFile name])
          | Ok _ => ("", Some e, [TempFile; WriteFile name code_to_execute;
                                  CloseFile name])
          end
      | Ok _ =>
          (* [filepath = f.name] *)
          match close_file sys name with
          | Raise e => (name, Some e, [TempFile; WriteFile name code_to_execute;
                                       CloseFile name])
          | Ok _ => (name, None, [TempFile; WriteFile name code_to_execute;
                                  CloseFile name])
          end
      end
  end.

Definition subprocess_error (sys : System) (e : string) : string :=
  "Subprocess error: " +:+ e +:+ nl +:+ exec_format_exc sys.

Definition timeout_notice : string :=
  "Execution Error: Code execution exceeded the 15-second timeout limit.".

(** [CodeExecutionWorker.run]: how the call ends and the calls it makes. *)
Definition CodeExecutionWorker_run (sys : System) (code_to_execute : string)
  : completion unit * list exec_event :=
  (* the [try] block with its two [except] clauses *)
  let '(filepath, raised, ev1) := write_temporary sys code_to_execute in
  let '(stdout, stderr, ev2) :=
    match raised with
    | Some e => ("", subprocess_error sys e, [])
    | None =>
        (* Execute the script via the current system python interpreter *)
        match subprocess_run sys filepath with
        | Completed stdout stderr => (stdout, stderr, [RunPython filepath 15])
        | TimeoutExpired => ("", timeout_notice, [RunPython filepath 15])
        | RunError e => ("", subprocess_error sys e, [RunPython filepath 15])
        end
    end in
  (* Cleanup temporary file *)
  if String.eqb filepath "" then
    (Returned tt, ev1 ++ ev2 ++ [Emit stdout stderr])
  else if path_exists sys filepath then
    match unlink sys filepath with
    | Ok _ =>
        (Returned tt,
         ev1 ++ ev2 ++ [PathExists filepath; Unlink filepath; Emit stdout stderr])
    | Raise e =>
        (Uncaught e, ev1 ++ ev2 ++ [PathExists filepath; Unlink filepath])
    end
  else
    (Returned tt, ev1 ++ ev2 ++ [PathExists filepath; Emit stdout stderr]).

(** A system on which everything works and the script runs as given. *)
Definition healthy_system (result : run_outcome) : System :=
  {| named_temporary_file := Ok "/tmp/tmpab12.py";
     write_file := fun _ _ => Ok tt;
     close_file := fun _ => Ok tt;
     subprocess_run := fun _ => result;
     path_exists := fun _ => true;
     unlink := fun _ => Ok tt;
     exec_format_exc := "Traceback (most recent call last): ..." |}.

(** A system on which the disk is full: the code cannot be written. *)
Definition full_disk : System :=
  {| named_temporary_file := Ok "/tmp/tmpab12.py";
     write_file := fun _ _ => Raise "[Errno 28] No space left on device";
     close_file := fun _ => Ok tt;
     subprocess_run := fun _ => Completed "" "";
     path_exists := fun _ => true;
     unlink := fun _ => Ok tt;
     exec_format_exc := "Traceback (most recent call last): ..." |}.

(** ** [HolaIbotApp]: the code sandbox *)

(** [s.find(sub)]: the index of the first occurrence of [sub] in [s]. *)
Fixpoint find_sub (sub s : string) : option nat :=
  if String.prefix sub s then Some O
  else match s with
       | "" => None
       | String _ s' => option_map S (find_sub sub s')
       end.

(** [s[:n]] and [s[n:]] *)
Fixpoint string_take (n : nat) (s : string) : string :=
  match n, s with
  | S n', String c s' => String c (string_take n' s')
  | _, _ => ""
  end.
Fixpoint string_drop (n : nat) (s : string) : string :=
  match n, s with
  | S n', String _ s' => string_drop n' s'
  | _, _ => s
  end.

(** The two literals of the pattern [```python\n(.*?)\n```]. *)
Definition fence_open : string := "```python" +:+ nl.
Definition fence_close : string := nl +:+ "```".

(** [re.search(r'```python\n(.*?)\n```', s, re.DOTALL)]: the text before
    the match, the group, and the text after the match.  The match starts
    at the first opening fence and, the group being lazy, ends with the
    first closing fence after it; if there is none, no later opening fence
    can be closed either. *)
Definition search_code_block (s : string) : option (string * string * string) :=
  match find_sub fence_open s with
  | None => None
  | Some i =>
      let rest := string_drop (i + String.length fence_open) s in
      match find_sub fence_close rest with
      | None => None
      | Some j =>
          Some (string_take i s, string_take j rest,
                string_drop (j + String.length fence_close) rest)
      end
  end.

(** [re.sub(r'```python\n(.*?)\n```', repl, s, flags=re.DOTALL)]: every
    match replaced, from left to right.  A match takes at least one
    character, so [fuel] as large as the length of [s] is enough. *)
Fixpoint sub_code_blocks (fuel : nat) (repl s : string) : string :=
  match fuel with
  | O => s
  | S fuel' =>
      match search_code_block s with
      | None => s
      | Some (before, _, after) =>
          before +:+ repl +:+ sub_code_blocks fuel' repl after
      end
  end.
Definition replace_code_blocks (repl s : string) : string :=
  sub_code_blocks (String.length s) repl s.

(** A [GptWorker] started by the sandbox; its [finished] signal is connected
    to [on_sandbox_gpt_response]. *)
Record SandboxWorker : Type := mkSandboxWorker {
  sandbox_messages : list message;
  sandbox_model_name : string
}.

(** The workers that the sandbox starts. *)
Inductive sandbox_event : Type :=
| SandboxStarted (w : SandboxWorker)         (* [GptWorker.start] *)
| ExecStarted (code_to_execute : string).    (* [CodeExecutionWorker.start] *)

(** The attributes and widgets of the application that the sandbox reads
    or writes.  The attribute [self.gpt_worker] is also assigned by the
    project tab; [sandbox_gpt_worker] is the part of it that belongs to the
    sandbox: the worker that the sandbox started and whose [finished]
    signal has not been delivered yet.  The sandbox stores it in
    [self.gpt_worker] when it starts it and empties [self.gpt_worker] when
    the signal is delivered. *)
Record Sandbox : Type := mkSandbox {
  sandbox_history : list message;
  current_sandbox_code : string;
  sandbox_loaded_context : string;           (* [self.loaded_context] *)
  sandbox_gpt_worker : option SandboxWorker; (* the request of the sandbox in flight *)
  exec_worker : option string;               (* the code of the worker in flight *)
  sandboxResponseEdit : list string;         (* the texts appended since it was cleared *)
  sandboxCodeEdit : string;                  (* its text *)
  sandboxPromptEdit : string;                (* its text *)
  sandboxAskButton : bool;                   (* is the button enabled *)
  sandboxExecuteButton : bool
}.

(** A method of the sandbox: the attributes after the call and the workers
    started. *)
Definition SandboxMethod : Type := Sandbox -> Sandbox * list sandbox_event.

Definition sandbox_system_message : message :=
  mkMessage "system"
    ("You are a Python coding assistant. Provide a brief explanation, "
     +:+ "then the complete Python code in a single block ```python ... ```. "
     +:+ "Only include executable code.").

(** [clear_sandbox] *)
Definition clear_sandbox : SandboxMethod := fun self =>
  ({| sandbox_history := [];
      current_sandbox_code := "";
      sandbox_loaded_context := sandbox_loaded_context self;
      sandbox_gpt_worker := sandbox_gpt_worker self;
      exec_worker := exec_worker self;
      sandboxResponseEdit := ["<i>Sandbox cleared. Ready for a new task.</i>"];
      sandboxCodeEdit := "";
      sandboxPromptEdit := "";
      sandboxAskButton := sandboxAskButton self;
      sandboxExecuteButton := sandboxExecuteButton self |}, []).

(** The [full_context_injection] of [ask_sandbox_gpt]. *)
Definition full_context_injection (project_context_str current_sandbox_code_str : string)
  : string :=
  (if String.eqb (Py.strip project_context_str) "" then ""
   else "--- PROJECT CONTEXT (FILES AND STRUCTURE) ---" +:+ nl
        +:+ project_context_str +:+ nl +:+ nl)
  +:+
  (if String.eqb (Py.strip current_sandbox_code_str) "" then ""
   else "--- CURRENT SANDBOX CODE (TO MODIFY OR USE) ---" +:+ nl
        +:+ current_sandbox_code_str +:+ nl +:+ nl).

(** [ask_sandbox_gpt] *)
Definition ask_sandbox_gpt : SandboxMethod := fun self =>
  let prompt := Py.strip (sandboxPromptEdit self) in
  if String.eqb prompt "" then (self, [])            (* a warning box is shown *)
  else
    (* Initialize system history if this is the first request *)
    let history :=
      match sandbox_history self with
      | [] => [sandbox_system_message]
      | h => h
      end in
    (* 1. Retrieve Dynamic Context (Project + Current Sandbox Code) *)
    let injection :=
      full_context_injection (sandbox_loaded_context self) (sandboxCodeEdit self) in
    (* 2. Build final message for API (Invisible in chat) *)
    let final_prompt_content :=
      injection +:+ "--- USER REQUEST ---" +:+ nl +:+ prompt in
    (* 3. Create temporary message list for sending *)
    let messages_for_api := history ++ [mkMessage "user" final_prompt_content] in
    let w := mkSandboxWorker messages_for_api "gpt-5-mini" in
    ({| (* 4. Update PERSISTENT history *)
        sandbox_history := history ++ [mkMessage "user" prompt];
        current_sandbox_code := current_sandbox_code self;
        sandbox_loaded_context := sandbox_loaded_context self;
        sandbox_gpt_worker := Some w;
        exec_worker := exec_worker self;
        sandboxResponseEdit :=
          sandboxResponseEdit self
          ++ ["<b style='color:#AAA;'>You:</b> " +:+ prompt +:+ nl;
              "<i>[Agent] Generating code... (Calling GPT-5T with Context)</i>" +:+ nl];
        sandboxCodeEdit := sandboxCodeEdit self;
        sandboxPromptEdit := "";
        sandboxAskButton := false;
        sandboxExecuteButton := false |},
     [SandboxStarted w]).

(** [execute_current_sandbox_code] *)
Definition execute_current_sandbox_code : SandboxMethod := fun self =>
  let code_to_run := Py.strip (sandboxCodeEdit self) in
  if String.eqb code_to_run "" then
    ({| sandbox_history := sandbox_history self;
        current_sandbox_code := current_sandbox_code self;
        sandbox_loaded_context := sandbox_loaded_context self;
        sandbox_gpt_worker := sandbox_gpt_worker self;
        exec_worker := exec_worker self;
        sandboxResponseEdit :=
          sandboxResponseEdit self
          ++ ["<i>[System] No code in sandbox to execute.</i>" +:+ nl];
        sandboxCodeEdit := sandboxCodeEdit self;
        sandboxPromptEdit := sandboxPromptEdit self;
        sandboxAskButton := sandboxAskButton self;
        sandboxExecuteButton := sandboxExecuteButton self |}, [])
  else
    ({| sandbox_history := sandbox_history self;
        current_sandbox_code := code_to_run;
        sandbox_loaded_context := sandbox_loaded_context self;
        sandbox_gpt_worker := sandbox_gpt_worker self;
        exec_worker := Some code_to_run;
        sandboxResponseEdit :=
          sandboxResponseEdit self ++ ["<i>[System] Executing code...</i>" +:+ nl];
        sandboxCodeEdit := sandboxCodeEdit self;
        sandboxPromptEdit := sandboxPromptEdit self;
        sandboxAskButton := false;
        sandboxExecuteButton := false |},
     [ExecStarted code_to_run]).

(** [on_sandbox_gpt_response]; [permitted] is the answer to the question
    whether the code may be executed. *)
Definition on_sandbox_gpt_response (response : string) (permitted : bool)
  : SandboxMethod := fun self =>
  let history := sandbox_history self ++ [mkMessage "assistant" response] in
  (* Parse response to separate explanation from code *)
  match search_code_block response with
  | Some (_, group1, _) =>
      let code := Py.strip group1 in
      let explanation := Py.strip (replace_code_blocks "[Code block below]" response) in
      let shown :=
        {| sandbox_history := history;
           current_sandbox_code := code;
           sandbox_loaded_context := sandbox_loaded_context self;
           sandbox_gpt_worker := None;
           exec_worker := exec_worker self;
           sandboxResponseEdit :=
             sandboxResponseEdit self
             ++ ["<b style='color:#87CEEB;'>Agent:</b> " +:+ explanation +:+ nl];
           sandboxCodeEdit := code;
           sandboxPromptEdit := sandboxPromptEdit self;
           sandboxAskButton := true;
           sandboxExecuteButton := true |} in
      if permitted then execute_current_sandbox_code shown
      else
        ({| sandbox_history := sandbox_history shown;
            current_sandbox_code := current_sandbox_code shown;
            sandbox_loaded_context := sandbox_loaded_context shown;
            sandbox_gpt_worker := sandbox_gpt_worker shown;
            exec_worker := exec_worker shown;
            sandboxResponseEdit :=
              sandboxResponseEdit shown ++ ["<i>[User] Execution cancelled.</i>" +:+ nl];
            sandboxCodeEdit := sandboxCodeEdit shown;
            sandboxPromptEdit := sandboxPromptEdit shown;
            sandboxAskButton := sandboxAskButton shown;
            sandboxExecuteButton := sandboxExecuteButton shown |}, [])
  | None =>
      ({| sandbox_history := history;
          current_sandbox_code := "";
          sandbox_loaded_context := sandbox_loaded_context self;
          sandbox_gpt_worker := None;
          exec_worker := exec_worker self;
          sandboxResponseEdit :=
            sandboxResponseEdit self
            ++ ["<b style='color:#87CEEB;'>Agent:</b> " +:+ response +:+ nl];
          sandboxCodeEdit := "";
          sandboxPromptEdit := sandboxPromptEdit self;
          sandboxAskButton := true;
          sandboxExecuteButton := true |}, [])
  end.

(** The [debug_prompt] of [debug_sandbox_code]. *)
Definition debug_prompt (stderr current_sandbox_code : string) : string :=
  nl +:+ "The previous code failed with the following error:" +:+ nl
  +:+ "--- ERROR ---" +:+ nl
  +:+ stderr +:+ nl
  +:+ "--- FAILED CODE ---" +:+ nl
  +:+ current_sandbox_code +:+ nl
  +:+ "---" +:+ nl
  +:+ nl
  +:+ "Please analyze the initial request, the failed code, and the error." +:+ nl
  +:+ "Provide an explanation of the fix, then the complete corrected Python code in a new block ```python ... ```."
  +:+ nl.

(** [debug_sandbox_code].  The worker receives the list [sandbox_history]
    itself; the list is next extended when the reply of this worker is
    delivered, so the worker sends the history as it is here. *)
Definition debug_sandbox_code (stderr : string) : SandboxMethod := fun self =>
  let history :=
    sandbox_history self
    ++ [mkMessage "user" (debug_prompt stderr (current_sandbox_code self))] in
  let w := mkSandboxWorker history "gpt-5-mini" in
  ({| sandbox_history := history;
      current_sandbox_code := current_sandbox_code self;
      sandbox_loaded_context := sandbox_loaded_context self;
      sandbox_gpt_worker := Some w;
      exec_worker := exec_worker self;
      sandboxResponseEdit :=
        sandboxResponseEdit self
        ++ ["<i>[Agent] Analyzing error for debugging... (Calling GPT-5T)</i>" +:+ nl];
      sandboxCodeEdit := sandboxCodeEdit self;
      sandboxPromptEdit := sandboxPromptEdit self;
      sandboxAskButton := false;
      sandboxExecuteButton := false |},
   [SandboxStarted w]).

(** [on_sandbox_execution_finished]; [permitted] is the answer to the
    question whether the assistant may try to fix the error. *)
Definition on_sandbox_execution_finished (stdout stderr : string) (permitted : bool)
  : SandboxMethod := fun self =>
  let shown_stdout :=
    if String.eqb stdout "" then sandboxResponseEdit self
    else sandboxResponseEdit self
         ++ ["<b>Output (stdout):</b>" +:+ nl +:+ "<pre>" +:+ stdout +:+ "</pre>" +:+ nl] in
  let finished :=
    fun shown =>
      {| sandbox_history := sandbox_history self;
         current_sandbox_code := current_sandbox_code self;
         sandbox_loaded_context := sandbox_loaded_context self;
         sandbox_gpt_worker := sandbox_gpt_worker self;
         exec_worker := None;
         sandboxResponseEdit := shown;
         sandboxCodeEdit := sandboxCodeEdit self;
         sandboxPromptEdit := sandboxPromptEdit self;
         sandboxAskButton := true;
         sandboxExecuteButton := true |} in
  if String.eqb stderr "" then
    (finished (shown_stdout
               ++ ["<i>[System] Execution finished successfully.</i>" +:+ nl]), [])
  else
    let shown_stderr :=
      shown_stdout
      ++ ["<b>Error (stderr):</b>" +:+ nl +:+ "<pre style='color:red;'>" +:+ stderr
          +:+ "</pre>" +:+ nl] in
    if permitted then debug_sandbox_code stderr (finished shown_stderr)
    else
      (finished (shown_stderr ++ ["<i>[User] Debugging cancelled.</i>" +:+ nl]), []).

(** A fresh sandbox, and one with a request typed. *)
Definition init_sandbox : Sandbox :=
  {| sandbox_history := [];
     current_sandbox_code := "";
     sandbox_loaded_context := "";
     sandbox_gpt_worker := None;
     exec_worker := None;
     sandboxResponseEdit := [];
     sandboxCodeEdit := "";
     sandboxPromptEdit := "";
     sandboxAskButton := true;
     sandboxExecuteButton := true |}.

Definition sample_sandbox : Sandbox :=
  {| sandbox_history := [];
     current_sandbox_code := "";
     sandbox_loaded_context := "FOLDER STRUCTURE:" +:+ nl +:+ "main.py";
     sandbox_gpt_worker := None;
     exec_worker := None;
     sandboxResponseEdit := [];
     sandboxCodeEdit := "";
     sandboxPromptEdit := " print the primes below 20 ";
     sandboxAskButton := true;
     sandboxExecuteButton := true |}.

(** A reply of the assistant with one block of code. *)
Definition sample_reply : string :=
  "Here is the code." +:+ nl +:+ "```python" +:+ nl +:+ "print(2, 3, 5)" +:+ nl
  +:+ "```" +:+ nl +:+ "Run it.".

(** The user types in the prompt line or in the code editor of the sandbox;
    the project tab loads another context. *)
Definition type_prompt (txt : string) (self : Sandbox) : Sandbox :=
  {| sandbox_history := sandbox_history self;
     current_sandbox_code := current_sandbox_code self;
     sandbox_loaded_context := sandbox_loaded_context self;
     sandbox_gpt_worker := sandbox_gpt_worker self;
     exec_worker := exec_worker self;
     sandboxResponseEdit := sandboxResponseEdit self;
     sandboxCodeEdit := sandboxCodeEdit self;
     sandboxPromptEdit := txt;
     sandboxAskButton := sandboxAskButton self;
     sandboxExecuteButton := sandboxExecuteButton self |}.
Definition type_code (txt : string) (self : Sandbox) : Sandbox :=
  {| sandbox_history := sandbox_history self;
     current_sandbox_code := current_sandbox_code self;
     sandbox_loaded_context := sandbox_loaded_context self;
     sandbox_gpt_worker := sandbox_gpt_worker self;
     exec_worker := exec_worker self;
     sandboxResponseEdit := sandboxResponseEdit self;
     sandboxCodeEdit := txt;
     sandboxPromptEdit := sandboxPromptEdit self;
     sandboxAskButton := sandboxAskButton self;
     sandboxExecuteButton := sandboxExecuteButton self |}.
Definition load_context (txt : string) (self : Sandbox) : Sandbox :=
  {| sandbox_history := sandbox_history self;
     current_sandbox_code := current_sandbox_code self;
     sandbox_loaded_context := txt;
     sandbox_gpt_worker := sandbox_gpt_worker self;
     exec_worker := exec_worker self;
     sandboxResponseEdit := sandboxResponseEdit self;
     sandboxCodeEdit := sandboxCodeEdit self;
     sandboxPromptEdit := sandboxPromptEdit self;
     sandboxAskButton := sandboxAskButton self;
     sandboxExecuteButton := sandboxExecuteButton self |}.

(** One event of a session in the sandbox tab: the user types, the project
    tab loads a context, the user clicks a button that is enabled, or a
    worker of the sandbox in flight finishes. *)
Inductive sandbox_step : Sandbox -> Sandbox -> Prop :=
| step_type_prompt self txt : sandbox_step self (type_prompt txt self)
| step_type_code self txt : sandbox_step self (type_code txt self)
| step_load_context self txt : sandbox_step self (load_context txt self)
| step_ask self :
    sandboxAskButton self = true ->
    sandbox_step self (fst (ask_sandbox_gpt self))
| step_execute self :
    sandboxExecuteButton self = true ->
    sandbox_step self (fst (execute_current_sandbox_code self))
| step_clear self : sandbox_step self (fst (clear_sandbox self))
| step_reply self w response permitted :
    sandbox_gpt_worker self = Some w ->
    sandbox_step self (fst (on_sandbox_gpt_response response permitted self))
| step_finished self code stdout stderr permitted :
    exec_worker self = Some code ->
    sandbox_step self
      (fst (on_sandbox_execution_finished stdout stderr permitted self)).

(** The states of the sandbox that a session reaches. *)
Inductive sandbox_reachable : Sandbox -> Prop :=
| reach_init_sandbox : sandbox_reachable init_sandbox
| reach_step self self' :
    sandbox_reachable self -> sandbox_step self self' -> sandbox_reachable self'.

(** What the user can do in the sandbox tab while a worker is in flight:
    the request and the execution buttons are disabled, the two fields can
    be edited, the project tab can load a context, and the clear button
    stays enabled. *)
Inductive sandbox_edit : Type :=
| TypePrompt (txt : string)
| TypeCode (txt : string)
| LoadContext (txt : string)
| ClearSandbox.

Definition apply_edit (self : Sandbox) (e : sandbox_edit) : Sandbox :=
  match e with
  | TypePrompt txt => type_prompt txt self
  | TypeCode txt => type_code txt self
  | LoadContext txt => load_context txt self
  | ClearSandbox => fst (clear_sandbox self)
  end.

Definition apply_edits (edits : list sandbox_edit) (self : Sandbox) : Sandbox :=
  fold_left apply_edit edits self.

Definition is_clear (e : sandbox_edit) : bool :=
  match e with
  | ClearSandbox => true
  | _ => false
  end.
(** * Properties *)

(** ** Byte-size humanisation *)

Lemma str_int_digit (d : Z) : 0 <= d < 10 -> String.length (Py.str_int d) = 1%nat.
Proof.
  intros H.
  assert (d = 0 \/ d = 1 \/ d = 2 \/ d = 3 \/ d = 4 \/ d = 5 \/ d = 6 \/ d = 7
          \/ d = 8 \/ d = 9) as Hd by lia.
  repeat (destruct Hd as [-> | Hd]; [vm_compute; reflexivity |]).
  subst d. vm_compute. reflexivity.
Qed.

(** C8.  [human_readable_size] divides by 1024 through the units B, KB, MB,
    GB and TB, stopping at the first value below 1024, and ends in PB; the
    value is printed with one decimal.  In particular 0 gives [0.0 B], 1536
    gives [1.5 KB] and 1048576 gives [1.0 MB]. *)
Theorem human_readable_size_units :
  human_readable_size (float_of_int 0) = "0.0 B"
  /\ human_readable_size (float_of_int 1536) = "1.5 KB"
  /\ human_readable_size (float_of_int 1048576) = "1.0 MB"
  /\ (forall num : float,
        human_readable_size num =
        if (num <? 1024)%float then format_1f 3 num +:+ " B"
        else if (num / 1024 <? 1024)%float then format_1f 3 (num / 1024) +:+ " KB"
        else if (num / 1024 / 1024 <? 1024)%float
             then format_1f 3 (num / 1024 / 1024) +:+ " MB"
        else if (num / 1024 / 1024 / 1024 <? 1024)%float
             then format_1f 3 (num / 1024 / 1024 / 1024) +:+ " GB"
        else if (num / 1024 / 1024 / 1024 / 1024 <? 1024)%float
             then format_1f 3 (num / 1024 / 1024 / 1024 / 1024) +:+ " TB"
        else format_1f 0 (num / 1024 / 1024 / 1024 / 1024 / 1024) +:+ " PB").
Proof.
  split; [vm_compute; reflexivity |].
  split; [vm_compute; reflexivity |].
  split; [vm_compute; reflexivity |].
  intros num. unfold human_readable_size. cbn [human_readable_size_loop].
  reflexivity.
Qed.

(** ** Strings *)

Lemma string_app_cons (c : ascii) (s1 s2 : string) :
  String c s1 +:+ s2 = String c (s1 +:+ s2).
Proof. reflexivity. Qed.

Lemma string_app_nil_l (s : string) : "" +:+ s = s.
Proof. reflexivity. Qed.

Lemma string_app_assoc (s1 s2 s3 : string) : (s1 +:+ s2) +:+ s3 = s1 +:+ s2 +:+ s3.
Proof.
  induction s1 as [| c s1 IH]; [reflexivity |].
  rewrite !string_app_cons. now rewrite IH.
Qed.

Lemma string_app_nil_r (s : string) : s +:+ "" = s.
Proof.
  induction s as [| c s IH]; [reflexivity |].
  rewrite string_app_cons. now rewrite IH.
Qed.

Lemma string_length_app (s1 s2 : string) :
  String.length (s1 +:+ s2) = (String.length s1 + String.length s2)%nat.
Proof.
  induction s1 as [| c s1 IH]; [reflexivity |].
  rewrite string_app_cons. cbn [String.length]. now rewrite IH.
Qed.

(** ** The trace monad *)

Lemma bind_unfold {A B} (m : IO A) (k : A -> IO B) :
  bind m k = (fst (k (fst m)), snd m ++ snd (k (fst m))).
Proof. reflexivity. Qed.

Lemma bind_ret_l {A B} (a : A) (k : A -> IO B) : bind (ret a) k = k a.
Proof. unfold bind, ret; cbn. now destruct (k a). Qed.

Lemma bind_ret_r {A} (m : IO A) : bind m ret = m.
Proof. unfold bind, ret; cbn. destruct m; cbn. now rewrite List.app_nil_r. Qed.

Lemma bind_assoc {A B C} (m : IO A) (k : A -> IO B) (h : B -> IO C) :
  bind (bind m k) h = bind m (fun a => bind (k a) h).
Proof. unfold bind; cbn. now rewrite List.app_assoc. Qed.

Lemma for_each_app {A B} (l1 l2 : list A) (body : B -> A -> IO B) (acc : B) :
  for_each (l1 ++ l2) body acc
  = bind (for_each l1 body acc) (for_each l2 body).
Proof.
  revert acc; induction l1 as [| x l1 IH]; intros acc; cbn [for_each app].
  - now rewrite bind_ret_l.
  - rewrite bind_assoc. unfold bind. now rewrite IH.
Qed.

(** ** Induction on directory trees *)

Lemma node_induction (P : node -> Prop) :
  (forall f, P (File f)) ->
  (forall ex, P (Dir (Raise ex))) ->
  (forall entries, Forall (fun e => P (snd e)) entries -> P (Dir (Ok entries))) ->
  forall t, P t.
Proof.
  intros Hf Hr Hd.
  fix IH 1. intros [f | [entries | ex]].
  - apply Hf.
  - apply Hd. induction entries as [| [name child] entries IHe].
    + constructor.
    + constructor; [apply IH | apply IHe].
  - apply Hr.
Qed.

(** ** Sorting of directory entries *)

Definition key_le {A} (a b : string * A) : Prop := String.le (fst a) (fst b).

Lemma leb_le (s1 s2 : string) : String.leb s1 s2 = true <-> String.le s1 s2.
Proof. unfold String.le. symmetry. apply Is_true_true. Qed.

Lemma leb_false_le (s1 s2 : string) : String.leb s1 s2 = false -> String.le s2 s1.
Proof.
  intros H. destruct (String.leb_total s1 s2) as [H' | H'].
  - congruence.
  - now apply leb_le.
Qed.

Lemma insert_sorted_map {A B} (h : string * A -> string * B)
    (Hh : forall e, fst (h e) = fst e) (x : string * A) (l : list (string * A)) :
  insert_sorted (h x) (map h l) = map h (insert_sorted x l).
Proof.
  induction l as [| y l IH]; [reflexivity |].
  cbn [map insert_sorted]. rewrite !Hh.
  destruct (String.leb (fst x) (fst y)); cbn [map]; [reflexivity |].
  now rewrite IH.
Qed.

Lemma sorted_map {A B} (h : string * A -> string * B)
    (Hh : forall e, fst (h e) = fst e) (l : list (string * A)) :
  sorted (map h l) = map h (sorted l).
Proof.
  induction l as [| x l IH]; [reflexivity |].
  cbn [map sorted]. rewrite IH. now apply insert_sorted_map.
Qed.

Lemma insert_sorted_perm {A} (x : string * A) (l : list (string * A)) :
  Permutation (insert_sorted x l) (x :: l).
Proof.
  induction l as [| y l IH]; [reflexivity |].
  cbn [insert_sorted]. destruct (String.leb (fst x) (fst y)); [reflexivity |].
  rewrite IH. apply perm_swap.
Qed.

Lemma sorted_perm {A} (l : list (string * A)) : Permutation (sorted l) l.
Proof.
  induction l as [| x l IH]; [reflexivity |].
  cbn [sorted]. rewrite insert_sorted_perm. now rewrite IH.
Qed.

Lemma sorted_In {A} (x : string * A) (l : list (string * A)) :
  In x (sorted l) <-> In x l.
Proof.
  split; apply Permutation_in; [| symmetry]; apply sorted_perm.
Qed.

Lemma insert_sorted_below {A} (x : string * A) (l : list (string * A)) :
  Forall (key_le x) l -> insert_sorted x l = x :: l.
Proof.
  intros H. destruct H as [| y l Hy Hl]; [reflexivity |].
  cbn [insert_sorted]. apply leb_le in Hy. now rewrite Hy.
Qed.

Lemma insert_sorted_sorted {A} (x : string * A) (l : list (string * A)) :
  StronglySorted key_le l -> StronglySorted key_le (insert_sorted x l).
Proof.
  induction 1 as [| y l Hs IH Hy]; cbn [insert_sorted].
  - repeat constructor.
  - destruct (String.leb (fst x) (fst y)) eqn:E.
    + apply leb_le in E. constructor; [now constructor |].
      constructor; [exact E |].
      eapply Forall_impl; [exact Hy |]. intros z Hz. unfold key_le in *.
      etransitivity; eassumption.
    + apply leb_false_le in E. constructor; [exact IH |].
      rewrite (insert_sorted_perm x l). now constructor.
Qed.

Lemma sorted_sorted {A} (l : list (string * A)) : StronglySorted key_le (sorted l).
Proof.
  induction l as [| x l IH]; cbn [sorted]; [constructor |].
  now apply insert_sorted_sorted.
Qed.

Lemma insert_sorted_filter {A} (P : string * A -> Prop) `{!forall e, Decision (P e)}
    (x : string * A) (l : list (string * A)) :
  StronglySorted key_le l ->
  filter P (insert_sorted x l)
  = if decide (P x) then insert_sorted x (filter P l) else filter P l.
Proof.
  induction 1 as [| y l Hs IH Hy]; cbn [insert_sorted].
  - rewrite filter_cons, filter_nil. now destruct (decide (P x)).
  - destruct (String.leb (fst x) (fst y)) eqn:E.
    + rewrite (filter_cons _ x). destruct (decide (P x)) as [Hx | Hx]; [| reflexivity].
      symmetry. apply insert_sorted_below.
      apply leb_le in E.
      apply list.Forall_forall. intros z Hz.
      apply list_elem_of_filter in Hz. destruct Hz as [_ Hz].
      apply elem_of_cons in Hz. destruct Hz as [-> | Hz]; [exact E |].
      rewrite list.Forall_forall in Hy. specialize (Hy z Hz).
      unfold key_le in *. etransitivity; eassumption.
    + rewrite (filter_cons _ y), IH.
      destruct (decide (P x)) as [Hx | Hx].
      * rewrite (filter_cons _ y). destruct (decide (P y)); [| reflexivity].
        cbn [insert_sorted]. now rewrite E.
      * now rewrite (filter_cons _ y).
Qed.

(** Sorting commutes with the removal of entries. *)
Lemma sorted_filter {A} (P : string * A -> Prop) `{!forall e, Decision (P e)}
    (l : list (string * A)) :
  sorted (filter P l) = filter P (sorted l).
Proof.
  induction l as [| x l IH]; [reflexivity |].
  cbn [sorted]. rewrite insert_sorted_filter by apply sorted_sorted.
  rewrite filter_cons. destruct (decide (P x)); [| exact IH].
  cbn [sorted]. now rewrite IH.
Qed.

(** ** The traversal in the form of the source *)

(** Equality of two reports with their traces, field by field. *)
Ltac report_eq :=
  unfold bind, tell, ret, report_app, empty_report, add_stats, add_file_stats,
    add_size, stats0; cbn;
  repeat match goal with
         | |- (_, _) = (_, _) => f_equal
         | |- mkReport _ _ _ = mkReport _ _ _ => f_equal
         | |- mkStats _ _ _ _ _ = mkStats _ _ _ _ _ => f_equal
         end;
  try lia;
  rewrite <- ?List.app_assoc, ?List.app_nil_r; try reflexivity.

Section ExtractionFacts.

Variable readers : FormatReaders.

Lemma for_each_map {A B C} (h : A -> B) (l : list A) (body : C -> B -> IO C) (acc : C) :
  for_each (map h l) body acc = for_each l (fun a x => body a (h x)) acc.
Proof.
  revert acc; induction l as [| x l IH]; intros acc; [reflexivity |].
  cbn [map for_each]. unfold bind. now rewrite IH.
Qed.

(** [get_folder_structure_and_content] lists the folder, sorts the items and
    runs the loop body on each, from empty accumulators. *)
Lemma get_folder_structure_and_content_eq (self : extractor) (extract_content : bool)
    (t : node) (folder_path : string) (indent_level : nat) :
  get_folder_structure_and_content readers self extract_content t folder_path indent_level
  = let* items := listdir t folder_path in
    match items with
    | Raise ex => ret (cannot_open indent_level ex)
    | Ok items =>
        for_each (sorted items)
          (walk_entry readers self extract_content folder_path indent_level)
          empty_report
    end.
Proof.
  destruct t as [f | [entries | ex]]; try reflexivity.
  cbn [get_folder_structure_and_content].
  unfold listdir. rewrite bind_assoc, bind_ret_l.
  rewrite (sorted_map (fun e : string * node =>
             (fst e, (snd e, get_folder_structure_and_content readers self
                                extract_content (snd e))))) by reflexivity.
  now rewrite for_each_map.
Qed.

Lemma add_stats_0_r (s : Stats) : add_stats s stats0 = s.
Proof. destruct s; unfold add_stats, stats0; cbn. f_equal; lia. Qed.

Lemma add_stats_0_l (s : Stats) : add_stats stats0 s = s.
Proof. destruct s; unfold add_stats, stats0; cbn. f_equal; lia. Qed.

Lemma add_stats_assoc (a b c : Stats) :
  add_stats (add_stats a b) c = add_stats a (add_stats b c).
Proof. unfold add_stats; cbn. f_equal; lia. Qed.

Lemma report_app_empty_r (a : Report) : report_app a empty_report = a.
Proof.
  destruct a; unfold report_app, empty_report; cbn.
  now rewrite !List.app_nil_r, add_stats_0_r.
Qed.

Lemma report_app_empty_l (a : Report) : report_app empty_report a = a.
Proof.
  destruct a; unfold report_app, empty_report; cbn. now rewrite add_stats_0_l.
Qed.

Lemma report_app_assoc (a b c : Report) :
  report_app (report_app a b) c = report_app a (report_app b c).
Proof.
  unfold report_app; cbn. now rewrite <- !List.app_assoc, add_stats_assoc.
Qed.

(** The loop body extends the accumulators: it appends to the lists and adds
    to the statistics what it computes from the entry alone. *)
Lemma visit_item_acc (self : extractor) (extract_content : bool)
    (folder_path : string) (indent_level : nat) (acc : Report) (item : string)
    (child : node) (recurse : string -> nat -> IO Report) :
  visit_item readers self extract_content folder_path indent_level acc item child recurse
  = let* r := visit_item readers self extract_content folder_path indent_level
                empty_report item child recurse in
    ret (report_app acc r).
Proof.
  unfold visit_item.
  destruct (decide (item ∈ exclusions self)).
  { rewrite bind_ret_l. now rewrite report_app_empty_r. }
  destruct child as [f | listing].
  - destruct (decide (_ ∈ extensions self)).
    2:{ unfold bind, tell, ret; cbn. now rewrite report_app_empty_r. }
    destruct extract_content; cbn [negb].
    2:{ destruct acc as [s c [w l ch tk sz]]. report_eq. }
    destruct (st_size f) as [file_size | err].
    2:{ destruct acc as [s c [w l ch tk sz]]. report_eq. }
    destruct (file_size >? 100 * 1024)%Z.
    + destruct acc as [s c [w l ch tk sz]]. report_eq.
    + destruct acc as [s c [w l ch tk sz]].
      destruct (extract_file_content readers f (OsPath.join folder_path item) indent_level)
        as [[fc [fw fl fch ftk]] ev].
      report_eq.
  - destruct acc as [s c [w l ch tk sz]].
    destruct (recurse (OsPath.join folder_path item) (S indent_level))
      as [[ss sc [sw sl sch stk ssz]] ev].
    report_eq.
Qed.

Lemma for_each_walk_acc (self : extractor) (extract_content : bool)
    (folder_path : string) (indent_level : nat)
    (l : list (string * node)) (acc : Report) :
  for_each l (walk_entry readers self extract_content folder_path indent_level) acc
  = let* r := for_each l (walk_entry readers self extract_content folder_path indent_level)
                empty_report in
    ret (report_app acc r).
Proof.
  revert acc. induction l as [| e l IH]; intros acc; cbn [for_each].
  - rewrite bind_ret_l. now rewrite report_app_empty_r.
  - unfold walk_entry at 1 3. rewrite visit_item_acc.
    rewrite !bind_assoc.
    unfold bind at 1 3. cbn [fst snd].
    rewrite bind_ret_l.
    rewrite IH.
    rewrite (IH (fst (visit_item _ _ _ _ _ empty_report _ _ _))).
    unfold bind, ret; cbn [fst snd].
    rewrite report_app_assoc, !List.app_nil_r. reflexivity.
Qed.

Lemma walk_entry_acc (self : extractor) (extract_content : bool)
    (folder_path : string) (indent_level : nat) (acc : Report) (e : string * node) :
  walk_entry readers self extract_content folder_path indent_level acc e
  = let* r := walk_entry readers self extract_content folder_path indent_level
                empty_report e in
    ret (report_app acc r).
Proof. unfold walk_entry. apply visit_item_acc. Qed.

(** The report of a directory, cut at one entry of the sorted listing. *)
Lemma walk_dir_split (self : extractor) (extract_content : bool)
    (entries l1 l2 : list (string * node)) (e : string * node)
    (folder_path : string) (indent_level : nat) :
  sorted entries = l1 ++ e :: l2 ->
  let W := walk_entry readers self extract_content folder_path indent_level in
  get_folder_structure_and_content readers self extract_content (Dir (Ok entries))
    folder_path indent_level
  = (report_app (report_app (fst (for_each l1 W empty_report)) (fst (W empty_report e)))
                (fst (for_each l2 W empty_report)),
     [Listdir folder_path] ++ snd (for_each l1 W empty_report)
     ++ snd (W empty_report e) ++ snd (for_each l2 W empty_report)).
Proof.
  intros Hs W. rewrite get_folder_structure_and_content_eq.
  unfold listdir. rewrite bind_assoc, bind_ret_l. rewrite Hs.
  rewrite for_each_app. unfold bind, tell; cbn [for_each fst snd]. unfold bind.
  fold W.
  rewrite (for_each_walk_acc self extract_content folder_path indent_level l2). fold W.
  unfold W.
  rewrite (walk_entry_acc self extract_content folder_path indent_level
             (fst (for_each l1 _ empty_report)) e).
  unfold bind, ret; cbn [fst snd].
  now rewrite !List.app_nil_r, <- ?List.app_assoc.
Qed.

Lemma has_block_app_l {A} (block l l' : list A) :
  has_block block l -> has_block block (l' ++ l).
Proof.
  intros (pre & post & ->). exists (l' ++ pre), post. now rewrite <- List.app_assoc.
Qed.

Lemma has_block_app_r {A} (block l l' : list A) :
  has_block block l -> has_block block (l ++ l').
Proof.
  intros (pre & post & ->). exists pre, (post ++ l'). now rewrite <- !List.app_assoc.
Qed.

Lemma has_block_refl {A} (block : list A) : has_block block block.
Proof. exists [], []. now rewrite List.app_nil_r. Qed.

(** The loop body at a directory entry that is not excluded. *)
Lemma walk_entry_dir (self : extractor) (extract_content : bool)
    (folder_path : string) (indent_level : nat) (d : string)
    (listing : outcome (list (string * node))) :
  d ∉ exclusions self ->
  let rs := get_folder_structure_and_content readers self extract_content
              (Dir listing) (OsPath.join folder_path d) (S indent_level) in
  walk_entry readers self extract_content folder_path indent_level empty_report
             (d, Dir listing)
  = ({| structure_output :=
          [indentation indent_level +:+ d +:+ "/"] ++ structure_output (fst rs);
        content_output := content_output (fst rs);
        stats := stats (fst rs) |},
     Isdir (OsPath.join folder_path d) :: snd rs).
Proof.
  intros Hex rs. unfold walk_entry, visit_item. cbn [fst snd].
  destruct (decide (d ∈ exclusions self)); [contradiction |].
  fold rs. unfold bind, tell, ret; cbn.
  now rewrite add_stats_0_l, List.app_nil_r.
Qed.

(** What the report of a directory inherits from the report of one of its
    sub-directories. *)
Lemma walk_dir_inherits (self : extractor) (extract_content : bool)
    (entries : list (string * node)) (d : string) (sub : node)
    (folder_path : string) (indent_level : nat) :
  In (d, sub) entries ->
  d ∉ exclusions self ->
  (exists listing, sub = Dir listing) ->
  let r := get_folder_structure_and_content readers self extract_content
             (Dir (Ok entries)) folder_path indent_level in
  let rs := get_folder_structure_and_content readers self extract_content
              sub (OsPath.join folder_path d) (S indent_level) in
  (forall line, In line (structure_output (fst rs)) -> In line (structure_output (fst r)))
  /\ (forall block, has_block block (content_output (fst rs)) ->
                    has_block block (content_output (fst r)))
  /\ (forall block, has_block block (snd rs) -> has_block block (snd r)).
Proof.
  intros Hin Hex [listing ->] r rs.
  apply sorted_In, in_split in Hin. destruct Hin as (l1 & l2 & Hs).
  subst r. rewrite (walk_dir_split _ _ _ _ _ _ _ _ Hs).
  rewrite (walk_entry_dir _ _ _ _ _ _ Hex). fold rs.
  cbn [fst snd structure_output content_output report_app].
  split; [| split].
  - intros line Hl.
    apply List.in_or_app; left. apply List.in_or_app; right.
    apply List.in_or_app; right. exact Hl.
  - intros block Hb. apply has_block_app_r, has_block_app_l. exact Hb.
  - intros block Hb.
    apply has_block_app_l, has_block_app_l, has_block_app_r.
    apply (has_block_app_l block (snd rs) [Isdir (OsPath.join folder_path d)]).
    exact Hb.
Qed.

End ExtractionFacts.

(** ** Files above the size ceiling *)

Lemma visits_not_excluded (self : extractor) (t : node) (folder_path : string)
    (indent_level : nat) (item : string) (child : node) (dir : string) (n : nat) :
  visits self t folder_path indent_level item child dir n -> item ∉ exclusions self.
Proof. induction 1; assumption. Qed.

Lemma visits_is_dir (self : extractor) (t : node) (folder_path : string)
    (indent_level : nat) (item : string) (child : node) (dir : string) (n : nat) :
  visits self t folder_path indent_level item child dir n ->
  exists listing, t = Dir listing.
Proof. destruct 1; eauto. Qed.

(** What the loop body computes at a visited entry, from empty accumulators,
    occurs as such in the report and the trace of the whole traversal. *)
Lemma visited_entry_in_report (readers : FormatReaders) (self : extractor)
    (extract_content : bool) (t : node) (folder_path : string) (indent_level : nat)
    (item : string) (child : node) (dir : string) (n : nat) :
  visits self t folder_path indent_level item child dir n ->
  let r := get_folder_structure_and_content readers self extract_content t
             folder_path indent_level in
  let re := walk_entry readers self extract_content dir n empty_report (item, child) in
  (forall line, In line (structure_output (fst re)) -> In line (structure_output (fst r)))
  /\ (forall block, has_block block (content_output (fst re)) ->
                    has_block block (content_output (fst r)))
  /\ (forall block, has_block block (snd re) -> has_block block (snd r)).
Proof.
  induction 1 as [entries folder_path indent_level item child Hin Hex
                 | entries folder_path indent_level d sub item child dir n Hin Hex Hv IH];
    cbv zeta in *.
  - apply sorted_In, in_split in Hin. destruct Hin as (l1 & l2 & Hs).
    rewrite (walk_dir_split readers _ _ _ _ _ _ _ _ Hs).
    cbn [fst snd structure_output content_output report_app].
    split; [| split].
    + intros line Hl. apply List.in_or_app; left. apply List.in_or_app; now right.
    + intros block Hb. now apply has_block_app_r, has_block_app_l.
    + intros block Hb. now apply has_block_app_l, has_block_app_l, has_block_app_r.
  - destruct IH as (IH1 & IH2 & IH3).
    destruct (walk_dir_inherits readers self extract_content entries d sub folder_path
                indent_level Hin Hex (visits_is_dir _ _ _ _ _ _ _ _ Hv))
      as (H1 & H2 & H3).
    auto.
Qed.


(** The goals [x ∈ X] and [x ∉ X] on closed sets, by evaluation. *)
Ltac by_evaluation := apply (bool_decide_unpack _); vm_compute; exact I.


(** ** Entries that the loop body passes over *)

Section Pruning.

Variable readers : FormatReaders.
Variable self : extractor.
Variable extract_content : bool.
Variable keep : string -> bool -> bool.
Variable observed : event -> bool.

(** The loop body leaves the accumulators as they are at a rejected entry,
    and makes no observed call for it. *)
Hypothesis rejected_skipped :
  forall folder_path indent_level acc item child recurse,
    keep item (is_dir child) = false ->
    let r := visit_item readers self extract_content folder_path indent_level
               acc item child recurse in
    fst r = acc /\ observe observed (snd r) = [].

(** Two runs with the same value and the same observed calls. *)
Definition same {A} (r r' : IO A) : Prop :=
  fst r = fst r' /\ observe observed (snd r) = observe observed (snd r').

Lemma same_refl {A} (r : IO A) : same r r.
Proof. now split. Qed.

Lemma same_bind {A B} (m m' : IO A) (k k' : A -> IO B) :
  same m m' -> (forall a, same (k a) (k' a)) -> same (bind m k) (bind m' k').
Proof.
  intros [Hv Ht] Hk. unfold same, bind, observe in *. cbn [fst snd].
  rewrite !List.filter_app, Ht, Hv.
  destruct (Hk (fst m')) as [-> ->]. now split.
Qed.

Lemma is_dir_prune (t : node) : is_dir (prune keep t) = is_dir t.
Proof. now destruct t as [f | [entries | ex]]. Qed.

Lemma visit_item_same (folder_path : string) (indent_level : nat) (acc : Report)
    (item : string) (child : node) (recurse recurse' : string -> nat -> IO Report) :
  (forall p n, same (recurse p n) (recurse' p n)) ->
  same (visit_item readers self extract_content folder_path indent_level
          acc item child recurse)
       (visit_item readers self extract_content folder_path indent_level
          acc item (prune keep child) recurse').
Proof.
  intros Hrec. unfold visit_item.
  destruct (decide (item ∈ exclusions self)); [apply same_refl |].
  apply same_bind; [apply same_refl | intros _].
  destruct child as [f | [entries | ex]]; cbn [prune]; try apply same_refl.
  - apply same_bind; [apply Hrec | intros; apply same_refl].
  - apply same_bind; [apply Hrec | intros; apply same_refl].
Qed.

Definition kept (e : string * node) : Prop := keep (fst e) (is_dir (snd e)) = true.
Definition pruned_entry (e : string * node) : string * node :=
  (fst e, prune keep (snd e)).

Lemma for_each_pruned (folder_path : string) (indent_level : nat)
    (l : list (string * node)) (acc : Report) :
  Forall (fun e => forall p n,
            same (get_folder_structure_and_content readers self extract_content
                    (snd e) p n)
                 (get_folder_structure_and_content readers self extract_content
                    (prune keep (snd e)) p n)) l ->
  same (for_each l
          (walk_entry readers self extract_content folder_path indent_level) acc)
       (for_each (filter kept (map pruned_entry l))
          (walk_entry readers self extract_content folder_path indent_level) acc).
Proof.
  intros HF. revert acc.
  induction HF as [| e l He HF IH]; intros acc; [apply same_refl |].
  cbn [map]. rewrite filter_cons.
  destruct (decide (kept (pruned_entry e))) as [Hk | Hk].
  - cbn [for_each]. apply same_bind; [| exact IH].
    unfold walk_entry. cbn [pruned_entry fst snd]. now apply visit_item_same.
  - cbn [for_each].
    assert (keep (fst e) (is_dir (snd e)) = false) as Hr.
    { unfold kept, pruned_entry in Hk. cbn [fst snd] in Hk.
      rewrite is_dir_prune in Hk. now destruct (keep (fst e) (is_dir (snd e))). }
    destruct (rejected_skipped folder_path indent_level acc (fst e) (snd e)
                (get_folder_structure_and_content readers self extract_content (snd e))
                Hr) as [Hv Ht].
    destruct (IH acc) as [IHv IHt].
    unfold same, bind, walk_entry, observe in *. cbn [fst snd].
    rewrite List.filter_app, Ht, Hv. now split.
Qed.

(** The traversal of a tree and of the tree without the rejected entries
    give the same report and make the same observed calls. *)
Lemma prune_same (t : node) (folder_path : string) (indent_level : nat) :
  same (get_folder_structure_and_content readers self extract_content t
          folder_path indent_level)
       (get_folder_structure_and_content readers self extract_content (prune keep t)
          folder_path indent_level).
Proof.
  revert folder_path indent_level.
  induction t as [f | ex | entries IH] using node_induction;
    intros folder_path indent_level; try apply same_refl.
  rewrite !get_folder_structure_and_content_eq. cbn [prune].
  unfold listdir. rewrite !bind_assoc, !bind_ret_l.
  apply same_bind; [apply same_refl | intros _].
  rewrite (sorted_filter (fun e => keep (fst e) (is_dir (snd e)) = true)).
  rewrite (sorted_map (fun e : string * node => (fst e, prune keep (snd e))))
    by reflexivity.
  apply for_each_pruned.
  rewrite list.Forall_forall in IH |- *. intros e He. apply IH.
  apply list_elem_of_In. apply list_elem_of_In in He.
  exact (proj1 (sorted_In _ _) He).
Qed.

End Pruning.

(** ** Where the lines and the calls of a traversal come from *)

Section Provenance.

Variable readers : FormatReaders.
Variable self : extractor.
Variable extract_content : bool.

Local Abbreviation W := (walk_entry readers self extract_content).

(** Whatever a loop leaves in the accumulators and the trace was there
    before or comes from the loop body at one of the entries. *)
Lemma for_each_members (folder_path : string) (indent_level : nat)
    (l : list (string * node)) (acc : Report) :
  let r := for_each l (W folder_path indent_level) acc in
  (forall line, In line (structure_output (fst r)) ->
     In line (structure_output acc)
     \/ exists e, In e l
          /\ In line (structure_output (fst (W folder_path indent_level empty_report e))))
  /\ (forall line, In line (content_output (fst r)) ->
     In line (content_output acc)
     \/ exists e, In e l
          /\ In line (content_output (fst (W folder_path indent_level empty_report e))))
  /\ (forall ev, In ev (snd r) ->
     exists e, In e l /\ In ev (snd (W folder_path indent_level empty_report e))).
Proof.
  revert acc. induction l as [| e l IH]; intros acc; cbv zeta.
  - cbn. repeat split; auto. intros ev [].
  - cbn [for_each]. rewrite walk_entry_acc, bind_assoc.
    unfold bind at 1. cbn [fst snd]. rewrite bind_ret_l.
    destruct (IH (report_app acc (fst (W folder_path indent_level empty_report e))))
      as (IHs & IHc & IHe).
    split; [| split].
    + intros line Hl. destruct (IHs line Hl) as [Ha | (e' & He' & Hl')].
      * cbn [report_app structure_output] in Ha.
        apply List.in_app_or in Ha. destruct Ha as [Ha | Ha]; [now left |].
        right. exists e. split; [now left | exact Ha].
      * right. exists e'. split; [now right | exact Hl'].
    + intros line Hl. destruct (IHc line Hl) as [Ha | (e' & He' & Hl')].
      * cbn [report_app content_output] in Ha.
        apply List.in_app_or in Ha. destruct Ha as [Ha | Ha]; [now left |].
        right. exists e. split; [now left | exact Ha].
      * right. exists e'. split; [now right | exact Hl'].
    + intros ev Hev. apply List.in_app_or in Hev. destruct Hev as [Hev | Hev].
      * exists e. split; [now left | exact Hev].
      * destruct (IHe ev Hev) as (e' & He' & Hev'). exists e'. split; [now right | exact Hev'].
Qed.

(** Every call of [extract_file_content] is on the file it is given. *)
Lemma extract_file_content_events (f : file) (filepath : string) (indent_level : nat)
    (ev : event) :
  In ev (snd (extract_file_content readers f filepath indent_level)) ->
  event_path ev = filepath.
Proof.
  unfold extract_file_content.
  repeat match goal with
         | |- context [decide ?P] => destruct (decide P)
         | |- context [String.eqb ?a ?b] => destruct (String.eqb a b)
         | |- context [DOCX_AVAILABLE readers] => destruct (DOCX_AVAILABLE readers)
         end;
    cbn; intros H; repeat (destruct H as [<- | H]; [reflexivity |]); contradiction.
Qed.

Lemma structure_line_below (entries : list (string * node)) (d : string) (sub : node)
    (folder_path : string) (indent_level : nat) (line : string) :
  In (d, sub) entries -> d ∉ exclusions self ->
  structure_line_of self sub (OsPath.join folder_path d) (S indent_level) line ->
  structure_line_of self (Dir (Ok entries)) folder_path indent_level line.
Proof.
  intros Hin Hex [(item & child & dir & n & Hv & Hl) | Hl]; [left | now right].
  exists item, child, dir, n. split; [| exact Hl].
  eapply visits_below; eassumption.
Qed.

Lemma content_line_below (entries : list (string * node)) (d : string) (sub : node)
    (folder_path : string) (indent_level : nat) (line : string) :
  In (d, sub) entries -> d ∉ exclusions self ->
  content_line_of readers self extract_content sub (OsPath.join folder_path d)
                  (S indent_level) line ->
  content_line_of readers self extract_content (Dir (Ok entries)) folder_path
                  indent_level line.
Proof.
  intros Hin Hex (item & f & dir & n & Hv & Hl).
  exists item, f, dir, n. split; [| exact Hl].
  eapply visits_below; eassumption.
Qed.

Lemma call_below (entries : list (string * node)) (d : string) (sub : node)
    (folder_path : string) (indent_level : nat) (ev : event) :
  In (d, sub) entries -> d ∉ exclusions self ->
  call_of self sub (OsPath.join folder_path d) (S indent_level) ev ->
  call_of self (Dir (Ok entries)) folder_path indent_level ev.
Proof.
  intros Hin Hex [Hp | (item & child & dir & n & Hv & Hp)]; right.
  - exists d, sub, folder_path, indent_level. split; [| exact Hp].
    now apply visits_here.
  - exists item, child, dir, n. split; [| exact Hp].
    eapply visits_below; eassumption.
Qed.

(** Every structure line, content line and call of a traversal belongs to
    the folder it started at or to an entry it visited. *)
Lemma walk_provenance (t : node) (folder_path : string) (indent_level : nat) :
  let r := get_folder_structure_and_content readers self extract_content t
             folder_path indent_level in
  (forall line, In line (structure_output (fst r)) ->
                structure_line_of self t folder_path indent_level line)
  /\ (forall line, In line (content_output (fst r)) ->
                   content_line_of readers self extract_content t folder_path
                                   indent_level line)
  /\ (forall ev, In ev (snd r) -> call_of self t folder_path indent_level ev).
Proof.
  revert folder_path indent_level.
  induction t as [f | ex | entries IH] using node_induction;
    intros folder_path indent_level; cbv zeta.
  - cbn. repeat split.
    + intros line [<- | []]. right. eauto.
    + intros line [].
    + intros ev [<- | []]. now left.
  - cbn. repeat split.
    + intros line [<- | []]. right. eauto.
    + intros line [].
    + intros ev [<- | []]. now left.
  - rewrite get_folder_structure_and_content_eq.
    unfold listdir. rewrite bind_assoc, bind_ret_l.
    unfold bind at 1, tell. cbn [fst snd].
    destruct (for_each_members folder_path indent_level (sorted entries) empty_report)
      as (Ms & Mc & Me).
    assert (Hentry : forall e, In e (sorted entries) ->
      let re := W folder_path indent_level empty_report e in
      (forall line, In line (structure_output (fst re)) ->
         structure_line_of self (Dir (Ok entries)) folder_path indent_level line)
      /\ (forall line, In line (content_output (fst re)) ->
         content_line_of readers self extract_content (Dir (Ok entries)) folder_path
                         indent_level line)
      /\ (forall ev, In ev (snd re) ->
         call_of self (Dir (Ok entries)) folder_path indent_level ev)).
    { intros [item child] He. apply (proj1 (sorted_In _ _)) in He.
      rewrite list.Forall_forall in IH.
      specialize (IH (item, child) (proj2 (list_elem_of_In _ _) He)). cbn [snd] in IH.
      cbv zeta. unfold walk_entry, visit_item. cbn [fst snd].
      destruct (decide (item ∈ exclusions self)) as [Hex | Hex].
      { cbn. repeat split; intros ? []. }
      assert (Hhere : visits self (Dir (Ok entries)) folder_path indent_level
                        item child folder_path indent_level)
        by now apply visits_here.
      destruct child as [f | listing].
      - (* a file *)
        assert (Hcall : forall ev, event_path ev = OsPath.join folder_path item ->
                  call_of self (Dir (Ok entries)) folder_path indent_level ev).
        { intros ev Hp. right. eauto 10. }
        assert (Hline : structure_line_of self (Dir (Ok entries)) folder_path
                          indent_level (indentation indent_level +:+ item)).
        { left. eauto 10. }
        assert (Hcontent : forall line,
                  In line (content_output
                     (fst (visit_item readers self extract_content folder_path
                             indent_level empty_report item (File f)
                             (fun _ _ => ret empty_report)))) ->
                  content_line_of readers self extract_content (Dir (Ok entries))
                                  folder_path indent_level line).
        { intros line Hl. exists item, f, folder_path, indent_level. now split. }
        unfold visit_item in Hcontent.
        destruct (decide (item ∈ exclusions self)); [contradiction |].
        destruct (decide (_ ∈ extensions self)).
        2:{ cbn. repeat split.
            - intros ? [].
            - intros ? [].
            - intros ev [<- | []]. now apply Hcall. }
        destruct extract_content; cbn [negb] in *.
        2:{ cbn. repeat split.
            - intros line [<- | []]. exact Hline.
            - intros ? [].
            - intros ev [<- | []]. now apply Hcall. }
        destruct (st_size f) as [file_size | err].
        2:{ cbn in *. repeat split.
            - intros line [<- | []]. exact Hline.
            - exact Hcontent.
            - intros ev [<- | [<- | []]]; now apply Hcall. }
        destruct (file_size >? 100 * 1024)%Z.
        { cbn in *. repeat split.
          - intros line [<- | []]. exact Hline.
          - exact Hcontent.
          - intros ev [<- | [<- | []]]; now apply Hcall. }
        pose proof (extract_file_content_events f (OsPath.join folder_path item)
                      indent_level) as Hx.
        destruct (extract_file_content readers f (OsPath.join folder_path item)
                    indent_level) as [[fc fst'] evs].
        cbn in *. repeat split.
        + intros line [<- | []]. exact Hline.
        + exact Hcontent.
        + intros ev [<- | [<- | Hev]]; try now apply Hcall.
          rewrite List.app_nil_r in Hev. apply Hcall. now apply Hx.
      - (* a directory *)
        specialize (IH (OsPath.join folder_path item) (S indent_level)).
        cbv zeta in IH. destruct IH as (IHs & IHc & IHe).
        unfold bind, tell, ret. cbn [fst snd structure_output content_output
                                      empty_report app].
        repeat split.
        + intros line [<- | Hl].
          * left. exists item, (Dir listing), folder_path, indent_level. auto.
          * eapply structure_line_below; eauto.
        + intros line Hl. eapply content_line_below; eauto.
        + intros ev [<- | Hev].
          * right. exists item, (Dir listing), folder_path, indent_level. auto.
          * rewrite List.app_nil_r in Hev. eapply call_below; eauto. }
    split; [| split].
    + intros line Hl. destruct (Ms line Hl) as [[] | (e & He & Hl')].
      now apply (Hentry e He).
    + intros line Hl. destruct (Mc line Hl) as [[] | (e & He & Hl')].
      now apply (Hentry e He).
    + intros ev [<- | Hev]; [now left |].
      destruct (Me ev Hev) as (e & He & Hev').
      now apply (Hentry e He).
Qed.

End Provenance.

(** ** Exclusions *)

Lemma filter_all {A} (l : list A) : List.filter (fun _ => true) l = l.
Proof. induction l as [| x l IH]; cbn; [reflexivity | now rewrite IH]. Qed.

(** A visited entry lies below the start folder, under directories whose
    names are all outside the exclusion set, as is its own name. *)
Lemma visits_path (self : extractor) (t : node) (folder_path : string)
    (indent_level : nat) (item : string) (child : node) (dir : string) (n : nat) :
  visits self t folder_path indent_level item child dir n ->
  exists dirs,
    dir = fold_left OsPath.join dirs folder_path
    /\ n = (indent_level + List.length dirs)%nat
    /\ Forall (fun d => d ∉ exclusions self) dirs
    /\ item ∉ exclusions self.
Proof.
  induction 1 as [entries folder_path indent_level item child Hin Hex
                 | entries folder_path indent_level d sub item child dir n Hin Hex Hv IH].
  - exists []. cbn. repeat split; auto; lia.
  - destruct IH as (dirs & -> & -> & HF & Hitem).
    exists (d :: dirs). cbn. repeat split; auto; lia.
Qed.

(** The traversal is blind to the excluded entries: its report and its
    trace are those of the tree without them. *)
Lemma walk_prune_excluded (readers : FormatReaders) (self : extractor)
    (extract_content : bool) (t : node) (folder_path : string) (indent_level : nat) :
  get_folder_structure_and_content readers self extract_content t
    folder_path indent_level
  = get_folder_structure_and_content readers self extract_content
      (prune (not_excluded (exclusions self)) t) folder_path indent_level.
Proof.
  destruct (prune_same readers self extract_content
              (not_excluded (exclusions self)) (fun _ => true)) with
    (t := t) (folder_path := folder_path) (indent_level := indent_level) as [Hv Ht].
  - intros fp il acc item child recurse Hk. cbv zeta.
    unfold not_excluded in Hk. apply bool_decide_eq_false in Hk.
    unfold visit_item.
    destruct (decide (item ∈ exclusions self)) as [Hin | Hin]; [now split |].
    contradiction.
  - unfold observe in Ht. rewrite !filter_all in Ht.
    destruct (get_folder_structure_and_content readers self extract_content t _ _),
             (get_folder_structure_and_content readers self extract_content
                (prune _ t) _ _).
    cbn in *. congruence.
Qed.

(** C1.  A full extraction runs with the baseline exclusions joined to the
    user's.  Its report and its trace are those of the tree without the
    entries whose name is excluded; every call it makes is on the start
    folder or on a visited entry, and every line of the structure and of
    the content belongs to a visited entry (or is a cannot-open notice);
    a visited entry is reached through directories whose names, like its
    own, are outside the exclusion set. *)
Theorem build_context_skips_exclusions (readers : FormatReaders) (self : extractor)
    (t : node) (folder_path : string) (extract_content : bool) :
  let effective := DEFAULT_EXCLUSIONS ∪ exclusions self in
  let self' := fst (build_context readers self t folder_path extract_content) in
  let run := snd (build_context readers self t folder_path extract_content) in
  let r := get_folder_structure_and_content readers self' extract_content t
             folder_path 0 in
  exclusions self' = effective
  /\ snd run = snd r
  /\ run = snd (build_context readers self (prune (not_excluded effective) t)
                 folder_path extract_content)
  /\ (forall ev, In ev (snd run) -> call_of self' t folder_path 0 ev)
  /\ (forall line, In line (structure_output (fst r)) ->
        structure_line_of self' t folder_path 0 line)
  /\ (forall line, In line (content_output (fst r)) ->
        content_line_of readers self' extract_content t folder_path 0 line)
  /\ (forall item child dir n,
        visits self' t folder_path 0 item child dir n ->
        exists dirs,
          dir = fold_left OsPath.join dirs folder_path
          /\ n = List.length dirs
          /\ Forall (fun d => d ∉ effective) dirs
          /\ item ∉ effective).
Proof.
  intros effective self' run r.
  assert (Hrun : snd run = snd r).
  { subst run r self'. unfold build_context. cbn [fst snd].
    unfold bind, ret. cbn [fst snd]. now rewrite List.app_nil_r. }
  destruct (walk_provenance readers self' extract_content t folder_path 0)
    as (Hs & Hc & He).
  split; [reflexivity |].
  split; [exact Hrun |].
  split; [| split; [| split; [| split]]].
  - subst run. unfold build_context. cbn [fst snd].
    now rewrite (walk_prune_excluded readers (with_default_exclusions self)).
  - intros ev Hev. rewrite Hrun in Hev. now apply He.
  - exact Hs.
  - exact Hc.
  - intros item child dir n Hv.
    destruct (visits_path _ _ _ _ _ _ _ _ Hv) as (dirs & Hd & Hn & HF & Hi).
    exists dirs. repeat split; auto.
Qed.

(** ** Extensions *)

Lemma rfind_from_app (c : ascii) (s1 s2 : string) (i last : Z) :
  Py.rfind_from c (s1 +:+ s2) i last
  = Py.rfind_from c s2 (i + Z.of_nat (String.length s1)) (Py.rfind_from c s1 i last).
Proof.
  revert i last. induction s1 as [| a s1 IH]; intros i last.
  - cbn [String.length Py.rfind_from]. rewrite string_app_nil_l. f_equal. lia.
  - rewrite string_app_cons. cbn [Py.rfind_from String.length]. rewrite IH.
    f_equal. lia.
Qed.

Lemma rfind_from_range (c : ascii) (s : string) (i last : Z) :
  Py.rfind_from c s i last = last
  \/ i <= Py.rfind_from c s i last < i + Z.of_nat (String.length s).
Proof.
  revert i last. induction s as [| a s IH]; intros i last; cbn [Py.rfind_from String.length].
  - now left.
  - destruct (IH (i + 1) (if Ascii.eqb a c then i else last)) as [-> | H].
    + destruct (Ascii.eqb a c); [right; lia | now left].
    + right. lia.
Qed.

Lemma contains_char_cons (c a : ascii) (s : string) :
  Py.contains (String c "") (String a s)
  = (Ascii.eqb a c || Py.contains (String c "") s)%bool.
Proof.
  cbn [Py.contains String.prefix].
  destruct (ascii_dec c a) as [-> | Hne].
  - rewrite Ascii.eqb_refl. now destruct s.
  - assert (Ascii.eqb a c = false) as -> by (apply Ascii.eqb_neq; congruence).
    reflexivity.
Qed.

Lemma rfind_from_absent (c : ascii) (s : string) (i last : Z) :
  Py.contains (String c "") s = false -> Py.rfind_from c s i last = last.
Proof.
  revert i last. induction s as [| a s IH]; intros i last H; [reflexivity |].
  rewrite contains_char_cons in H. apply orb_false_iff in H. destruct H as [Ha Hs].
  cbn [Py.rfind_from]. rewrite Ha. now apply IH.
Qed.

Lemma endswith_split (s p : string) :
  Py.endswith s p = true -> exists s0, s = s0 +:+ p.
Proof.
  induction s as [| a s IH]; cbn [Py.endswith]; intros H.
  - apply orb_true_iff in H. destruct H as [H | H]; [| discriminate].
    apply String.eqb_eq in H. subst p. now exists "".
  - apply orb_true_iff in H. destruct H as [H | H].
    + apply String.eqb_eq in H. subst p. now exists "".
    + destruct (IH H) as [s0 ->]. now exists (String a s0).
Qed.

(** The extension that [os.path.splitext] finds is empty or starts with a
    dot. *)
Lemma rfind_from_suffix (c : ascii) (s : string) (i last r : Z) :
  Py.rfind_from c s i last = r -> r <> last -> 0 <= i ->
  exists rest, Py.slice_from s (r - i) = String c rest.
Proof.
  revert i last. induction s as [| a s IH]; intros i last Hr Hne Hi.
  - cbn in Hr. congruence.
  - cbn [Py.rfind_from] in Hr.
    destruct (rfind_from_range c s (i + 1) (if Ascii.eqb a c then i else last))
      as [Hsame | Hrange].
    + rewrite Hsame in Hr. destruct (Ascii.eqb a c) eqn:E; [| congruence].
      apply Ascii.eqb_eq in E. subst a r.
      unfold Py.slice_from. replace (Z.to_nat (i - i)) with 0%nat by lia.
      cbn [String.length String.substring Nat.sub]. eauto.
    + rewrite Hr in Hrange.
      destruct (IH (i + 1) (if Ascii.eqb a c then i else last) Hr) as [rest Hrest];
        [destruct (Ascii.eqb a c); lia | lia |].
      exists rest. unfold Py.slice_from in *.
      replace (Z.to_nat (r - i)) with (S (Z.to_nat (r - (i + 1)))) by lia.
      cbn [String.length String.substring Nat.sub]. exact Hrest.
Qed.

Lemma splitext_ext_shape (p : string) :
  snd (OsPath.splitext p) = ""
  \/ exists rest, snd (OsPath.splitext p) = String "." rest.
Proof.
  unfold OsPath.splitext.
  destruct ((Py.rfind "." p >? Py.rfind "/" p)%Z
            && OsPath.has_non_dot (Py.slice p (Py.rfind "/" p + 1) (Py.rfind "." p)))
    eqn:E; [| now left].
  right. cbn [snd]. apply andb_true_iff in E. destruct E as [E _].
  assert (-1 <= Py.rfind "/" p).
  { unfold Py.rfind. destruct (rfind_from_range "/" p 0 (-1)); lia. }
  destruct (rfind_from_suffix "." p 0 (-1) (Py.rfind "." p)) as [rest Hrest];
    [reflexivity | lia | lia |].
  rewrite Z.sub_0_r in Hrest. eauto.
Qed.

Lemma lower_ext_shape (p : string) :
  let ext := Py.lower (snd (OsPath.splitext p)) in
  ext = "" \/ Py.startswith ext "." = true.
Proof.
  cbv zeta. destruct (splitext_ext_shape p) as [-> | [rest ->]]; [now left |].
  right. cbn. now destruct (Py.lower rest).
Qed.

(** A name without a dot has no extension, whatever the folder. *)
Lemma dotless_no_extension (folder_path item : string) :
  Py.contains "." item = false ->
  snd (OsPath.splitext (OsPath.join folder_path item)) = "".
Proof.
  intros Hdot.
  assert (Hplain : snd (OsPath.splitext item) = "").
  { unfold OsPath.splitext, Py.rfind.
    rewrite (rfind_from_absent "." item 0 (-1) Hdot).
    destruct (rfind_from_range "/" item 0 (-1)) as [-> | H];
      [reflexivity |].
    assert ((-1 >? Py.rfind_from "/" item 0 (-1))%Z = false) as -> by lia.
    reflexivity. }
  assert (Hjoined : forall s0,
            snd (OsPath.splitext (s0 +:+ "/" +:+ item)) = "").
  { intros s0. unfold OsPath.splitext, Py.rfind.
    rewrite !rfind_from_app.
    change ("/" +:+ item) with (String "/" item).
    cbn [Py.rfind_from Ascii.eqb Bool.eqb].
    rewrite (rfind_from_absent "." item _ _ Hdot).
    change (Z.of_nat (String.length "/")) with 1.
    destruct (rfind_from_range "." s0 0 (-1)) as [Hd | Hd];
      destruct (rfind_from_range "/" item
                  (0 + Z.of_nat (String.length s0) + 1)
                  (0 + Z.of_nat (String.length s0))) as [Hq | Hq].
    all: match goal with
         | |- context [(?a >? ?b)%Z] =>
             assert ((a >? b)%Z = false) as -> by lia
         end; reflexivity. }
  unfold OsPath.join.
  destruct (Py.startswith item "/"); [exact Hplain |].
  destruct (String.eqb folder_path "") eqn:Eempty.
  { apply String.eqb_eq in Eempty. subst folder_path. exact Hplain. }
  cbn [orb]. destruct (Py.endswith folder_path "/") eqn:Eend.
  - destruct (endswith_split _ _ Eend) as [s0 ->].
    rewrite string_app_assoc. apply Hjoined.
  - apply Hjoined.
Qed.

(** No reachable extractor has the empty string in its allowlist. *)
Lemma set_extensions_loop_nonempty (l : list string) (acc : gset string) :
  "" ∉ acc -> "" ∉ set_extensions_loop l acc.
Proof.
  revert acc. induction l as [| e l IH]; intros acc Hacc; cbn [set_extensions_loop];
    [exact Hacc |].
  destruct (String.eqb (Py.lower (Py.strip e)) "") eqn:E; [now apply IH |].
  apply IH. apply String.eqb_neq in E.
  destruct (negb (Py.startswith (Py.lower (Py.strip e)) ".")); set_solver.
Qed.

Lemma reachable_allowlist (self : extractor) :
  reachable_extractor self -> "" ∉ extensions self.
Proof.
  induction 1 as [| self l Hr IH | self l Hr IH | self Hr IH]; cbn [extensions set_extensions
    set_exclusions with_default_exclusions]; try exact IH.
  - apply (bool_decide_unpack _). vm_compute. exact I.
  - apply set_extensions_loop_nonempty. set_solver.
Qed.

(** The loop body at a file without a dot in its name. *)
Lemma visit_dotless (readers : FormatReaders) (self : extractor)
    (extract_content : bool) (folder_path : string) (indent_level : nat)
    (acc : Report) (item : string) (f : file) (recurse : string -> nat -> IO Report) :
  "" ∉ extensions self ->
  Py.contains "." item = false ->
  visit_item readers self extract_content folder_path indent_level acc item
             (File f) recurse
  = (acc, if decide (item ∈ exclusions self) then []
          else [Isdir (OsPath.join folder_path item)]).
Proof.
  intros Hallow Hdot. unfold visit_item.
  destruct (decide (item ∈ exclusions self)); [reflexivity |].
  rewrite (dotless_no_extension folder_path item Hdot).
  change (Py.lower "") with "".
  destruct (decide ("" ∈ extensions self)); [contradiction |].
  reflexivity.
Qed.

(** C10.  The extension tested against the allowlist is the lower-cased
    text from the last dot of the file name: it is empty or starts with a
    dot, so the entries [Makefile], [Dockerfile], [Vagrantfile] and
    [Procfile] of the default allowlist match no path.  With the allowlist
    of any reachable extractor, the loop body passes over a file without a
    dot in its name: the accumulators stay as they are and no call but
    [isdir] is made; the report of a whole traversal, and its calls other
    than [isdir], are those of the tree without such files. *)
Theorem dotless_files_never_listed (readers : FormatReaders) (self : extractor) :
  reachable_extractor self ->
  (forall p,
      let ext := Py.lower (snd (OsPath.splitext p)) in
      ext = "" \/ Py.startswith ext "." = true)
  /\ (forall p e,
        In e ["Makefile"; "Dockerfile"; "Vagrantfile"; "Procfile"] ->
        e ∈ extensions init_extractor
        /\ Py.lower (snd (OsPath.splitext p)) <> e)
  /\ (forall extract_content folder_path indent_level acc item f recurse,
        Py.contains "." item = false ->
        let r := visit_item readers self extract_content folder_path indent_level
                   acc item (File f) recurse in
        fst r = acc /\ observe not_isdir (snd r) = [])
  /\ (forall extract_content t folder_path indent_level,
        let r := get_folder_structure_and_content readers self extract_content t
                   folder_path indent_level in
        let r' := get_folder_structure_and_content readers self extract_content
                    (prune dotted_or_dir t) folder_path indent_level in
        fst r = fst r' /\ observe not_isdir (snd r) = observe not_isdir (snd r')).
Proof.
  intros Hreach. pose proof (reachable_allowlist self Hreach) as Hallow.
  assert (Hbody : forall extract_content folder_path indent_level acc item f recurse,
        Py.contains "." item = false ->
        let r := visit_item readers self extract_content folder_path indent_level
                   acc item (File f) recurse in
        fst r = acc /\ observe not_isdir (snd r) = []).
  { intros ec fp il acc item f recurse Hdot. cbv zeta.
    rewrite (visit_dotless readers self ec fp il acc item f recurse Hallow Hdot).
    cbn [fst snd]. split; [reflexivity |].
    now destruct (decide (item ∈ exclusions self)). }
  split; [exact lower_ext_shape |].
  split; [| split; [exact Hbody |]].
  - intros p e He. split.
    + cbn in He.
      repeat (destruct He as [<- | He]; [apply (bool_decide_unpack _); vm_compute; exact I |]).
      contradiction.
    + intros Heq. destruct (lower_ext_shape p) as [H | H]; cbv zeta in H;
        rewrite Heq in H; cbn in He;
        repeat (destruct He as [<- | He]; [discriminate H |]); contradiction.
  - intros ec t fp il.
    apply (prune_same readers self ec dotted_or_dir not_isdir).
    intros fp' il' acc item child recurse Hk.
    unfold dotted_or_dir in Hk. apply orb_false_iff in Hk. destruct Hk as [Hd Hdot].
    destruct child as [f | listing]; [| discriminate Hd].
    now apply Hbody.
Qed.

Lemma dotless_files_never_listed_witness :
  fst (get_folder_structure_and_content sample_readers init_extractor true
         sample_project "/p" 0)
  = fst (get_folder_structure_and_content sample_readers init_extractor true
           (prune dotted_or_dir sample_project) "/p" 0).
Proof.
  exact (proj1 (proj2 (proj2 (proj2
           (dotless_files_never_listed sample_readers init_extractor reach_init)))
           true sample_project "/p" 0%nat)).
Defined.

(** ** Targeted extraction *)

Lemma clean_targets_of_strings (lower : string -> string) (target_files : list string) :
  clean_targets_of lower (map JStr target_files) = Ok (clean_targets lower target_files).
Proof.
  induction target_files as [| f l IH]; [reflexivity |].
  cbn [map clean_targets_of]. now rewrite IH.
Qed.

Lemma lookup_entry_map {A B} (h : A -> B) (name : string) (entries : list (string * A)) :
  lookup_entry name (map (fun e => (fst e, h (snd e))) entries)
  = option_map h (lookup_entry name entries).
Proof.
  induction entries as [| e entries IH]; [reflexivity |].
  cbn [map lookup_entry fst snd]. now destruct (String.eqb (fst e) name).
Qed.

Lemma lookup_entry_In {A} (name : string) (x : A) (entries : list (string * A)) :
  lookup_entry name entries = Some x -> In (name, x) entries.
Proof.
  induction entries as [| [n y] entries IH]; [discriminate |].
  cbn [lookup_entry fst snd]. destruct (String.eqb n name) eqn:E.
  - intros [= ->]. apply String.eqb_eq in E. subst. now left.
  - intros H. right. now apply IH.
Qed.

Lemma lookup_entry_NoDup {A} (name : string) (x : A) (entries : list (string * A)) :
  NoDup (map fst entries) -> In (name, x) entries ->
  lookup_entry name entries = Some x.
Proof.
  induction entries as [| [n y] entries IH]; [intros _ [] |].
  cbn [map fst lookup_entry snd]. intros Hnd Hin.
  apply NoDup_cons in Hnd. destruct Hnd as [Hn Hnd].
  destruct Hin as [[= -> ->] | Hin].
  - now rewrite String.eqb_refl.
  - destruct (String.eqb n name) eqn:E.
    + apply String.eqb_eq in E. subst n. exfalso. apply Hn.
      apply list_elem_of_In. apply (in_map fst) in Hin. exact Hin.
    + now apply IH.
Qed.

Lemma subdir_names_In (entries : list (string * node)) (d : string) :
  In d (subdir_names entries) <-> exists listing, In (d, Dir listing) entries.
Proof.
  unfold subdir_names. rewrite <- list_elem_of_In, list_elem_of_omap. split.
  - intros ([n [f | listing]] & Hin & Heq); cbn in Heq; [discriminate |].
    injection Heq as <-. exists listing. now apply list_elem_of_In.
  - intros (listing & Hin). exists (d, Dir listing). split; [| reflexivity].
    now apply list_elem_of_In.
Qed.

Lemma regular_files_In (entries : list (string * node)) (item : string) (f : file) :
  In (item, f) (regular_files entries) <-> In (item, File f) entries.
Proof.
  unfold regular_files. rewrite <- list_elem_of_In, list_elem_of_omap. split.
  - intros ([n [g | listing]] & Hin & Heq); cbn in Heq; [| discriminate].
    injection Heq as <- <-. now apply list_elem_of_In.
  - intros Hin. exists (item, File f). split; [| reflexivity].
    now apply list_elem_of_In.
Qed.

Lemma extract_file_content_no_getsize (readers : FormatReaders) (f : file)
    (filepath : string) (indent_level : nat) (ev : event) :
  In ev (snd (extract_file_content readers f filepath indent_level)) ->
  not_getsize ev = true.
Proof.
  unfold extract_file_content.
  repeat match goal with
         | |- context [decide ?P] => destruct (decide P)
         | |- context [String.eqb ?a ?b] => destruct (String.eqb a b)
         | |- context [DOCX_AVAILABLE readers] => destruct (DOCX_AVAILABLE readers)
         end;
    cbn; intros H; repeat (destruct H as [<- | H]; [reflexivity |]); contradiction.
Qed.

Section Targeted.

Variable readers : FormatReaders.
Variable cwd : string.
Variable islink : string -> bool.
Variable lower : string -> string.
Variable self : extractor.
Variable folder_path : string.
Variable target_files : list string.

Local Abbreviation clean := (clean_targets lower target_files).
Local Abbreviation entry_of := (targeted_entry readers cwd folder_path).
Local Abbreviation target := (is_target cwd lower folder_path target_files).
Local Abbreviation body := (targeted_body readers cwd lower self folder_path clean).

(** The files of one folder, in the order of the listing, without the
    excluded ones. *)
Definition files_here (root : string) (files : list (string * file))
  : list (string * file * string) :=
  omap (fun e => if decide (fst e ∈ exclusions self) then None
                 else Some (fst e, snd e, root)) files.

(** What lies below one entry of a folder, for [walked_files]. *)
Definition below (root : string) (e : string * node) : list (string * file * string) :=
  match snd e with
  | Dir _ =>
      if decide (fst e ∈ exclusions self) then []
      else if islink (OsPath.join root (fst e)) then []
      else walked_files self islink (snd e) (OsPath.join root (fst e))
  | File _ => []
  end.

Lemma walked_files_dir (entries : list (string * node)) (root : string) :
  walked_files self islink (Dir (Ok entries)) root
  = files_here root (regular_files entries) ++ flat_map (below root) entries.
Proof.
  cbn [walked_files]. f_equal.
  unfold files_here, regular_files.
  induction entries as [| [name [f | listing]] entries IH]; [reflexivity | |].
  - cbn [omap list_omap fst snd]. destruct (decide (name ∈ exclusions self)).
    + exact IH.
    + f_equal. exact IH.
  - cbn [omap list_omap fst snd]. exact IH.
Qed.

Lemma targeted_stats_app (sel1 sel2 : list (string * file * string)) (acc : FileStats) :
  targeted_stats readers (sel1 ++ sel2) acc
  = targeted_stats readers sel2 (targeted_stats readers sel1 acc).
Proof. apply fold_left_app. Qed.

(** The loop over the files of one folder: it appends the two lines of each
    file that is not excluded and matches a target, in the order of the
    listing, adds its statistics and never asks for a size. *)
Lemma targeted_files_loop (root : string) (files : list (string * file))
    (acc : targeted_acc) :
  exists tr,
    for_each files (targeted_file readers cwd lower self folder_path clean root) acc
    = ((fst acc ++ flat_map entry_of (filter target (files_here root files)),
        targeted_stats readers (filter target (files_here root files)) (snd acc)), tr)
    /\ (forall ev, In ev tr -> not_getsize ev = true).
Proof.
  revert acc. induction files as [| [item f] files IH]; intros acc.
  - exists []. cbn. rewrite List.app_nil_r. destruct acc.
    split; [reflexivity | tauto].
  - cbn [for_each]. unfold targeted_file at 1. cbn [fst snd].
    unfold files_here. cbn [omap list_omap fst snd]. fold (files_here root files).
    destruct (decide (item ∈ exclusions self)) as [Hex | Hex].
    { rewrite bind_ret_l. apply IH. }
    destruct ((bool_decide (_ ∈ clean) || bool_decide (lower item ∈ clean))%bool)
      eqn:Ematch.
    + assert (Ht : target (item, f, root)).
      { unfold is_target, matches_target. cbn [fst snd].
        apply orb_true_iff in Ematch.
        destruct Ematch as [H | H]; apply bool_decide_eq_true in H;
          [now left | now right]. }
      rewrite (filter_cons_True _ _ _ Ht).
      set (full_path := OsPath.join root item) in *.
      pose proof (extract_file_content_no_getsize readers f full_path 1) as Hng.
      destruct (extract_file_content readers f full_path 1) as [[fc fs] evs] eqn:Ex.
      unfold bind, ret. cbn [fst snd].
      match goal with
      | |- context [for_each files _ ?a] => destruct (IH a) as (tr & Heq & Htr)
      end.
      exists (evs ++ tr). split.
      * rewrite Heq. cbn [fst snd flat_map targeted_entry].
        unfold targeted_stats. cbn [fold_left]. fold full_path. rewrite Ex.
        cbn [fst snd]. rewrite <- ?List.app_assoc, ?List.app_nil_r. reflexivity.
      * intros ev Hev. apply List.in_app_or in Hev. destruct Hev; auto.
    + assert (Ht : ~ target (item, f, root)).
      { unfold is_target, matches_target. cbn [fst snd].
        apply orb_false_iff in Ematch. destruct Ematch as [E1 E2].
        apply bool_decide_eq_false in E1, E2. intros [H | H]; contradiction. }
      rewrite (filter_cons_False _ _ _ Ht). rewrite bind_ret_l. apply IH.
Qed.

Lemma for_each_ext {A B} (l : list A) (body1 body2 : B -> A -> IO B) (acc : B) :
  (forall a x, body1 a x = body2 a x) ->
  for_each l body1 acc = for_each l body2 acc.
Proof.
  intros H. revert acc. induction l as [| x l IH]; intros acc; [reflexivity |].
  cbn [for_each]. rewrite H. unfold bind. now rewrite IH.
Qed.

Lemma bind_ext {A B} (m : IO A) (k k' : A -> IO B) :
  (forall a, k a = k' a) -> bind m k = bind m k'.
Proof. intros H. unfold bind. now rewrite H. Qed.

(** The loop of [os.walk] over the directories left in [dirs]: a symbolic
    link is passed over, another directory is walked. *)
Definition walk_dirs (entries : list (string * node)) (root : string)
  : targeted_acc -> string -> IO targeted_acc :=
  fun acc dirname =>
    if islink (OsPath.join root dirname) then ret acc
    else
      match lookup_entry dirname entries with
      | Some child => os_walk islink body child (OsPath.join root dirname) acc
      | None => tell (Scandir (OsPath.join root dirname)) ;;; ret acc
      end.

(** [os.walk] on a directory that can be scanned. *)
Lemma os_walk_dir (entries : list (string * node)) (root : string) (acc : targeted_acc) :
  os_walk islink body (Dir (Ok entries)) root acc
  = (tell (Scandir root) ;;;
     let* r := body acc root (subdir_names entries) (regular_files entries) in
     for_each (snd r) (walk_dirs entries root) (fst r)).
Proof.
  cbn [os_walk].
  apply bind_ext; intros _. apply bind_ext; intros r.
  apply for_each_ext. intros a d. unfold walk_dirs.
  destruct (islink (OsPath.join root d)); [reflexivity |].
  rewrite (lookup_entry_map (os_walk islink body)).
  now destruct (lookup_entry d entries).
Qed.

(** What the walk of a tree does to the accumulators: it appends the two
    lines of the targets among the walked files, in the order of the walk,
    and adds their statistics. *)
Definition walk_selects (t : node) : Prop :=
  forall root acc,
  exists tr,
    os_walk islink body t root acc
    = ((fst acc ++ flat_map entry_of (filter target (walked_files self islink t root)),
        targeted_stats readers (filter target (walked_files self islink t root))
          (snd acc)), tr)
    /\ (forall ev, In ev tr -> not_getsize ev = true).

(** The loop of [os.walk] over the sub-directories left in [dirs]. *)
Lemma targeted_dirs_loop (entries es : list (string * node)) (root : string)
    (acc : targeted_acc) :
  (forall d sub, In (d, sub) es -> lookup_entry d entries = Some sub) ->
  Forall (fun e => walk_selects (snd e)) es ->
  exists tr,
    for_each (filter (fun d => d ∉ exclusions self) (subdir_names es))
      (walk_dirs entries root) acc
    = ((fst acc ++ flat_map entry_of (filter target (flat_map (below root) es)),
        targeted_stats readers (filter target (flat_map (below root) es)) (snd acc)),
       tr)
    /\ (forall ev, In ev tr -> not_getsize ev = true).
Proof.
  revert acc. induction es as [| [d sub] es IH]; intros acc Hlook HF.
  - exists []. cbn. rewrite List.app_nil_r. destruct acc.
    split; [reflexivity | tauto].
  - apply Forall_cons in HF. destruct HF as [Hsub HF]. cbn [snd] in Hsub.
    assert (Hlook' : forall d' sub', In (d', sub') es ->
                                     lookup_entry d' entries = Some sub').
    { intros d' sub' Hin. apply Hlook. now right. }
    pose proof (Hlook d sub (or_introl eq_refl)) as Hd.
    cbn [flat_map]. unfold below at 1 3. cbn [fst snd].
    destruct sub as [f | listing].
    { unfold subdir_names. cbn [omap list_omap fst snd]. fold (subdir_names es).
      cbn [app]. now apply IH. }
    unfold subdir_names. cbn [omap list_omap fst snd]. fold (subdir_names es).
    destruct (decide (d ∈ exclusions self)) as [Hex | Hex].
    { rewrite filter_cons_False by (intros Hn; exact (Hn Hex)).
      cbn [app]. now apply IH. }
    rewrite filter_cons_True by exact Hex.
    cbn [for_each]. unfold walk_dirs at 1.
    destruct (islink (OsPath.join root d)) eqn:El.
    { rewrite bind_ret_l. cbn [app]. now apply IH. }
    rewrite Hd.
    destruct (Hsub (OsPath.join root d) acc) as (tr1 & Heq1 & Htr1).
    rewrite Heq1.
    match goal with
    | |- context [bind (?a, tr1) _] => destruct (IH a Hlook' HF) as (tr2 & Heq2 & Htr2)
    end.
    exists (tr1 ++ tr2). split.
    + unfold bind at 1. cbn [fst snd]. rewrite Heq2. cbn [fst snd].
      rewrite filter_app, List.flat_map_app, targeted_stats_app, <- List.app_assoc.
      reflexivity.
    + intros ev Hev. apply List.in_app_or in Hev. destruct Hev; auto.
Qed.

(** The second walk appends, for each walked file that is a target, and
    for no other, its two lines, once, and never asks for a size. *)
Lemma os_walk_selects (t : node) : wf_tree t -> walk_selects t.
Proof.
  induction t as [f | ex | entries IH] using node_induction; intros Hwf root acc.
  - exists [Scandir root]. cbn. rewrite List.app_nil_r.
    destruct acc as [out st]. split; [reflexivity |].
    intros ev [<- | []]. reflexivity.
  - exists [Scandir root]. cbn. rewrite List.app_nil_r.
    destruct acc as [out st]. split; [reflexivity |].
    intros ev [<- | []]. reflexivity.
  - inversion Hwf as [| | entries' Hnd HFwf]; subst entries'.
    assert (HF : Forall (fun e => walk_selects (snd e)) entries).
    { rewrite list.Forall_forall in IH, HFwf |- *. intros e He. auto. }
    destruct (targeted_files_loop root (regular_files entries) acc)
      as (tr1 & Heq1 & Htr1).
    match type of Heq1 with
    | _ = (?a, _) =>
        destruct (targeted_dirs_loop entries entries root a) as (tr2 & Heq2 & Htr2);
          [| exact HF |]
    end.
    { intros d sub Hin. now apply lookup_entry_NoDup. }
    rewrite os_walk_dir, walked_files_dir.
    exists ([Scandir root] ++ tr1 ++ tr2). split.
    + unfold targeted_body at 1. rewrite bind_assoc, Heq1.
      unfold bind at 2. cbn [fst snd]. rewrite bind_ret_l. cbn [fst snd].
      rewrite Heq2. unfold bind, tell. cbn [fst snd].
      rewrite filter_app, List.flat_map_app, targeted_stats_app, <- !List.app_assoc.
      reflexivity.
    + intros ev Hev. cbn [app] in Hev. destruct Hev as [<- | Hev]; [reflexivity |].
      apply List.in_app_or in Hev. destruct Hev; auto.
Qed.

(** [walked_files] lists the files of [walked]. *)
Lemma walked_files_In (t : node) (root item : string) (f : file) (dir : string) :
  In (item, f, dir) (walked_files self islink t root)
  <-> walked self islink t root item f dir.
Proof.
  revert root. induction t as [g | ex | entries IH] using node_induction; intros root.
  - split; [intros [] | inversion 1].
  - split; [intros [] | inversion 1].
  - rewrite walked_files_dir, List.in_app_iff. split.
    + intros [Hin | Hin].
      * unfold files_here in Hin.
        apply list_elem_of_In, list_elem_of_omap in Hin.
        destruct Hin as ([name g] & Hin & Heq). cbn [fst snd] in Heq.
        destruct (decide (name ∈ exclusions self)) as [Hex | Hex]; [discriminate |].
        injection Heq as -> -> <-.
        apply walked_here; [| exact Hex].
        apply regular_files_In. now apply list_elem_of_In.
      * apply List.in_flat_map in Hin. destruct Hin as ([d sub] & Hin & Hb).
        unfold below in Hb. cbn [fst snd] in Hb.
        destruct sub as [g | listing]; [destruct Hb |].
        destruct (decide (d ∈ exclusions self)) as [Hex | Hex]; [destruct Hb |].
        destruct (islink (OsPath.join root d)) eqn:El; [destruct Hb |].
        rewrite list.Forall_forall in IH.
        apply (IH (d, Dir listing) (proj2 (list_elem_of_In _ _) Hin)) in Hb.
        eapply walked_below; eassumption.
    + intros Hw. inversion Hw as [es r i g Hin Hex | es r d sub i g dr Hin Hex El Hsub];
        subst.
      * left. unfold files_here. apply list_elem_of_In, list_elem_of_omap.
        exists (item, f). split.
        -- apply list_elem_of_In. now apply regular_files_In.
        -- cbn [fst snd]. now destruct (decide (item ∈ exclusions self)).
      * right. apply List.in_flat_map. exists (d, sub). split; [exact Hin |].
        unfold below. cbn [fst snd].
        assert (exists listing, sub = Dir listing) as [listing ->].
        { inversion Hsub; eauto. }
        destruct (decide (d ∈ exclusions self)); [contradiction |].
        rewrite El.
        rewrite list.Forall_forall in IH.
        now apply (IH (d, Dir listing) (proj2 (list_elem_of_In _ _) Hin)).
Qed.

(** A walked file is a file that the first traversal visits. *)
Lemma walked_visits (t : node) (root item : string) (f : file) (dir : string) :
  walked self islink t root item f dir ->
  forall il, exists n, visits self t root il item (File f) dir n.
Proof.
  induction 1 as [entries root item f Hin Hex
                 | entries root d sub item f dir Hin Hex El Hsub IH]; intros il.
  - exists il. now apply visits_here.
  - destruct (IH (S il)) as [n Hv]. exists n. eapply visits_below; eassumption.
Qed.

(** Without symbolic links a file that the first traversal visits is a
    walked file. *)
Lemma visits_walked (t : node) (root : string) (il : nat) (item : string) (f : file)
    (dir : string) (n : nat) :
  (forall path, islink path = false) ->
  visits self t root il item (File f) dir n ->
  walked self islink t root item f dir.
Proof.
  intros Hno Hv. remember (File f) as child eqn:Ec.
  induction Hv as [entries root il item child Hin Hex
                  | entries root il d sub item child dir n Hin Hex Hsub IH]; subst child.
  - now apply walked_here.
  - eapply walked_below; eauto.
Qed.

(** Each selected file adds two lines. *)
Lemma length_targeted_entries (sel : list (string * file * string)) :
  (Z.of_nat (List.length (flat_map entry_of sel)) / 2)%Z = Z.of_nat (List.length sel).
Proof.
  assert (H : List.length (flat_map entry_of sel) = (2 * List.length sel)%nat).
  { induction sel as [| [[item f] dir] sel IH]; [reflexivity |].
    cbn [flat_map targeted_entry]. rewrite List.length_app, IH. cbn [List.length]. lia. }
  rewrite H, Nat2Z.inj_mul, Z.mul_comm. now apply Z.div_mul.
Qed.

End Targeted.

Lemma flat_map_has_block {A B} (h : A -> list B) (x : A) (l : list A) :
  In x l -> has_block (h x) (flat_map h l).
Proof.
  intros Hin. apply in_split in Hin. destruct Hin as (l1 & l2 & ->).
  exists (flat_map h l1), (flat_map h l2).
  now rewrite List.flat_map_app.
Qed.

(** The report of [build_targeted_context], in terms of the first traversal
    and of the second walk. *)
Lemma build_targeted_context_eq (readers : FormatReaders) (cwd : string)
    (islink : string -> bool) (lower : string -> string)
    (self : extractor) (t : node) (folder_path : string) (target_files : list string) :
  let full := get_folder_structure_and_content readers
                (with_default_exclusions self) false t folder_path 0 in
  let w := targeted_walk readers cwd islink lower self t folder_path target_files in
  snd (build_targeted_context readers cwd islink lower self t folder_path
         (map JStr target_files))
  = (Ok (Py.strip (Py.join nl
           (["FOLDER STRUCTURE (Full):"] ++ structure_output (fst full)
            ++ [separator]
            ++ ["SELECTED RELEVANT FILE CONTENTS ("
                +:+ Py.str_int (Z.of_nat (List.length (fst (fst w))) / 2)
                +:+ " files):"]
            ++ fst (fst w) ++ [separator]
            ++ ["Targeted Stats: ~" +:+ Py.str_int (f_tokens (snd (fst w)))
                +:+ " tokens."]))),
     snd full ++ snd w).
Proof.
  cbv zeta. unfold build_targeted_context, targeted_walk. cbn [snd].
  rewrite clean_targets_of_strings.
  unfold bind, ret. cbn [fst snd]. now rewrite List.app_nil_r.
Qed.

(** The second walk in terms of the walked files: the lines appended, the
    statistics, and no request for a size. *)
Lemma targeted_walk_eq (readers : FormatReaders) (cwd : string)
    (islink : string -> bool) (lower : string -> string)
    (self : extractor) (t : node) (folder_path : string) (target_files : list string) :
  wf_tree t ->
  let sel := filter (is_target cwd lower folder_path target_files)
               (walked_files (with_default_exclusions self) islink t folder_path) in
  let w := targeted_walk readers cwd islink lower self t folder_path target_files in
  fst w = (flat_map (targeted_entry readers cwd folder_path) sel,
           targeted_stats readers sel file_stats0)
  /\ (forall ev, In ev (snd w) -> not_getsize ev = true).
Proof.
  intros Hwf sel w.
  destruct (os_walk_selects readers cwd islink lower (with_default_exclusions self)
              folder_path target_files t Hwf folder_path ([], file_stats0))
    as (tr & Heq & Htr).
  subst w. unfold targeted_walk. rewrite Heq. cbn [fst snd app]. auto.
Qed.

(** The two lines of a targeted file with a text extension that can be
    read, whatever its size. *)
Lemma targeted_entry_text (readers : FormatReaders) (cwd folder_path : string)
    (item : string) (f : file) (dir s : string) :
  Py.lower (snd (OsPath.splitext (OsPath.join dir item))) ∈ supported_text_exts ->
  text f = Ok s ->
  targeted_entry readers cwd folder_path (item, f, dir)
  = [nl +:+ "File: " +:+ OsPath.relpath cwd (OsPath.join dir item) folder_path;
     "    Content:" +:+ nl +:+ s].
Proof.
  intros Hext Htext. unfold targeted_entry, extract_file_content.
  destruct (decide (_ ∈ supported_text_exts)) as [_ | Hn]; [| contradiction].
  unfold bind, tell, ret. cbn [fst snd]. rewrite Htext. reflexivity.
Qed.

(** C2.  On a tree with distinct names in every directory, the targeted
    extraction reports the structure of a full extraction without content.
    Its content section holds, in the order of the walk and once each, the
    two lines of the walked files whose normalised relative path or bare
    name, lower-cased, is a normalised lower-cased target: the header with
    the relative path and what [extract_file_content] returns, which for a
    readable text file is its text whatever its size; the number announced
    is the number of these files, and the walk never asks for a size.  A
    target that is not a string makes the call raise after the structure
    walk.  The
    walked files are files that the structure walk visits, and without
    symbolic links they are all of them.  With a symbolic link to a
    directory they are not: in the project [linked_project] the structure
    lists [x.py] under [link/], the target [link/x.py] matches it, a full
    extraction with content reads it, and the targeted extraction selects
    no file. *)
Theorem targeted_context_selects (readers : FormatReaders) (cwd : string)
    (islink : string -> bool) (lower : string -> string)
    (self : extractor) (t : node) (folder_path : string) (target_files : list string) :
  wf_tree t ->
  let self' := with_default_exclusions self in
  let full := get_folder_structure_and_content readers self' false t folder_path 0 in
  let w := targeted_walk readers cwd islink lower self t folder_path target_files in
  let sel := filter (is_target cwd lower folder_path target_files)
               (walked_files self' islink t folder_path) in
  snd (build_targeted_context readers cwd islink lower self t folder_path
         (map JStr target_files))
  = (Ok (Py.strip (Py.join nl
           (["FOLDER STRUCTURE (Full):"] ++ structure_output (fst full)
            ++ [separator]
            ++ ["SELECTED RELEVANT FILE CONTENTS ("
                +:+ Py.str_int (Z.of_nat (List.length sel)) +:+ " files):"]
            ++ flat_map (targeted_entry readers cwd folder_path) sel ++ [separator]
            ++ ["Targeted Stats: ~"
                +:+ Py.str_int (f_tokens (targeted_stats readers sel file_stats0))
                +:+ " tokens."]))),
     snd full ++ snd w)
  /\ snd (build_context readers self t folder_path false)
     = (Py.strip (Py.join nl (["FOLDER STRUCTURE:"] ++ structure_output (fst full))),
        snd full)
  /\ (forall item f dir,
        In (item, f, dir) sel <->
        walked self' islink t folder_path item f dir
        /\ matches_target cwd lower folder_path target_files dir item)
  /\ (forall item f dir,
        walked self' islink t folder_path item f dir ->
        exists n, visits self' t folder_path 0 item (File f) dir n)
  /\ ((forall path, islink path = false) ->
      forall item f dir n,
        visits self' t folder_path 0 item (File f) dir n ->
        walked self' islink t folder_path item f dir)
  /\ (forall ev, In ev (snd w) -> not_getsize ev = true)
  /\ (forall item f dir s,
        Py.lower (snd (OsPath.splitext (OsPath.join dir item))) ∈ supported_text_exts ->
        text f = Ok s ->
        targeted_entry readers cwd folder_path (item, f, dir)
        = [nl +:+ "File: " +:+ OsPath.relpath cwd (OsPath.join dir item) folder_path;
           "    Content:" +:+ nl +:+ s])
  /\ (forall targets e,
        clean_targets_of lower targets = Raise e ->
        snd (build_targeted_context readers cwd islink lower self t folder_path targets)
        = (Raise e, snd full))
  /\ fst (fst (targeted_walk sample_readers "/home" no_links Py.lower init_extractor
                 sample_project "/p" ["SRC/./Main.PY"; "BIG.TXT"]))
     = [nl +:+ "File: src/main.py"; "    Content:" +:+ nl +:+ "print(1)";
        nl +:+ "File: src/big.txt"; "    Content:" +:+ nl +:+ "x"]
  /\ (visits sample_extractor linked_project "/p" 0
        "x.py" (text_file "print(1)") "/p/link" 1
      /\ matches_target "/home" Py.lower "/p" ["link/x.py"] "/p/link" "x.py"
      /\ In (nl +:+ "    File: /p/link/x.py")
            (content_output
               (fst (get_folder_structure_and_content sample_readers sample_extractor
                       true linked_project "/p" 0)))
      /\ fst (snd (build_targeted_context sample_readers "/home" linked_islink Py.lower
                     init_extractor linked_project "/p" [JStr "link/x.py"]))
         = Ok "FOLDER STRUCTURE (Full):
link/
    x.py
real/
    x.py

######################################

SELECTED RELEVANT FILE CONTENTS (0 files):

######################################

Targeted Stats: ~0 tokens.").
Proof.
  intros Hwf self' full w sel.
  destruct (targeted_walk_eq readers cwd islink lower self t folder_path target_files
              Hwf) as [Hw Htr].
  fold self' sel w in Hw, Htr.
  split.
  { rewrite build_targeted_context_eq. fold self' full w. rewrite Hw. cbn [fst snd].
    now rewrite length_targeted_entries. }
  split.
  { unfold build_context. cbn [snd negb]. unfold bind, ret. cbn [fst snd].
    now rewrite List.app_nil_r. }
  split.
  { intros item f dir. subst sel.
    rewrite <- list_elem_of_In, list_elem_of_filter, list_elem_of_In, walked_files_In.
    unfold is_target. cbn [fst snd]. tauto. }
  split.
  { intros item f dir Hwalked. now apply (walked_visits islink self' t folder_path). }
  split.
  { intros Hno item f dir n Hv. now apply (visits_walked islink self') in Hv. }
  split; [exact Htr |].
  split; [apply targeted_entry_text |].
  split.
  { intros targets e Hc. unfold build_targeted_context. cbn [snd]. rewrite Hc.
    unfold bind, ret. cbn [fst snd]. now rewrite List.app_nil_r. }
  split; [vm_compute; reflexivity |].
  split.
  { apply visits_below with (d := "link")
      (sub := Dir (Ok [("x.py", text_file "print(1)");
                       ("notes.log", text_file "log line")]));
      [right; now left | by_evaluation |].
    apply visits_here; [now left | by_evaluation]. }
  split; [left; vm_compute; apply list_elem_of_In; left; reflexivity |].
  split; [vm_compute; left; reflexivity | vm_compute; reflexivity].
Qed.

(** A proof of [wf_tree] for a closed tree. *)
Ltac wf_closed :=
  repeat first
    [ apply wf_file | apply wf_unreadable
    | apply wf_dir; [apply (bool_decide_unpack _); vm_compute; exact I |]
    | apply List.Forall_nil | apply List.Forall_cons; cbn [snd] ].

Lemma sample_project_wf : wf_tree sample_project.
Proof. unfold sample_project, text_file. wf_closed. Qed.

Lemma linked_project_wf : wf_tree linked_project.
Proof. unfold linked_project, text_file. wf_closed. Qed.

Lemma targeted_context_selects_witness :
  let sel :=
    filter (is_target "/home" Py.lower "/p" ["link/x.py"; "X.PY"])
      (walked_files sample_extractor linked_islink linked_project "/p") in
  fst (snd (build_targeted_context sample_readers "/home" linked_islink Py.lower
              init_extractor linked_project "/p" (map JStr ["link/x.py"; "X.PY"])))
  = Ok (Py.strip (Py.join nl
          (["FOLDER STRUCTURE (Full):"]
           ++ structure_output
                (fst (get_folder_structure_and_content sample_readers sample_extractor
                        false linked_project "/p" 0))
           ++ [separator]
           ++ ["SELECTED RELEVANT FILE CONTENTS ("
               +:+ Py.str_int (Z.of_nat (List.length sel)) +:+ " files):"]
           ++ flat_map (targeted_entry sample_readers "/home" "/p") sel ++ [separator]
           ++ ["Targeted Stats: ~"
               +:+ Py.str_int (f_tokens (targeted_stats sample_readers sel file_stats0))
               +:+ " tokens."]))).
Proof.
  exact (f_equal fst
           (proj1 (targeted_context_selects sample_readers "/home" linked_islink Py.lower
                     init_extractor linked_project "/p" ["link/x.py"; "X.PY"]
                     linked_project_wf))).
Defined.

(** C9.  The targeted extraction does not consult the allowlist: the second
    walk is the same whatever the allowlist, and on a tree with distinct
    names it appends the two lines of every walked file that matches a
    target.  So a file can be in the content section and not in the
    structure report: [notes.log] and [src/Makefile] of the sample project
    are.  A matching file that the structure walk reaches through a
    symbolic link to a directory is not appended: [link/notes.log] of
    [linked_project] is not. *)
Theorem targeted_ignores_allowlist (readers : FormatReaders) (cwd : string)
    (islink : string -> bool) (lower : string -> string)
    (self : extractor) (t : node) (folder_path : string) (target_files : list string) :
  wf_tree t ->
  let self' := with_default_exclusions self in
  let w := targeted_walk readers cwd islink lower self t folder_path target_files in
  (forall allowlist,
      targeted_walk readers cwd islink lower
        {| exclusions := exclusions self; extensions := allowlist |}
        t folder_path target_files = w)
  /\ (forall item f dir,
        walked self' islink t folder_path item f dir ->
        matches_target cwd lower folder_path target_files dir item ->
        has_block (targeted_entry readers cwd folder_path (item, f, dir)) (fst (fst w)))
  /\ (fst (fst (targeted_walk sample_readers "/home" no_links Py.lower init_extractor
                  sample_project "/p" ["notes.log"; "makefile"]))
      = [nl +:+ "File: notes.log"; "    Content:" +:+ nl +:+ "log line";
         nl +:+ "File: src/Makefile"; "    [Binary or unsupported file]"]
      /\ structure_output
           (fst (get_folder_structure_and_content sample_readers sample_extractor
                   false sample_project "/p" 0))
         = ["README.md"; "locked/";
            "    [Cannot open: [Errno 13] Permission denied: '/p/locked']";
            "src/"; "    big.txt"; "    main.py"])
  /\ (visits sample_extractor linked_project "/p" 0
        "notes.log" (text_file "log line") "/p/link" 1
      /\ matches_target "/home" Py.lower "/p" ["link/notes.log"] "/p/link" "notes.log"
      /\ fst (fst (targeted_walk sample_readers "/home" linked_islink Py.lower
                     init_extractor linked_project "/p" ["link/notes.log"]))
         = []).
Proof.
  intros Hwf self' w.
  split; [reflexivity |].
  split.
  - intros item f dir Hwalked Hm.
    destruct (targeted_walk_eq readers cwd islink lower self t folder_path target_files
                Hwf) as [Hw _].
    fold self' w in Hw. rewrite Hw. cbn [fst].
    apply flat_map_has_block.
    apply list_elem_of_In, list_elem_of_filter. split; [exact Hm |].
    apply list_elem_of_In. now apply walked_files_In.
  - split; [split; vm_compute; reflexivity |].
    split.
    { apply visits_below with (d := "link")
        (sub := Dir (Ok [("x.py", text_file "print(1)");
                         ("notes.log", text_file "log line")]));
        [right; now left | by_evaluation |].
      apply visits_here; [right; now left | by_evaluation]. }
    split; [left; vm_compute; apply list_elem_of_In; left; reflexivity
           | vm_compute; reflexivity].
Qed.

Lemma targeted_ignores_allowlist_witness :
  targeted_walk sample_readers "/home" no_links Py.lower
    {| exclusions := exclusions init_extractor; extensions := ∅ |}
    sample_project "/p" ["notes.log"; "makefile"]
  = targeted_walk sample_readers "/home" no_links Py.lower init_extractor
      sample_project "/p" ["notes.log"; "makefile"].
Proof.
  exact (proj1 (targeted_ignores_allowlist sample_readers "/home" no_links Py.lower
                  init_extractor sample_project "/p" ["notes.log"; "makefile"]
                  sample_project_wf) ∅).
Defined.

(** ** The smart query *)

Section Escalation.

Variable readers : FormatReaders.
Variable cwd : string.
Variable islink : string -> bool.
Variable lower : string -> string.
Variable project : node.
Variable json_loads : string -> outcome json.
Variable MARKDOWN_AVAILABLE : bool.
Variable markdown_to_html : string -> string.

Local Abbreviation step := execute_smart_query_step.
Local Abbreviation on_filter :=
  (on_filter_response readers cwd islink lower project json_loads).
Local Abbreviation on_gpt :=
  (on_gpt_response MARKDOWN_AVAILABLE markdown_to_html).
Local Abbreviation run_replies :=
  (run readers cwd islink lower project json_loads MARKDOWN_AVAILABLE markdown_to_html).

Lemma mbind_modify {B} (f : HolaIbotApp -> HolaIbotApp) (k : unit -> Method B)
    (self : HolaIbotApp) :
  mbind (modify f) k self = k tt (f self).
Proof. unfold mbind, modify. now destruct (k tt (f self)) as [[c s] e]. Qed.

Lemma mbind_get {A B} (field : HolaIbotApp -> A) (k : A -> Method B)
    (self : HolaIbotApp) :
  mbind (get field) k self = k (field self) self.
Proof. unfold mbind, get. now destruct (k (field self) self) as [[c s] e]. Qed.

Lemma mbind_mret {A B} (a : A) (k : A -> Method B) (self : HolaIbotApp) :
  mbind (mret a) k self = k a self.
Proof. unfold mbind, mret. now destruct (k a self) as [[c s] e]. Qed.

Lemma mbind_assoc {A B C} (m : Method A) (k : A -> Method B) (h : B -> Method C)
    (self : HolaIbotApp) :
  mbind (mbind m k) h self = mbind m (fun a => mbind (k a) h) self.
Proof.
  unfold mbind. destruct (m self) as [[[a | ex] s1] e1]; [| reflexivity].
  destruct (k a s1) as [[[b | ex] s2] e2]; [| reflexivity].
  destruct (h b s2) as [[c s3] e3]. now rewrite List.app_assoc.
Qed.

Lemma run_idle (replies : list string) (self : HolaIbotApp) :
  gpt_worker self = None ->
  run_replies replies self = (Returned tt, self, []).
Proof.
  intros Hidle. induction replies as [| r replies IH]; [reflexivity |].
  cbn [run]. unfold mbind at 1. unfold deliver, mbind, get. rewrite Hidle.
  cbn. rewrite IH. reflexivity.
Qed.

Lemma step_filter (self : HolaIbotApp) (a : Z) :
  current_query_attempt self = a -> a = 1 \/ a = 2 ->
  exists self' w,
    step self = (Returned tt, self', [Started w])
    /\ awaiting_selector a self'
    /\ gpt_worker self' = Some w
    /\ askButton self' = askButton self
    /\ w = selector_call (loaded_context self) (current_user_prompt self) (a =? 2)%Z
    /\ loaded_context self' = loaded_context self
    /\ chat_history self' = chat_history self
    /\ current_user_prompt self' = current_user_prompt self.
Proof.
  intros Ha [-> | ->]; unfold execute_smart_query_step, mbind, get; rewrite Ha;
    cbn; eexists; eexists; (split; [reflexivity |]); unfold awaiting_selector; cbn;
    rewrite Ha; eauto 15.
Qed.

Lemma step_structure_only (self : HolaIbotApp) :
  current_query_attempt self = 3 ->
  exists self' w,
    step self = (Returned tt, self', [Started w])
    /\ awaiting_main 3 self'
    /\ gpt_worker self' = Some w
    /\ w = main_call (loaded_context self) (chat_history self)
    /\ askButton self' = askButton self
    /\ loaded_context self' = loaded_context self
    /\ chat_history self' = chat_history self
    /\ current_user_prompt self' = current_user_prompt self.
Proof.
  intros Ha. unfold execute_smart_query_step, mbind, get. rewrite Ha.
  cbn. eexists; eexists. split; [reflexivity |].
  unfold awaiting_main; cbn. rewrite Ha. eauto 15.
Qed.

Lemma step_failed (self : HolaIbotApp) :
  current_query_attempt self = 4 ->
  gpt_worker self = None ->
  exists self', step self = (Returned tt, self', []) /\ failed self'.
Proof.
  intros Ha Hw. unfold execute_smart_query_step, mbind, get. rewrite Ha.
  cbn. eexists. split; [reflexivity |].
  unfold failed; cbn. rewrite Ha, Hw. repeat split; try reflexivity.
  apply last_snoc.
Qed.

(** [on_gpt_response] on a reply that carries the marker: the attempt
    counter goes up by one and the next step runs. *)
Lemma on_gpt_rate_limited (self : HolaIbotApp) (response : string) :
  Py.contains rate_limit_marker response = true ->
  exists self1,
    on_gpt response self = step self1
    /\ gpt_worker self1 = None
    /\ current_query_attempt self1 = current_query_attempt self + 1
    /\ askButton self1 = askButton self
    /\ loaded_context self1 = loaded_context self
    /\ chat_history self1 = chat_history self
    /\ current_user_prompt self1 = current_user_prompt self.
Proof.
  intros Hm. unfold on_gpt_response. rewrite Hm.
  rewrite mbind_modify. unfold display_agent_message. rewrite !mbind_modify.
  eexists. split; [reflexivity |]. cbn. auto 10.
Qed.

(** [on_gpt_response] on a reply without the marker: the query is over. *)
Lemma on_gpt_success (self : HolaIbotApp) (response : string) :
  Py.contains rate_limit_marker response = false ->
  exists self',
    on_gpt response self = (Returned tt, self', [])
    /\ gpt_worker self' = None
    /\ current_query_attempt self' = current_query_attempt self
    /\ askButton self' = true
    /\ chat_history self' = chat_history self ++ [mkMessage "assistant" response].
Proof.
  intros Hm. unfold on_gpt_response. rewrite Hm.
  eexists. split; [reflexivity |]. cbn. auto.
Qed.

(** [send_to_worker] starts the main model on the given context and the
    chat so far. *)
Lemma send_to_worker_spec (self : HolaIbotApp) (context_content : string) :
  let w := mkWorker ([mkMessage "system" (build_system_prompt context_content)]
                     ++ chat_history self) "gpt-5.1" on_gpt_response_slot in
  exists self',
    send_to_worker context_content self = (Returned tt, self', [Started w])
    /\ gpt_worker self' = Some w
    /\ current_query_attempt self' = current_query_attempt self
    /\ the_extractor self' = the_extractor self
    /\ loaded_context self' = loaded_context self
    /\ chat_history self' = chat_history self
    /\ askButton self' = askButton self
    /\ current_user_prompt self' = current_user_prompt self.
Proof.
  cbv zeta. unfold send_to_worker. eexists. split; [reflexivity |]. cbn. auto 10.
Qed.

Lemma main_replies_fs (l : list event) : main_replies (map Fs l) = [].
Proof. induction l as [| x l IH]; [reflexivity | exact IH]. Qed.

Lemma started_fs (l : list event) : started (map Fs l) = [].
Proof. induction l as [| x l IH]; [reflexivity | exact IH]. Qed.

Lemma main_replies_app (l1 l2 : list app_event) :
  main_replies (l1 ++ l2) = main_replies l1 ++ main_replies l2.
Proof. unfold main_replies. apply omap_app. Qed.

Lemma started_app (l1 l2 : list app_event) :
  started (l1 ++ l2) = started l1 ++ started l2.
Proof. unfold started. apply omap_app. Qed.

(** [on_filter_response] on a reply that does not parse: the fallback. *)
Lemma on_filter_parse_failure (self : HolaIbotApp) (response ex : string) :
  parse_file_list json_loads response = Raise ex ->
  let w := mkWorker ([mkMessage "system" (build_system_prompt (loaded_context self))]
                     ++ chat_history self) "gpt-5.1" on_gpt_response_slot in
  exists self',
    on_filter response self = (Returned tt, self', [Started w])
    /\ gpt_worker self' = Some w
    /\ current_query_attempt self' = current_query_attempt self
    /\ the_extractor self' = the_extractor self
    /\ loaded_context self' = loaded_context self
    /\ chat_history self' = chat_history self
    /\ askButton self' = askButton self
    /\ current_user_prompt self' = current_user_prompt self.
Proof.
  intros Hp. cbv zeta. unfold on_filter_response. rewrite Hp.
  rewrite mbind_modify. unfold display_agent_message at 1. rewrite mbind_modify.
  rewrite mbind_get.
  match goal with
  | |- context [send_to_worker ?c ?s] =>
      destruct (send_to_worker_spec s c)
        as (self' & Heq & Hw & Ha & He & Hc & Hh & Hb & Hu)
  end.
  exists self'. split; [exact Heq |]. cbn in *. auto 10.
Qed.

(** [on_filter_response] delivers no reply of the main model and leaves the
    attempt counter; it ends with the main model started, or with no call
    in flight and none started. *)
Lemma on_filter_outcomes (self : HolaIbotApp) (response : string) :
  exists c self' evs,
    on_filter response self = (c, self', evs)
    /\ main_replies evs = []
    /\ current_query_attempt self' = current_query_attempt self
    /\ ((c = Returned tt
         /\ awaiting_main (current_query_attempt self) self'
         /\ exists pre w, evs = map Fs pre ++ [Started w])
        \/ (gpt_worker self' = None /\ started evs = [])).
Proof.
  destruct (parse_file_list json_loads response) as [relevant_files | ex] eqn:Hp.
  2:{ destruct (on_filter_parse_failure self response ex Hp)
        as (self' & Heq & Hw & Ha & _).
      exists (Returned tt), self'. eexists. split; [exact Heq |].
      split; [reflexivity |]. split; [exact Ha |]. left.
      split; [reflexivity |]. split.
      - unfold awaiting_main. rewrite Ha. eauto.
      - exists []. eauto. }
  unfold on_filter_response. rewrite Hp. rewrite mbind_modify.
  destruct (comma_join (take 3 relevant_files)) as [first_three | ex].
  2:{ unfold raise. do 3 eexists. split; [reflexivity |]. cbn. auto. }
  unfold display_agent_message at 1. rewrite mbind_modify.
  unfold call_build_targeted_context. rewrite mbind_assoc, mbind_get.
  cbn [loaded_path set_responseEdit set_gpt_worker].
  destruct (loaded_path self) as [folder_path |].
  2:{ rewrite mbind_mret. unfold display_agent_message. rewrite !mbind_modify.
      unfold modify. do 3 eexists. split; [reflexivity |]. cbn. auto. }
  rewrite mbind_assoc, mbind_get, mbind_assoc, mbind_modify.
  cbn [the_extractor set_responseEdit set_gpt_worker set_the_extractor].
  set (b := build_targeted_context readers cwd islink lower (the_extractor self) project
              folder_path relevant_files).
  destruct (snd b) as [[custom_context | ex] trace] eqn:Hb.
  - unfold mbind at 1, lift_io at 1. cbn [fst snd].
    match goal with
    | |- context [send_to_worker ?c ?s] =>
        destruct (send_to_worker_spec s c) as (self' & Heq & Hw & Ha & He & Hc & Hh & Hk)
    end.
    rewrite Heq. do 3 eexists. split; [reflexivity |].
    rewrite main_replies_app, main_replies_fs. cbn in Ha |- *.
    split; [reflexivity |]. split; [exact Ha |]. left.
    split; [reflexivity |]. split.
    + unfold awaiting_main. rewrite Ha. eauto.
    + eauto.
  - unfold mbind at 1, lift_io at 1. cbn [fst snd].
    unfold display_agent_message. rewrite !mbind_modify. unfold modify.
    do 3 eexists. split; [reflexivity |].
    rewrite main_replies_app, started_app, main_replies_fs, started_fs. cbn. auto.
Qed.

(** One reply arrives while a worker is in flight. *)
Lemma run_cons (response : string) (rest : list string) (self : HolaIbotApp)
    (w : GptWorker) :
  gpt_worker self = Some w ->
  run_replies (response :: rest) self
  = match (match finished w with
           | on_filter_response_slot => on_filter response
           | on_gpt_response_slot => on_gpt response
           end) self with
    | (Returned _, s1, e1) =>
        match run_replies rest s1 with
        | (c, s2, e2) => (c, s2, Finished w response :: e1 ++ e2)
        end
    | (Uncaught ex, s1, e1) => (Uncaught ex, s1, Finished w response :: e1)
    end.
Proof.
  intros Hw. cbn [run]. unfold deliver.
  rewrite mbind_assoc, mbind_get, Hw.
  unfold mbind, emit. cbn [fst snd].
  destruct (match finished w with
            | on_filter_response_slot => on_filter response
            | on_gpt_response_slot => on_gpt response
            end self) as [[[[] | ex] s1] e1]; [| reflexivity].
  now destruct (run_replies rest s1) as [[c s2] e2].
Qed.

Lemma fails_after_later (g : string) (c : completion unit) (self : HolaIbotApp)
    (evs pre : list app_event) :
  fails_after g (c, self, evs) -> fails_after g (c, self, pre ++ evs).
Proof.
  unfold fails_after. cbn [fst snd].
  intros (Hc & Hf & pre' & w & ->).
  split; [exact Hc |]. split; [exact Hf |].
  exists (pre ++ pre'), w. now rewrite List.app_assoc.
Qed.

Lemma main_replies_main (w : GptWorker) (r : string) (evs : list app_event) :
  finished w = on_gpt_response_slot ->
  main_replies (Finished w r :: evs) = r :: main_replies evs.
Proof. intros H. unfold main_replies. cbn. now rewrite H. Qed.

Lemma main_replies_selector (w : GptWorker) (r : string) (evs : list app_event) :
  finished w = on_filter_response_slot ->
  main_replies (Finished w r :: evs) = main_replies evs.
Proof. intros H. unfold main_replies. cbn. now rewrite H. Qed.

Lemma main_replies_started (w : GptWorker) (evs : list app_event) :
  main_replies (Started w :: evs) = main_replies evs.
Proof. reflexivity. Qed.

(** At attempt 3, waiting for the main model. *)
Lemma run_from_main_3 (self : HolaIbotApp) (replies : list string) :
  awaiting_main 3 self ->
  forall g rest,
    main_replies (snd (run_replies replies self)) = g :: rest ->
    Py.contains rate_limit_marker g = true ->
    rest = [] /\ fails_after g (run_replies replies self).
Proof.
  intros (Ha & w & Hw & Hslot) g rest.
  destruct replies as [| r replies]; [discriminate |].
  rewrite (run_cons r replies self w Hw), Hslot.
  destruct (Py.contains rate_limit_marker r) eqn:Hr.
  - destruct (on_gpt_rate_limited self r Hr) as (self1 & -> & Hw1 & Ha1 & _).
    destruct (step_failed self1) as (self2 & -> & Hfailed); [lia | exact Hw1 |].
    rewrite (run_idle replies self2) by apply Hfailed.
    cbn [snd app]. rewrite (main_replies_main w r [] Hslot).
    intros [= <- <-] _. split; [reflexivity |].
    split; [reflexivity |]. split; [exact Hfailed |]. exists [], w. reflexivity.
  - destruct (on_gpt_success self r Hr) as (self1 & -> & Hw1 & _).
    rewrite (run_idle replies self1) by exact Hw1.
    cbn [snd app]. rewrite (main_replies_main w r [] Hslot).
    intros [= <- <-] Hg. congruence.
Qed.

(** At attempt 2, waiting for the main model. *)
Lemma run_from_main_2 (self : HolaIbotApp) (replies : list string) :
  awaiting_main 2 self ->
  forall g2 g3 rest,
    main_replies (snd (run_replies replies self)) = g2 :: g3 :: rest ->
    Py.contains rate_limit_marker g2 = true ->
    Py.contains rate_limit_marker g3 = true ->
    rest = [] /\ fails_after g3 (run_replies replies self).
Proof.
  intros (Ha & w & Hw & Hslot) g2 g3 rest.
  destruct replies as [| r replies]; [discriminate |].
  rewrite (run_cons r replies self w Hw), Hslot.
  destruct (Py.contains rate_limit_marker r) eqn:Hr.
  - destruct (on_gpt_rate_limited self r Hr) as (self1 & -> & Hw1 & Ha1 & _).
    destruct (step_structure_only self1) as (self2 & w2 & -> & Hnext & _); [lia |].
    pose proof (run_from_main_3 self2 replies Hnext) as Hrun.
    destruct (run_replies replies self2) as [[c s3] e3].
    cbn [snd app] in *.
    rewrite (main_replies_main w r _ Hslot), main_replies_started.
    intros [= <- Hrest] _ Hg3.
    destruct (Hrun g3 rest Hrest Hg3) as [-> Hfail]. split; [reflexivity |].
    apply (fails_after_later g3 c s3 e3 [Finished w r; Started w2]), Hfail.
  - destruct (on_gpt_success self r Hr) as (self1 & -> & Hw1 & _).
    rewrite (run_idle replies self1) by exact Hw1.
    cbn [snd app]. rewrite (main_replies_main w r [] Hslot). discriminate.
Qed.

(** Waiting for the selector: either no reply of the main model is ever
    delivered, or the run goes on, with the main model awaited at the same
    attempt. *)
Lemma run_from_selector (a : Z) (self : HolaIbotApp) (replies : list string) :
  awaiting_selector a self ->
  main_replies (snd (run_replies replies self)) = []
  \/ exists self1 replies' pre,
       awaiting_main a self1
       /\ main_replies pre = []
       /\ run_replies replies self
          = (fst (fst (run_replies replies' self1)),
             snd (fst (run_replies replies' self1)),
             pre ++ snd (run_replies replies' self1)).
Proof.
  intros (Ha & w & Hw & Hslot).
  destruct replies as [| r replies]; [now left |].
  rewrite (run_cons r replies self w Hw), Hslot.
  destruct (on_filter_outcomes self r)
    as (c & self1 & evs & -> & Hmain & Ha1 & [(-> & Hnext & pre & w1 & ->) | (Hidle & _)]).
  - right. exists self1, replies, (Finished w r :: map Fs pre ++ [Started w1]).
    rewrite Ha in Hnext. split; [exact Hnext |]. split.
    + rewrite (main_replies_selector w r _ Hslot). exact Hmain.
    + destruct (run_replies replies self1) as [[c s2] e2]. cbn [fst snd]. f_equal.
  - left. destruct c as [[] | ex].
    + rewrite (run_idle replies self1 Hidle). cbn [snd].
      rewrite (main_replies_selector w r _ Hslot), List.app_nil_r. exact Hmain.
    + cbn [snd]. rewrite (main_replies_selector w r _ Hslot). exact Hmain.
Qed.

(** At attempt 2, waiting for the selector. *)
Lemma run_from_selector_2 (self : HolaIbotApp) (replies : list string) :
  awaiting_selector 2 self ->
  forall g2 g3 rest,
    main_replies (snd (run_replies replies self)) = g2 :: g3 :: rest ->
    Py.contains rate_limit_marker g2 = true ->
    Py.contains rate_limit_marker g3 = true ->
    rest = [] /\ fails_after g3 (run_replies replies self).
Proof.
  intros Hsel g2 g3 rest.
  destruct (run_from_selector 2 self replies Hsel)
    as [-> | (self1 & replies' & pre & Hnext & Hpre & ->)]; [discriminate |].
  pose proof (run_from_main_2 self1 replies' Hnext g2 g3 rest) as Hrun.
  destruct (run_replies replies' self1) as [[c s2] e2]. cbn [fst snd] in *.
  rewrite main_replies_app, Hpre. cbn [app].
  intros Hm H2 H3. destruct (Hrun Hm H2 H3) as [-> Hfail].
  split; [reflexivity |]. now apply fails_after_later.
Qed.

(** At attempt 1, waiting for the main model. *)
Lemma run_from_main_1 (self : HolaIbotApp) (replies : list string) :
  awaiting_main 1 self ->
  forall g1 g2 g3 rest,
    main_replies (snd (run_replies replies self)) = g1 :: g2 :: g3 :: rest ->
    Py.contains rate_limit_marker g1 = true ->
    Py.contains rate_limit_marker g2 = true ->
    Py.contains rate_limit_marker g3 = true ->
    rest = [] /\ fails_after g3 (run_replies replies self).
Proof.
  intros (Ha & w & Hw & Hslot) g1 g2 g3 rest.
  destruct replies as [| r replies]; [discriminate |].
  rewrite (run_cons r replies self w Hw), Hslot.
  destruct (Py.contains rate_limit_marker r) eqn:Hr.
  - destruct (on_gpt_rate_limited self r Hr) as (self1 & -> & Hw1 & Ha1 & _).
    destruct (step_filter self1 2) as (self2 & w2 & -> & Hnext & _); [lia | now right |].
    pose proof (run_from_selector_2 self2 replies Hnext) as Hrun.
    destruct (run_replies replies self2) as [[c s3] e3].
    cbn [snd app] in *.
    rewrite (main_replies_main w r _ Hslot), main_replies_started.
    intros [= <- Hrest] _ Hg2 Hg3.
    destruct (Hrun g2 g3 rest Hrest Hg2 Hg3) as [-> Hfail]. split; [reflexivity |].
    apply (fails_after_later g3 c s3 e3 [Finished w r; Started w2]), Hfail.
  - destruct (on_gpt_success self r Hr) as (self1 & -> & Hw1 & _).
    rewrite (run_idle replies self1) by exact Hw1.
    cbn [snd app]. rewrite (main_replies_main w r [] Hslot). discriminate.
Qed.

(** At attempt 1, waiting for the selector. *)
Lemma run_from_selector_1 (self : HolaIbotApp) (replies : list string) :
  awaiting_selector 1 self ->
  forall g1 g2 g3 rest,
    main_replies (snd (run_replies replies self)) = g1 :: g2 :: g3 :: rest ->
    Py.contains rate_limit_marker g1 = true ->
    Py.contains rate_limit_marker g2 = true ->
    Py.contains rate_limit_marker g3 = true ->
    rest = [] /\ fails_after g3 (run_replies replies self).
Proof.
  intros Hsel g1 g2 g3 rest.
  destruct (run_from_selector 1 self replies Hsel)
    as [-> | (self1 & replies' & pre & Hnext & Hpre & ->)]; [discriminate |].
  pose proof (run_from_main_1 self1 replies' Hnext g1 g2 g3 rest) as Hrun.
  destruct (run_replies replies' self1) as [[c s2] e2]. cbn [fst snd] in *.
  rewrite main_replies_app, Hpre. cbn [app].
  intros Hm H1 H2 H3. destruct (Hrun Hm H1 H2 H3) as [-> Hfail].
  split; [reflexivity |]. now apply fails_after_later.
Qed.

(** [ask_gpt] in chat mode, with a question typed and a project loaded,
    starts the query at attempt 1 with a call of the selector. *)
Lemma ask_gpt_starts (self : HolaIbotApp) :
  Py.strip (promptEdit self) <> "" ->
  loaded_context self <> "" ->
  mode_show_prompt self = false ->
  exists self1,
    ask_gpt readers project MARKDOWN_AVAILABLE markdown_to_html self
    = (Returned tt, self1,
       [Started (selector_call (loaded_context self) (Py.strip (promptEdit self)) false)])
    /\ awaiting_selector 1 self1
    /\ loaded_context self1 = loaded_context self
    /\ current_user_prompt self1 = Py.strip (promptEdit self)
    /\ chat_history self1
       = chat_history self ++ [mkMessage "user" (Py.strip (promptEdit self))]
    /\ gpt_worker self1
       = Some (selector_call (loaded_context self) (Py.strip (promptEdit self)) false).
Proof.
  intros Hp Hc Hmode. unfold ask_gpt. rewrite mbind_get.
  apply String.eqb_neq in Hp, Hc. rewrite Hp. rewrite mbind_get, Hc.
  rewrite !mbind_modify. unfold display_user_prompt. rewrite !mbind_modify.
  rewrite mbind_get. cbn [mode_show_prompt set_promptEdit set_responseEdit
    set_chat_history set_current_user_prompt]. rewrite Hmode.
  rewrite !mbind_modify.
  match goal with
  | |- exists _, step ?S = _ /\ _ =>
      destruct (step_filter S 1)
        as (self' & w & Hs & Haw & Hw & _ & Hweq & Hlc & Hch & Hcup);
      [reflexivity | now left |]
  end.
  change (1 =? 2)%Z with false in Hweq.
  cbn [loaded_context current_user_prompt chat_history set_current_query_attempt
       set_askButton set_promptEdit set_responseEdit set_chat_history
       set_current_user_prompt] in Hweq, Hlc, Hch, Hcup.
  subst w. exists self'. rewrite Hs, Hw, Hlc, Hch, Hcup. auto 10.
Qed.

End Escalation.

(** C3.  A query started in chat mode whose first three replies from the
    main model each carry the rate-limit marker: no fourth reply of the
    main model is ever delivered, the run ends with the third one as its
    last event (so no worker is started after it), no call is in flight,
    the attempt counter is 4, the failure notice is the last thing shown
    and the button is enabled again. *)
Theorem three_rate_limits_fail (readers : FormatReaders) (cwd : string)
    (islink : string -> bool) (lower : string -> string) (project : node) (json_loads : string -> outcome json)
    (MARKDOWN_AVAILABLE : bool) (markdown_to_html : string -> string)
    (self : HolaIbotApp) (replies : list string) (g1 g2 g3 : string)
    (rest : list string) :
  Py.strip (promptEdit self) <> "" ->
  loaded_context self <> "" ->
  mode_show_prompt self = false ->
  let r := mbind (ask_gpt readers project MARKDOWN_AVAILABLE markdown_to_html)
                 (fun _ => run readers cwd islink lower project json_loads MARKDOWN_AVAILABLE
                               markdown_to_html replies) self in
  main_replies (snd r) = g1 :: g2 :: g3 :: rest ->
  Py.contains rate_limit_marker g1 = true ->
  Py.contains rate_limit_marker g2 = true ->
  Py.contains rate_limit_marker g3 = true ->
  rest = [] /\ fails_after g3 r.
Proof.
  intros Hp Hc Hmode r.
  destruct (ask_gpt_starts readers project MARKDOWN_AVAILABLE markdown_to_html self
              Hp Hc Hmode) as (self1 & Heq & Hsel & _).
  pose proof (run_from_selector_1 readers cwd islink lower project json_loads MARKDOWN_AVAILABLE
                markdown_to_html self1 replies Hsel g1 g2 g3 rest) as Hrun.
  subst r. unfold mbind. rewrite Heq.
  destruct (run readers cwd islink lower project json_loads MARKDOWN_AVAILABLE markdown_to_html
              replies self1) as [[c s2] e2].
  cbn [fst snd app] in *. rewrite main_replies_started.
  intros Hm H1 H2 H3. destruct (Hrun Hm H1 H2 H3) as [-> Hfail].
  split; [reflexivity |].
  now apply (fails_after_later g3 c s2 e2 [Started _]).
Qed.

Lemma three_rate_limits_fail_witness :
  fails_after "API Error (429): rate limit"
    (mbind (ask_gpt sample_readers sample_project false (fun s => s))
           (fun _ => run sample_readers "/home" no_links Py.lower sample_project sample_json_loads
                         false (fun s => s)
                         ["I cannot help."; "API Error (429): rate limit";
                          "I cannot help."; "API Error (429): rate limit";
                          "API Error (429): rate limit"])
           sample_app).
Proof.
  refine (proj2 (three_rate_limits_fail sample_readers "/home" no_links Py.lower sample_project
                   sample_json_loads false (fun s => s) sample_app _
                   "API Error (429): rate limit" "API Error (429): rate limit"
                   "API Error (429): rate limit" [] _ _ _ _ _ _ _)).
  - vm_compute. discriminate.
  - vm_compute. discriminate.
  - reflexivity.
  - vm_compute. reflexivity.
  - vm_compute. reflexivity.
  - vm_compute. reflexivity.
  - vm_compute. reflexivity.
Defined.

Section Fallback.

Variable readers : FormatReaders.
Variable cwd : string.
Variable islink : string -> bool.
Variable lower : string -> string.
Variable project : node.
Variable json_loads : string -> outcome json.
Variable MARKDOWN_AVAILABLE : bool.
Variable markdown_to_html : string -> string.

Local Abbreviation on_filter :=
  (on_filter_response readers cwd islink lower project json_loads).
Local Abbreviation run_replies :=
  (run readers cwd islink lower project json_loads MARKDOWN_AVAILABLE markdown_to_html).

Lemma step_returns (self : HolaIbotApp) :
  exists self' evs, execute_smart_query_step self = (Returned tt, self', evs).
Proof.
  unfold execute_smart_query_step. rewrite mbind_get.
  destruct (current_query_attempt self =? 1)%Z; [eauto |].
  destruct (current_query_attempt self =? 2)%Z; [eauto |].
  destruct (current_query_attempt self =? 3)%Z; eauto.
Qed.

(** A selector reply that does not parse, then a rate-limited reply of the
    main model: the main model is called on the loaded structure, and after
    its reply the attempt counter goes up and the next step runs. *)
Lemma fallback_round (self : HolaIbotApp) (w : GptWorker)
    (f g ex : string) (rest : list string) :
  gpt_worker self = Some w ->
  finished w = on_filter_response_slot ->
  parse_file_list json_loads f = Raise ex ->
  Py.contains rate_limit_marker g = true ->
  exists self1 self2 e1,
    execute_smart_query_step self1 = (Returned tt, self2, e1)
    /\ run_replies (f :: g :: rest) self
       = (fst (fst (run_replies rest self2)), snd (fst (run_replies rest self2)),
          [Finished w f;
           Started (main_call (loaded_context self) (chat_history self));
           Finished (main_call (loaded_context self) (chat_history self)) g]
          ++ e1 ++ snd (run_replies rest self2))
    /\ gpt_worker self1 = None
    /\ current_query_attempt self1 = current_query_attempt self + 1
    /\ loaded_context self1 = loaded_context self
    /\ chat_history self1 = chat_history self
    /\ current_user_prompt self1 = current_user_prompt self.
Proof.
  intros Hw Hslot Hp Hg.
  rewrite (run_cons readers cwd islink lower project json_loads MARKDOWN_AVAILABLE markdown_to_html
             f (g :: rest) self w Hw), Hslot.
  destruct (on_filter_parse_failure readers cwd islink lower project json_loads self f ex Hp)
    as (s1 & -> & Hw1 & Ha1 & _ & Hc1 & Hh1 & _ & Hu1).
  rewrite (run_cons readers cwd islink lower project json_loads MARKDOWN_AVAILABLE markdown_to_html
             g rest s1 _ Hw1).
  cbn [finished main_call].
  destruct (on_gpt_rate_limited MARKDOWN_AVAILABLE markdown_to_html s1 g Hg)
    as (s2 & -> & Hw2 & Ha2 & _ & Hc2 & Hh2 & Hu2).
  destruct (step_returns s2) as (s3 & e3 & Hstep).
  exists s2, s3, e3. split; [exact Hstep |]. split.
  - rewrite Hstep. destruct (run_replies rest s3) as [[c s4] e4]. reflexivity.
  - repeat split; congruence || lia.
Qed.

(** C4 at the failing input.  A query in which the selector's replies do
    not parse and the main model's replies carry the rate-limit marker:
    after the structure-only call of the fallback has been rate-limited,
    the selector is called again with the aggressive instruction, and the
    structure-only call is made three times in all. *)
Theorem fallback_retry_is_not_monotonic (self : HolaIbotApp)
    (f1 g1 f2 g2 ex1 ex2 : string) :
  Py.strip (promptEdit self) <> "" ->
  loaded_context self <> "" ->
  mode_show_prompt self = false ->
  parse_file_list json_loads f1 = Raise ex1 ->
  parse_file_list json_loads f2 = Raise ex2 ->
  Py.contains rate_limit_marker g1 = true ->
  Py.contains rate_limit_marker g2 = true ->
  let ctx := loaded_context self in
  let prompt := Py.strip (promptEdit self) in
  let history := chat_history self ++ [mkMessage "user" prompt] in
  let smart := selector_call ctx prompt false in
  let aggressive := selector_call ctx prompt true in
  let structure_only := main_call ctx history in
  let r := mbind (ask_gpt readers project MARKDOWN_AVAILABLE markdown_to_html)
                 (fun _ => run_replies [f1; g1; f2; g2]) self in
  snd r = [Started smart;
           Finished smart f1; Started structure_only; Finished structure_only g1;
           Started aggressive;
           Finished aggressive f2; Started structure_only; Finished structure_only g2;
           Started structure_only]
  /\ started (snd r)
     = [smart; structure_only; aggressive; structure_only; structure_only]
  /\ awaiting_main 3 (snd (fst r)).
Proof.
  intros Hp Hc Hmode Hf1 Hf2 Hg1 Hg2 ctx prompt history smart aggressive structure_only r.
  destruct (ask_gpt_starts readers project MARKDOWN_AVAILABLE markdown_to_html self
              Hp Hc Hmode) as (s1 & Hask & [Ha1 _] & Hc1 & Hu1 & Hh1 & Hw1).
  destruct (fallback_round s1 smart f1 g1 ex1 [f2; g2] Hw1 eq_refl Hf1 Hg1)
    as (s1a & s2 & e1 & Hstep1 & Hrun1 & Hw1a & Ha1a & Hc1a & Hh1a & Hu1a).
  destruct (step_filter s1a 2)
    as (s2' & w2 & Hstep1' & [Ha2 _] & Hw2 & _ & -> & Hc2 & Hh2 & Hu2);
    [lia | now right |].
  rewrite Hstep1' in Hstep1. injection Hstep1 as <- <-.
  rewrite Hc1a, Hu1a, Hc1, Hu1 in Hw2. cbn [Z.eqb Pos.eqb] in Hw2.
  fold ctx prompt in Hw2. fold aggressive in Hw2.
  destruct (fallback_round s2' aggressive f2 g2 ex2 [] Hw2 eq_refl Hf2 Hg2)
    as (s2a & s3 & e2 & Hstep2 & Hrun2 & Hw2a & Ha2a & Hc2a & Hh2a & Hu2a).
  destruct (step_structure_only s2a)
    as (s3' & w3 & Hstep2' & Hnext & _ & -> & _); [lia |].
  rewrite Hstep2' in Hstep2. injection Hstep2 as <- <-.
  assert (Hr : r = (Returned tt, s3',
            [Started smart;
             Finished smart f1; Started structure_only; Finished structure_only g1;
             Started aggressive;
             Finished aggressive f2; Started structure_only;
             Finished structure_only g2;
             Started structure_only])).
  { subst r. unfold mbind. rewrite Hask, Hrun1, Hrun2.
    cbn [run]. unfold mret. cbn [fst snd app].
    rewrite Hc1a, Hu1a, Hc1, Hu1, Hh1.
    rewrite Hc2a, Hh2a, Hc2, Hh2, Hc1a, Hh1a, Hc1, Hh1.
    reflexivity. }
  rewrite Hr. cbn [fst snd]. split; [reflexivity |]. split; [reflexivity |].
  exact Hnext.
Qed.

End Fallback.

Lemma fallback_retry_is_not_monotonic_witness :
  started
    (snd (mbind (ask_gpt sample_readers sample_project false (fun s => s))
                (fun _ => run sample_readers "/home" no_links Py.lower sample_project sample_json_loads
                              false (fun s => s)
                              ["I cannot help."; "API Error (429): rate limit";
                               "I cannot help."; "API Error (429): rate limit"])
                sample_app))
  = [selector_call (loaded_context sample_app) "why does it fail?" false;
     main_call (loaded_context sample_app) [mkMessage "user" "why does it fail?"];
     selector_call (loaded_context sample_app) "why does it fail?" true;
     main_call (loaded_context sample_app) [mkMessage "user" "why does it fail?"];
     main_call (loaded_context sample_app) [mkMessage "user" "why does it fail?"]].
Proof.
  refine (proj1 (proj2 (fallback_retry_is_not_monotonic sample_readers "/home" no_links Py.lower
                   sample_project sample_json_loads false (fun s => s) sample_app
                   "I cannot help." "API Error (429): rate limit"
                   "I cannot help." "API Error (429): rate limit"
                   "Expecting value: line 1 column 1 (char 0)"
                   "Expecting value: line 1 column 1 (char 0)" _ _ _ _ _ _ _))).
  - vm_compute. discriminate.
  - vm_compute. discriminate.
  - reflexivity.
  - vm_compute. reflexivity.
  - vm_compute. reflexivity.
  - vm_compute. reflexivity.
  - vm_compute. reflexivity.
Defined.

(** ** The reply of the selector *)

Lemma reload_context_loads (readers : FormatReaders) (project : node)
    (self : HolaIbotApp) (path : string) :
  loaded_path self = Some path ->
  path <> "" ->
  loaded_context (snd (fst (reload_context readers project self)))
  = fst (snd (build_context readers (the_extractor self) project path false)).
Proof.
  intros Hpath Hne. unfold reload_context. rewrite mbind_get, Hpath.
  rewrite bool_decide_eq_false_2.
  2:{ intros [H | H]; [discriminate | congruence]. }
  unfold clear_response, set_buttons_enabled, display_agent_message.
  rewrite !mbind_modify. unfold call_build_context.
  rewrite mbind_assoc, mbind_get.
  cbn [loaded_path set_responseEdit set_contextEdit set_askButton set_otherButtons
       set_chat_history set_promptEdit].
  rewrite Hpath.
  rewrite mbind_assoc, mbind_get, mbind_assoc, mbind_modify, mbind_assoc.
  unfold mbind at 1, lift_io at 1. cbn [fst snd].
  rewrite mbind_mret. rewrite !mbind_modify. unfold modify. cbn. reflexivity.
Qed.

(** C5.  A selector reply whose parse raises: [on_filter_response] returns
    with the attempt counter and the extractor as they were, having started
    exactly one worker, the main model on the loaded context and the chat
    so far; it calls nothing on the file system and starts no selector.
    The reply [I cannot help.] is such a reply when [json.loads] raises on
    it, and the loaded context is the structure-only report that
    [reload_context] stored. *)
Theorem parse_failure_falls_back (readers : FormatReaders) (cwd : string)
    (islink : string -> bool) (lower : string -> string) (project : node) (json_loads : string -> outcome json)
    (self : HolaIbotApp) (response ex : string) :
  parse_file_list json_loads response = Raise ex ->
  (exists self',
      on_filter_response readers cwd islink lower project json_loads response self
      = (Returned tt, self',
         [Started (main_call (loaded_context self) (chat_history self))])
      /\ gpt_worker self' = Some (main_call (loaded_context self) (chat_history self))
      /\ current_query_attempt self' = current_query_attempt self
      /\ the_extractor self' = the_extractor self
      /\ loaded_context self' = loaded_context self)
  /\ (forall ex', json_loads "I cannot help." = Raise ex' ->
                  parse_file_list json_loads "I cannot help." = Raise ex')
  /\ (forall self0 path,
        loaded_path self0 = Some path -> path <> "" ->
        loaded_context (snd (fst (reload_context readers project self0)))
        = fst (snd (build_context readers (the_extractor self0) project path false))).
Proof.
  intros Hp. split; [| split].
  - destruct (on_filter_parse_failure readers cwd islink lower project json_loads self response ex Hp)
      as (self' & Heq & Hw & Ha & He & Hc & _).
    exists self'. auto.
  - intros ex' Hj. unfold parse_file_list. cbv zeta.
    pose proof (eq_refl : Py.strip "I cannot help." = "I cannot help.") as Hs.
    pose proof (eq_refl : Py.contains "```" "I cannot help." = false) as Hb.
    rewrite Hs, Hb, Hj. reflexivity.
  - intros self0 path. apply reload_context_loads.
Qed.

Lemma parse_failure_falls_back_witness :
  exists self',
    on_filter_response sample_readers "/home" no_links Py.lower sample_project sample_json_loads
      "I cannot help." sample_app
    = (Returned tt, self',
       [Started (main_call (loaded_context sample_app) (chat_history sample_app))])
    /\ gpt_worker self'
       = Some (main_call (loaded_context sample_app) (chat_history sample_app))
    /\ current_query_attempt self' = current_query_attempt sample_app
    /\ the_extractor self' = the_extractor sample_app
    /\ loaded_context self' = loaded_context sample_app.
Proof.
  refine (proj1 (parse_failure_falls_back sample_readers "/home" no_links Py.lower sample_project
                   sample_json_loads sample_app "I cannot help."
                   "Expecting value: line 1 column 1 (char 0)" _)).
  vm_compute. reflexivity.
Defined.

(** C6 at the failing input.  A selector reply that deserialises to a JSON
    list passes the parse whatever its elements are: [parse_file_list]
    returns the list, not a parse error.  When one of its first three
    elements is not a string, [on_filter_response] ends with the
    [TypeError] of [', '.join] uncaught: the fallback is not taken, no
    worker is started and nothing is shown. *)
Theorem non_string_list_not_rejected (readers : FormatReaders) (cwd : string)
    (islink : string -> bool) (lower : string -> string) (project : node) (json_loads : string -> outcome json)
    (self : HolaIbotApp) (response msg : string) (items : list json) :
  json_loads (Py.strip response) = Ok (JList items) ->
  Py.contains "```" (Py.strip response) = false ->
  comma_join (take 3 items) = Raise msg ->
  parse_file_list json_loads response = Ok items
  /\ on_filter_response readers cwd islink lower project json_loads response self
     = (Uncaught msg, set_gpt_worker None self, []).
Proof.
  intros Hj Hb Hjoin.
  assert (Hp : parse_file_list json_loads response = Ok items).
  { unfold parse_file_list. cbv zeta. now rewrite Hb, Hj. }
  split; [exact Hp |].
  unfold on_filter_response. rewrite Hp, Hjoin. now rewrite mbind_modify.
Qed.

Lemma non_string_list_not_rejected_witness :
  parse_file_list sample_json_loads "[1, 2]" = Ok [JInt 1; JInt 2]
  /\ on_filter_response sample_readers "/home" no_links Py.lower sample_project sample_json_loads
       "[1, 2]" sample_app
     = (Uncaught "sequence item 0: expected str instance, int found",
        set_gpt_worker None sample_app, []).
Proof.
  apply (non_string_list_not_rejected sample_readers "/home" no_links Py.lower sample_project
           sample_json_loads sample_app "[1, 2]"
           "sequence item 0: expected str instance, int found"
           [JInt 1; JInt 2]).
  - vm_compute. reflexivity.
  - vm_compute. reflexivity.
  - vm_compute. reflexivity.
Defined.

(** * Further properties of the extractor *)

(** A loop keeps what its body keeps. *)
Lemma for_each_invariant {A B} (P : B -> Prop) (Q : event -> Prop)
    (l : list A) (body : B -> A -> IO B) (acc : B) :
  P acc ->
  (forall a x, In x l -> P a -> P (fst (body a x)) /\ Forall Q (snd (body a x))) ->
  P (fst (for_each l body acc)) /\ Forall Q (snd (for_each l body acc)).
Proof.
  revert acc. induction l as [| x l IH]; intros acc Hacc Hbody.
  - cbn. split; [exact Hacc | constructor].
  - cbn [for_each]. unfold bind. cbn [fst snd].
    destruct (Hbody acc x (or_introl eq_refl) Hacc) as [Hp Hq].
    destruct (IH (fst (body acc x)) Hp) as [Hp' Hq'].
    { intros a y Hy. apply Hbody. now right. }
    split; [exact Hp' |]. apply Forall_app. now split.
Qed.

(** A traversal without content extraction from any folder of any tree. *)
Lemma structure_only_walk (readers : FormatReaders) (self : extractor)
    (t : node) (folder_path : string) (indent_level : nat) :
  let r := get_folder_structure_and_content readers self false t
             folder_path indent_level in
  (content_output (fst r) = [] /\ stats (fst r) = stats0)
  /\ Forall (fun ev => lists_only ev = true) (snd r).
Proof.
  revert folder_path indent_level.
  induction t as [f | ex | entries IH] using node_induction;
    intros folder_path indent_level; cbv zeta.
  - cbn. repeat split; repeat constructor.
  - cbn. repeat split; repeat constructor.
  - rewrite get_folder_structure_and_content_eq.
    unfold listdir. rewrite bind_assoc, bind_ret_l.
    unfold bind at 1, tell. cbn [fst snd].
    match goal with
    | |- context [for_each ?l ?b ?a] =>
        destruct (for_each_invariant
                    (fun acc => content_output acc = [] /\ stats acc = stats0)
                    (fun ev => lists_only ev = true) l b a) as [Hp Hq]
    end.
    + split; reflexivity.
    + intros acc [item child] Hin [Hc Hs].
      apply (proj1 (sorted_In _ _)) in Hin.
      rewrite list.Forall_forall in IH.
      assert (IHc := IH (item, child) (proj2 (list_elem_of_In _ _) Hin)).
      cbn [snd] in IHc.
      unfold walk_entry, visit_item. cbn [fst snd].
      destruct (decide (item ∈ exclusions self)); [cbn; auto |].
      destruct child as [f | listing].
      * destruct (decide (_ ∈ extensions self)); cbn; auto.
      * specialize (IHc (OsPath.join folder_path item) (S indent_level)).
        cbv zeta in IHc. destruct IHc as [[Hc' Hs'] Hq'].
        unfold bind, tell, ret. cbn [fst snd content_output stats].
        rewrite Hc, Hs, Hc', Hs'. cbn [app].
        split; [split; reflexivity |].
        constructor; [reflexivity |]. now rewrite List.app_nil_r.
    + split; [exact Hp |]. constructor; [reflexivity | exact Hq].
Qed.

Lemma build_context_structure_trace (readers : FormatReaders) (self : extractor)
    (t : node) (folder_path : string) :
  exclusions (fst (build_context readers self t folder_path false))
  = DEFAULT_EXCLUSIONS ∪ exclusions self
  /\ Forall (fun ev => lists_only ev = true)
            (snd (snd (build_context readers self t folder_path false))).
Proof.
  split; [reflexivity |].
  unfold build_context. cbn [snd negb]. unfold bind, ret. cbn [fst snd].
  rewrite List.app_nil_r.
  exact (proj2 (structure_only_walk readers (with_default_exclusions self) t
                  folder_path 0%nat)).
Qed.

(** A traversal without content extraction leaves the content list empty
    and the statistics at zero, and calls nothing but [os.listdir] and
    [os.path.isdir]: it asks for the size of no file and opens none.  The
    same holds of the trace of [build_context] without content. *)
Theorem structure_only_reads_no_file (readers : FormatReaders) (self : extractor)
    (t : node) (folder_path : string) (indent_level : nat) :
  let r := get_folder_structure_and_content readers self false t
             folder_path indent_level in
  content_output (fst r) = []
  /\ stats (fst r) = stats0
  /\ Forall (fun ev => lists_only ev = true) (snd r)
  /\ Forall (fun ev => lists_only ev = true)
            (snd (snd (build_context readers self t folder_path false))).
Proof.
  cbv zeta.
  destruct (structure_only_walk readers self t folder_path indent_level) as [[Hc Hs] Hq].
  split; [exact Hc |]. split; [exact Hs |]. split; [exact Hq |].
  unfold build_context. cbn [snd negb]. unfold bind, ret. cbn [fst snd].
  rewrite List.app_nil_r.
  exact (proj2 (structure_only_walk readers (with_default_exclusions self) t
                  folder_path 0%nat)).
Qed.

(** [extract_file_content] makes at most one call. *)
Lemma extract_file_content_one_call (readers : FormatReaders) (f : file)
    (filepath : string) (indent_level : nat) (ev : event) :
  In ev (snd (extract_file_content readers f filepath indent_level)) ->
  snd (extract_file_content readers f filepath indent_level) = [ev].
Proof.
  unfold extract_file_content.
  repeat match goal with
         | |- context [decide ?P] => destruct (decide P)
         | |- context [String.eqb ?a ?b] => destruct (String.eqb a b)
         | |- context [DOCX_AVAILABLE readers] => destruct (DOCX_AVAILABLE readers)
         end;
    cbn; intros H; repeat (destruct H as [<- | H]; [reflexivity |]); contradiction.
Qed.

(** Where a read of file content in the trace of a traversal comes from. *)
Lemma read_origin (readers : FormatReaders) (self : extractor) (extract_content : bool)
    (t : node) (folder_path : string) (indent_level : nat) (ev : event) :
  let r := get_folder_structure_and_content readers self extract_content t
             folder_path indent_level in
  In ev (snd r) ->
  reads_content ev = true ->
  exists item f dir n file_size,
    visits self t folder_path indent_level item (File f) dir n
    /\ Py.lower (snd (OsPath.splitext (OsPath.join dir item))) ∈ extensions self
    /\ st_size f = Ok file_size
    /\ file_size <= 100 * 1024
    /\ event_path ev = OsPath.join dir item
    /\ has_block [Isdir (OsPath.join dir item); Getsize (OsPath.join dir item); ev]
                 (snd r).
Proof.
  revert folder_path indent_level.
  induction t as [f | ex | entries IH] using node_induction;
    intros folder_path indent_level; cbv zeta.
  - cbn. intros [<- | []]. discriminate.
  - cbn. intros [<- | []]. discriminate.
  - intros Hin Hread.
    assert (Hin' := Hin).
    rewrite get_folder_structure_and_content_eq in Hin'.
    unfold listdir in Hin'. rewrite bind_assoc, bind_ret_l in Hin'.
    unfold bind at 1, tell in Hin'. cbn [fst snd app] in Hin'.
    destruct Hin' as [<- | Hin']; [discriminate Hread |].
    destruct (for_each_members readers self extract_content folder_path indent_level
                (sorted entries) empty_report) as (_ & _ & Me).
    destruct (Me ev Hin') as ([item child] & He & Hev).
    apply (proj1 (sorted_In _ _)) in He.
    unfold walk_entry in Hev. cbn [fst snd] in Hev.
    destruct (decide (item ∈ exclusions self)) as [Hex | Hex].
    { unfold visit_item in Hev. destruct (decide (item ∈ exclusions self));
        [destruct Hev | contradiction]. }
    assert (Hhere : visits self (Dir (Ok entries)) folder_path indent_level
                      item child folder_path indent_level)
      by now apply visits_here.
    destruct child as [f | listing].
    + (* a file *)
      destruct (visited_entry_in_report readers self extract_content _ _ _ _ _ _ _ Hhere)
        as (_ & _ & Hblock).
      unfold walk_entry in Hblock. cbn [fst snd] in Hblock.
      unfold visit_item in Hev, Hblock.
      destruct (decide (item ∈ exclusions self)); [contradiction |].
      destruct (decide (_ ∈ extensions self)) as [Hext | Hext].
      2:{ cbn in Hev. destruct Hev as [<- | []]. discriminate Hread. }
      destruct extract_content; cbn [negb] in *.
      2:{ cbn in Hev. destruct Hev as [<- | []]. discriminate Hread. }
      destruct (st_size f) as [file_size | err] eqn:Hsize.
      2:{ cbn in Hev. destruct Hev as [<- | [<- | []]]; discriminate Hread. }
      destruct (file_size >? 100 * 1024)%Z eqn:Hbig.
      { cbn in Hev. destruct Hev as [<- | [<- | []]]; discriminate Hread. }
      unfold bind, tell, ret in Hev, Hblock. cbn [fst snd app] in Hev, Hblock.
      rewrite List.app_nil_r in Hev, Hblock.
      destruct Hev as [<- | [<- | Hev]]; [discriminate Hread | discriminate Hread |].
      pose proof (extract_file_content_events readers _ _ _ _ Hev) as Hpath.
      apply extract_file_content_one_call in Hev.
      rewrite Hev in Hblock.
      exists item, f, folder_path, indent_level, file_size.
      split; [exact Hhere |]. split; [exact Hext |]. split; [exact Hsize |].
      split; [lia |]. split; [exact Hpath |]. apply Hblock. apply has_block_refl.
    + (* a directory *)
      rewrite list.Forall_forall in IH.
      specialize (IH (item, Dir listing) (proj2 (list_elem_of_In _ _) He)
                     (OsPath.join folder_path item) (S indent_level)).
      cbv zeta in IH. cbn [snd] in IH.
      unfold visit_item in Hev.
      destruct (decide (item ∈ exclusions self)); [contradiction |].
      unfold bind, tell, ret in Hev. cbn [fst snd app] in Hev.
      rewrite List.app_nil_r in Hev.
      destruct Hev as [<- | Hev]; [discriminate Hread |].
      destruct (IH Hev Hread)
        as (it & f & dir & lvl & file_size & Hv & Hext & Hsize & Hle & Hpath & Hb).
      exists it, f, dir, lvl, file_size.
      split; [eapply visits_below; eassumption |].
      split; [exact Hext |]. split; [exact Hsize |]. split; [exact Hle |].
      split; [exact Hpath |].
      destruct (walk_dir_inherits readers self extract_content entries item (Dir listing)
                  folder_path indent_level He Hex (ex_intro _ listing eq_refl))
        as (_ & _ & Hlift).
      now apply Hlift.
Qed.

(** A traversal reads the content of a file only after the exclusion and
    extension tests and right after [os.path.getsize] returned a size of at
    most 100 KiB for it: a read in the trace is a read of the path of a
    visited file whose extension is in the allowlist and whose size is at
    most 100 KiB, and it comes straight after the [isdir] and [getsize]
    calls on that path. *)
Theorem content_read_only_below_ceiling (readers : FormatReaders) (self : extractor)
    (extract_content : bool) (t : node) (folder_path : string) (indent_level : nat)
    (ev : event) :
  let r := get_folder_structure_and_content readers self extract_content t
             folder_path indent_level in
  In ev (snd r) ->
  reads_content ev = true ->
  extract_content = true
  /\ exists item f dir n file_size,
       visits self t folder_path indent_level item (File f) dir n
       /\ Py.lower (snd (OsPath.splitext (OsPath.join dir item))) ∈ extensions self
       /\ st_size f = Ok file_size
       /\ file_size <= 100 * 1024
       /\ event_path ev = OsPath.join dir item
       /\ has_block [Isdir (OsPath.join dir item); Getsize (OsPath.join dir item); ev]
                    (snd r).
Proof.
  intros r Hin Hread. split.
  - destruct extract_content; [reflexivity |].
    destruct (structure_only_walk readers self t folder_path indent_level) as [_ Hq].
    rewrite List.Forall_forall in Hq. specialize (Hq ev Hin).
    destruct ev; discriminate.
  - now apply read_origin.
Qed.

Lemma content_read_only_below_ceiling_witness :
  exists item f dir n file_size,
    visits sample_extractor sample_project "/p" 0 item (File f) dir n
    /\ Py.lower (snd (OsPath.splitext (OsPath.join dir item)))
       ∈ extensions sample_extractor
    /\ st_size f = Ok file_size
    /\ file_size <= 100 * 1024
    /\ "/p/src/main.py" = OsPath.join dir item
    /\ has_block [Isdir (OsPath.join dir item); Getsize (OsPath.join dir item);
                  OpenText "/p/src/main.py"]
         (snd (get_folder_structure_and_content sample_readers sample_extractor true
                 sample_project "/p" 0)).
Proof.
  refine (proj2 (content_read_only_below_ceiling sample_readers sample_extractor true
                   sample_project "/p" 0%nat (OpenText "/p/src/main.py") _ _)).
  - vm_compute. repeat first [left; reflexivity | right].
  - reflexivity.
Defined.

(** ** The order of a listing *)

Lemma key_le_antisym {A} (x y : string * A) :
  key_le x y -> key_le y x -> fst x = fst y.
Proof. unfold key_le. intros H1 H2. exact (anti_symm String.le _ _ H1 H2). Qed.

Lemma NoDup_keys_eq {A} (l : list (string * A)) (x y : string * A) :
  List.NoDup (map fst l) -> In x l -> In y l -> fst x = fst y -> x = y.
Proof.
  induction l as [| z l IH]; intros Hnd Hx Hy Hk; [destruct Hx |].
  cbn [map] in Hnd. inversion Hnd as [| ? ? Hnot Hnd']; subst.
  destruct Hx as [-> | Hx], Hy as [-> | Hy].
  - reflexivity.
  - exfalso. apply Hnot. rewrite Hk. now apply List.in_map.
  - exfalso. apply Hnot. rewrite <- Hk. now apply List.in_map.
  - now apply IH.
Qed.

(** Two sorted lists with the same entries, of distinct names, are equal. *)
Lemma sorted_lists_unique {A} (l1 l2 : list (string * A)) :
  StronglySorted key_le l1 -> StronglySorted key_le l2 ->
  Permutation l1 l2 -> List.NoDup (map fst l1) -> l1 = l2.
Proof.
  revert l2. induction l1 as [| x l1 IH]; intros l2 H1 H2 Hp Hnd.
  - apply Permutation_nil in Hp. now subst.
  - destruct l2 as [| y l2].
    { apply Permutation_sym, Permutation_nil in Hp. discriminate. }
    inversion H1 as [| ? ? H1' Hx]; subst.
    inversion H2 as [| ? ? H2' Hy]; subst.
    assert (Hxy : x = y).
    { assert (Hin_x : In x (y :: l2))
        by (eapply Permutation_in; [exact Hp | now left]).
      assert (Hin_y : In y (x :: l1))
        by (eapply Permutation_in; [apply Permutation_sym; exact Hp | now left]).
      destruct Hin_x as [-> | Hin_x]; [reflexivity |].
      destruct Hin_y as [-> | Hin_y]; [reflexivity |].
      apply (NoDup_keys_eq (x :: l1)); [exact Hnd | now left | now right |].
      apply key_le_antisym.
      - rewrite List.Forall_forall in Hx. now apply Hx.
      - rewrite List.Forall_forall in Hy. now apply Hy. }
    subst y. f_equal. apply IH; [exact H1' | exact H2' | |].
    + eapply Permutation_cons_inv; exact Hp.
    + cbn [map] in Hnd. now inversion Hnd.
Qed.

Lemma sorted_permutation {A} (l1 l2 : list (string * A)) :
  Permutation l1 l2 -> List.NoDup (map fst l1) -> sorted l1 = sorted l2.
Proof.
  intros Hp Hnd. apply sorted_lists_unique.
  - apply sorted_sorted.
  - apply sorted_sorted.
  - rewrite (sorted_perm l1), (sorted_perm l2). exact Hp.
  - eapply Permutation_NoDup; [| exact Hnd].
    apply Permutation_map, Permutation_sym, sorted_perm.
Qed.

Lemma insert_sorted_Forall2 {A B} (R : string * A -> string * B -> Prop)
    (x : string * A) (y : string * B) (l : list (string * A)) (m : list (string * B)) :
  (forall a b, R a b -> fst a = fst b) ->
  R x y -> Forall2 R l m -> Forall2 R (insert_sorted x l) (insert_sorted y m).
Proof.
  intros Hk Hxy HF. induction HF as [| a b l m Hab HF IH]; cbn [insert_sorted].
  - repeat constructor. exact Hxy.
  - rewrite <- (Hk _ _ Hxy), <- (Hk _ _ Hab).
    destruct (String.leb (fst x) (fst a)).
    + constructor; [exact Hxy |]. now constructor.
    + constructor; [exact Hab | exact IH].
Qed.

Lemma sorted_Forall2 {A B} (R : string * A -> string * B -> Prop)
    (l : list (string * A)) (m : list (string * B)) :
  (forall a b, R a b -> fst a = fst b) ->
  Forall2 R l m -> Forall2 R (sorted l) (sorted m).
Proof.
  intros Hk HF. induction HF as [| a b l m Hab HF IH]; cbn [sorted].
  - constructor.
  - now apply insert_sorted_Forall2.
Qed.

Lemma for_each_Forall2 {A A' B} (R : A -> A' -> Prop) (l : list A) (m : list A')
    (body1 : B -> A -> IO B) (body2 : B -> A' -> IO B) (acc : B) :
  Forall2 R l m ->
  (forall a x y, R x y -> body1 a x = body2 a y) ->
  for_each l body1 acc = for_each m body2 acc.
Proof.
  intros HF Hb. revert acc. induction HF as [| x y l m Hxy HF IH]; intros acc.
  - reflexivity.
  - cbn [for_each]. rewrite (Hb acc x y Hxy). unfold bind. now rewrite IH.
Qed.

Lemma Forall2_keys {A B} (R : A -> B -> Prop) (l : list (string * A))
    (m : list (string * B)) :
  Forall2 (fun e e' => fst e = fst e' /\ R (snd e) (snd e')) l m ->
  map fst l = map fst m.
Proof.
  induction 1 as [| x y l m [Hk _] _ IH]; [reflexivity |].
  cbn [map]. now rewrite Hk, IH.
Qed.

Lemma reordered_refl (t : node) : reordered t t.
Proof.
  induction t as [f | ex | entries IH] using node_induction.
  - constructor.
  - constructor.
  - apply (reordered_dir entries entries entries); [| reflexivity].
    induction IH as [| e l He _ IHl]; constructor; auto.
Qed.

Lemma reordered_walk (readers : FormatReaders) (self : extractor)
    (extract_content : bool) (t : node) :
  wf_tree t ->
  forall t', reordered t t' ->
  forall folder_path indent_level,
    get_folder_structure_and_content readers self extract_content t
      folder_path indent_level
    = get_folder_structure_and_content readers self extract_content t'
        folder_path indent_level.
Proof.
  induction t as [f | ex | entries IH] using node_induction;
    intros Hwf t' Hre folder_path indent_level.
  - inversion Hre; subst. reflexivity.
  - inversion Hre; subst. reflexivity.
  - inversion Hre as [| | ? mid entries' HF Hperm]; subst.
    inversion Hwf as [| | ? Hnd Hsub]; subst.
    rewrite !get_folder_structure_and_content_eq.
    unfold listdir. rewrite !bind_assoc, !bind_ret_l.
    apply bind_ext; intros _.
    rewrite <- (sorted_permutation mid entries' Hperm)
      by (rewrite <- (Forall2_keys _ _ _ HF); exact (proj1 (NoDup_ListNoDup _) Hnd)).
    assert (HF' : Forall2 (fun e m =>
                     fst e = fst m
                     /\ In e entries /\ reordered (snd e) (snd m)) entries mid).
    { clear - HF. induction HF as [| e m l l' [Hk Hr] HF IHF]; constructor.
      - split; [exact Hk |]. split; [now left | exact Hr].
      - eapply Forall2_impl; [exact IHF |].
        cbn. intros a b (H1 & H2 & H3). split; [exact H1 |]. split; [now right | exact H3]. }
    apply (for_each_Forall2 _ _ _ _ _ _
             (sorted_Forall2 _ entries mid (fun a b H => proj1 H) HF')).
    intros acc [item child] [item' child'] (Hk & Hin & Hr). cbn [fst snd] in *. subst item'.
    unfold walk_entry, visit_item. cbn [fst snd].
    destruct (decide (item ∈ exclusions self)); [reflexivity |].
    rewrite list.Forall_forall in IH, Hsub.
    assert (Hc := IH (item, child) (proj2 (list_elem_of_In _ _) Hin)
                    (Hsub (item, child) (proj2 (list_elem_of_In _ _) Hin))
                    child' Hr).
    cbn [snd] in Hc.
    destruct Hr as [f | ex | l mid' l' HF2 Hp2]; try reflexivity.
    now rewrite Hc.
Qed.

(** The report and the trace of a traversal do not depend on the order in
    which [os.listdir] returns the entries of the directories (the names in
    a directory being distinct): the items are sorted first.  The same
    holds of [build_context]. *)
Theorem listing_order_irrelevant (readers : FormatReaders) (self : extractor)
    (extract_content : bool) (t t' : node) (folder_path : string)
    (indent_level : nat) :
  wf_tree t ->
  reordered t t' ->
  get_folder_structure_and_content readers self extract_content t
    folder_path indent_level
  = get_folder_structure_and_content readers self extract_content t'
      folder_path indent_level
  /\ build_context readers self t folder_path extract_content
     = build_context readers self t' folder_path extract_content.
Proof.
  intros Hwf Hre. split.
  - now apply reordered_walk.
  - unfold build_context.
    now rewrite (reordered_walk readers (with_default_exclusions self) extract_content
                   t Hwf t' Hre folder_path 0%nat).
Qed.

(** The sample project with its top-level entries in reverse order. *)
Lemma sample_project_reversed :
  reordered sample_project
    (Dir (Ok (rev [("src", Dir (Ok [("main.py", text_file "print(1)");
                                    ("Makefile", text_file "all:");
                                    ("big.txt", File big_file)]));
                   ("README.md", text_file "# hi there");
                   (".git", Dir (Ok [("config.txt", text_file "secret")]));
                   ("notes.log", text_file "log line");
                   ("locked", Dir (Raise "[Errno 13] Permission denied: '/p/locked'"))]))).
Proof.
  unfold sample_project.
  eapply reordered_dir; [| apply Permutation_rev].
  repeat constructor; apply reordered_refl.
Qed.

Lemma listing_order_irrelevant_witness :
  build_context sample_readers init_extractor sample_project "/p" true
  = build_context sample_readers init_extractor
      (Dir (Ok (rev [("src", Dir (Ok [("main.py", text_file "print(1)");
                                      ("Makefile", text_file "all:");
                                      ("big.txt", File big_file)]));
                     ("README.md", text_file "# hi there");
                     (".git", Dir (Ok [("config.txt", text_file "secret")]));
                     ("notes.log", text_file "log line");
                     ("locked", Dir (Raise "[Errno 13] Permission denied: '/p/locked'"))])))
      "/p" true.
Proof.
  exact (proj2 (listing_order_irrelevant sample_readers init_extractor true
                  sample_project _ "/p" 0%nat sample_project_wf
                  sample_project_reversed)).
Defined.

(** ** Entries that cannot be read *)

(** A file that passes the exclusion and extension tests and whose size
    cannot be read ([os.path.getsize] raises [e]): the loop body of the full
    extraction lists it in the structure, emits its header and the notice
    [[Error reading file: e]] as its content, leaves the statistics as they
    are and does not open the file; the traversal goes on.  The line, the
    two content lines and the two calls occur as such in the report and the
    trace of the whole traversal. *)
Theorem size_error_reported (readers : FormatReaders) (self : extractor)
    (t : node) (folder_path : string) (indent_level : nat)
    (item : string) (f : file) (dir : string) (n : nat) (e : string) :
  visits self t folder_path indent_level item (File f) dir n ->
  Py.lower (snd (OsPath.splitext (OsPath.join dir item))) ∈ extensions self ->
  st_size f = Raise e ->
  let item_path := OsPath.join dir item in
  let indent := indentation n in
  let entry := [nl +:+ indent +:+ "File: " +:+ item_path;
                indent +:+ "[Error reading file: " +:+ e +:+ "]"] in
  (forall acc recurse,
     visit_item readers self true dir n acc item (File f) recurse
     = ({| structure_output := structure_output acc ++ [indent +:+ item];
           content_output := content_output acc ++ entry;
           stats := stats acc |},
        [Isdir item_path; Getsize item_path]))
  /\ let r := get_folder_structure_and_content readers self true t
                folder_path indent_level in
     In (indent +:+ item) (structure_output (fst r))
     /\ has_block entry (content_output (fst r))
     /\ has_block [Isdir item_path; Getsize item_path] (snd r).
Proof.
  intros Hv Hext Hsize item_path indent entry.
  assert (Hbody : forall acc recurse,
     visit_item readers self true dir n acc item (File f) recurse
     = ({| structure_output := structure_output acc ++ [indent +:+ item];
           content_output := content_output acc ++ entry;
           stats := stats acc |},
        [Isdir item_path; Getsize item_path])).
  { intros acc recurse. unfold visit_item.
    pose proof (visits_not_excluded _ _ _ _ _ _ _ _ Hv) as Hex.
    destruct (decide (item ∈ exclusions self)); [contradiction |].
    fold item_path.
    destruct (decide (_ ∈ extensions self)); [| contradiction].
    cbn [negb]. rewrite Hsize.
    destruct acc as [s c [w l ch tk sz]]. subst entry. report_eq. }
  split; [exact Hbody |].
  destruct (visited_entry_in_report readers self true _ _ _ _ _ _ _ Hv) as (H1 & H2 & H3).
  rewrite (Hbody empty_report _ : walk_entry readers self true dir n empty_report
                                    (item, File f) = _) in H1, H2, H3.
  cbn [fst snd structure_output content_output empty_report] in H1, H2, H3.
  split; [| split].
  - apply H1. now left.
  - apply H2, has_block_refl.
  - apply H3, has_block_refl.
Qed.

Lemma size_error_reported_witness :
  In "gone.py"
     (structure_output
        (fst (get_folder_structure_and_content sample_readers sample_extractor true
                sample_volatile "/p" 0)))
  /\ has_block [nl +:+ "File: /p/gone.py";
                "[Error reading file: [Errno 2] No such file or directory: '/p/gone.py']"]
       (content_output
          (fst (get_folder_structure_and_content sample_readers sample_extractor true
                  sample_volatile "/p" 0)))
  /\ has_block [Isdir "/p/gone.py"; Getsize "/p/gone.py"]
       (snd (get_folder_structure_and_content sample_readers sample_extractor true
               sample_volatile "/p" 0)).
Proof.
  assert (Hv : visits sample_extractor sample_volatile "/p" 0
                 "gone.py" (File vanished_file) "/p" 0).
  { apply visits_here.
    - left; reflexivity.
    - by_evaluation. }
  refine (proj2 (size_error_reported sample_readers sample_extractor sample_volatile
                   "/p" 0 "gone.py" vanished_file "/p" 0
                   "[Errno 2] No such file or directory: '/p/gone.py'" Hv _ _)).
  - by_evaluation.
  - reflexivity.
Defined.

(** A directory that passes the exclusion test and cannot be listed
    ([os.listdir] raises [ex]): the loop body lists it in the structure with
    the notice [[Cannot open: ex]] one level deeper, adds nothing to the
    content and the statistics, and the traversal goes on.  The two lines
    and the calls occur in the report and the trace of the whole traversal.
    A traversal started at such a directory, or at a regular file, returns
    the notice alone. *)
Theorem unreadable_directory_reported (readers : FormatReaders) (self : extractor)
    (extract_content : bool) (t : node) (folder_path : string) (indent_level : nat)
    (item : string) (ex : string) (dir : string) (n : nat) :
  visits self t folder_path indent_level item (Dir (Raise ex)) dir n ->
  let item_path := OsPath.join dir item in
  let lines := [indentation n +:+ item +:+ "/";
                indentation (S n) +:+ "[Cannot open: " +:+ ex +:+ "]"] in
  (forall acc,
     walk_entry readers self extract_content dir n acc (item, Dir (Raise ex))
     = ({| structure_output := structure_output acc ++ lines;
           content_output := content_output acc;
           stats := stats acc |},
        [Isdir item_path; Listdir item_path]))
  /\ (let r := get_folder_structure_and_content readers self extract_content t
                 folder_path indent_level in
      (forall line, In line lines -> In line (structure_output (fst r)))
      /\ has_block [Isdir item_path; Listdir item_path] (snd r))
  /\ (forall path il,
        get_folder_structure_and_content readers self extract_content
          (Dir (Raise ex)) path il
        = (cannot_open il ex, [Listdir path]))
  /\ (forall f path il,
        get_folder_structure_and_content readers self extract_content (File f) path il
        = (cannot_open il (not_a_directory path), [Listdir path])).
Proof.
  intros Hv item_path lines.
  assert (Hbody : forall acc,
     walk_entry readers self extract_content dir n acc (item, Dir (Raise ex))
     = ({| structure_output := structure_output acc ++ lines;
           content_output := content_output acc;
           stats := stats acc |},
        [Isdir item_path; Listdir item_path])).
  { intros acc. unfold walk_entry, visit_item. cbn [fst snd].
    pose proof (visits_not_excluded _ _ _ _ _ _ _ _ Hv) as Hex.
    destruct (decide (item ∈ exclusions self)); [contradiction |].
    fold item_path.
    destruct acc as [s c [w l ch tk sz]]. subst lines. report_eq. }
  split; [exact Hbody |]. split; [| split; reflexivity].
  cbv zeta.
  destruct (visited_entry_in_report readers self extract_content _ _ _ _ _ _ _ Hv)
    as (H1 & _ & H3).
  rewrite Hbody in H1, H3.
  cbn [fst snd structure_output empty_report app] in H1, H3.
  split; [exact H1 | apply H3, has_block_refl].
Qed.

Lemma unreadable_directory_reported_witness :
  In "    [Cannot open: [Errno 13] Permission denied: '/p/locked']"
     (structure_output
        (fst (get_folder_structure_and_content sample_readers sample_extractor
                true sample_project "/p" 0)))
  /\ has_block [Isdir "/p/locked"; Listdir "/p/locked"]
       (snd (get_folder_structure_and_content sample_readers sample_extractor true
               sample_project "/p" 0)).
Proof.
  assert (Hv : visits sample_extractor sample_project "/p" 0 "locked"
                 (Dir (Raise "[Errno 13] Permission denied: '/p/locked'")) "/p" 0).
  { apply visits_here.
    - right; right; right; right; left; reflexivity.
    - by_evaluation. }
  destruct (unreadable_directory_reported sample_readers sample_extractor
              true sample_project "/p" 0 "locked"
              "[Errno 13] Permission denied: '/p/locked'" "/p" 0 Hv)
    as (_ & (H1 & H3) & _).
  split; [| exact H3].
  apply H1. right; left; reflexivity.
Defined.

(** ** Targeted extraction without targets *)

Lemma for_each_ret {A B} (l : list A) (body : B -> A -> IO B) (acc : B) :
  (forall a x, body a x = ret a) -> for_each l body acc = ret acc.
Proof.
  intros Hb. induction l as [| x l IH]; [reflexivity |].
  cbn [for_each]. now rewrite Hb, bind_ret_l.
Qed.

Lemma targeted_file_no_target (readers : FormatReaders) (cwd : string)
    (lower : string -> string)
    (self : extractor) (folder_path root : string) (acc : targeted_acc)
    (entry : string * file) :
  targeted_file readers cwd lower self folder_path [] root acc entry = ret acc.
Proof.
  unfold targeted_file.
  destruct (decide (fst entry ∈ exclusions self)); [reflexivity |].
  rewrite !bool_decide_eq_false_2 by apply not_elem_of_nil.
  reflexivity.
Qed.

Lemma os_walk_no_target (readers : FormatReaders) (cwd : string)
    (islink : string -> bool) (lower : string -> string) (self : extractor)
    (folder_path : string) (t : node) :
  forall root acc,
  exists tr,
    os_walk islink (targeted_body readers cwd lower self folder_path []) t root acc
    = (acc, tr)
    /\ Forall (fun ev => scans_only ev = true) tr.
Proof.
  induction t as [f | ex | entries IH] using node_induction; intros root acc.
  - exists [Scandir root]. split; [reflexivity | repeat constructor].
  - exists [Scandir root]. split; [reflexivity | repeat constructor].
  - pose proof (os_walk_dir readers cwd islink lower self folder_path [] entries root acc)
      as Hw.
    cbn [clean_targets map] in Hw. rewrite Hw. clear Hw.
    unfold targeted_body at 1.
    rewrite (for_each_ret _ _ _
               (targeted_file_no_target readers cwd lower self folder_path root)).
    rewrite !bind_ret_l.
    assert (Hloop : forall ds acc,
              exists tr,
                for_each ds
                  (walk_dirs readers cwd islink lower self folder_path [] entries root)
                  acc
                = (acc, tr)
                /\ Forall (fun ev => scans_only ev = true) tr).
    { clear acc. induction ds as [| d ds IHds]; intros acc.
      - exists []. split; [reflexivity | constructor].
      - cbn [for_each]. unfold walk_dirs at 1. cbn [clean_targets map].
        destruct (IHds acc) as (tr2 & Heq2 & Htr2).
        destruct (islink (OsPath.join root d)).
        { rewrite bind_ret_l. eauto. }
        destruct (lookup_entry d entries) as [child |] eqn:El.
        + apply lookup_entry_In in El.
          rewrite list.Forall_forall in IH.
          destruct (IH (d, child) (proj2 (list_elem_of_In _ _) El)
                       (OsPath.join root d) acc) as (tr1 & Heq1 & Htr1).
          cbn [snd] in Heq1. rewrite Heq1. rewrite bind_unfold. cbn [fst snd].
          rewrite Heq2. cbn [fst snd].
          exists (tr1 ++ tr2). split; [reflexivity |]. apply Forall_app. now split.
        + change (tell (Scandir (OsPath.join root d)) ;;; ret acc)
            with (acc, [Scandir (OsPath.join root d)]).
          rewrite bind_unfold. cbn [fst snd]. rewrite Heq2. cbn [fst snd app].
          exists (Scandir (OsPath.join root d) :: tr2).
          split; [reflexivity |]. constructor; [reflexivity | exact Htr2]. }
    destruct (Hloop (filter (fun d => d ∉ exclusions self) (subdir_names entries)) acc)
      as (tr & Heq & Htr).
    cbn [fst snd]. rewrite bind_unfold, Heq. unfold tell. cbn [fst snd app].
    exists (Scandir root :: tr). split; [reflexivity |].
    constructor; [reflexivity | exact Htr].
Qed.

(** [build_targeted_context] with an empty list of targets: the report is
    the full structure followed by an empty selection, announced as
    [0 files] with [0] tokens; after the structure walk the second walk
    only scans the directories, it opens no file. *)
Theorem targeted_without_targets (readers : FormatReaders) (cwd : string)
    (islink : string -> bool) (lower : string -> string)
    (self : extractor) (t : node) (folder_path : string) :
  let full := get_folder_structure_and_content readers
                (with_default_exclusions self) false t folder_path 0 in
  exists scans,
    snd (build_targeted_context readers cwd islink lower self t folder_path [])
    = (Ok (Py.strip (Py.join nl
             (["FOLDER STRUCTURE (Full):"] ++ structure_output (fst full)
              ++ [separator; "SELECTED RELEVANT FILE CONTENTS (0 files):";
                  separator; "Targeted Stats: ~0 tokens."]))),
       snd full ++ scans)
    /\ Forall (fun ev => scans_only ev = true) scans.
Proof.
  cbv zeta.
  destruct (os_walk_no_target readers cwd islink lower (with_default_exclusions self)
              folder_path t folder_path ([], file_stats0)) as (tr & Heq & Htr).
  exists tr. split; [| exact Htr].
  unfold build_targeted_context. cbn [snd clean_targets_of].
  rewrite Heq. unfold bind, ret. cbn [fst snd]. now rewrite List.app_nil_r.
Qed.

(** ** The setters of the extractor *)

Lemma lower_char_idem (c : ascii) : Py.lower_char (Py.lower_char c) = Py.lower_char c.
Proof. destruct c as [[] [] [] [] [] [] [] []]; reflexivity. Qed.

Lemma lower_idem (s : string) : Py.lower (Py.lower s) = Py.lower s.
Proof.
  induction s as [| c s IH]; [reflexivity |].
  cbn [Py.lower]. now rewrite lower_char_idem, IH.
Qed.

Lemma startswith_dot (s : string) : Py.startswith ("." +:+ s) "." = true.
Proof.
  unfold Py.startswith. change ("." +:+ s) with (String "." s). cbn [String.prefix].
  destruct (ascii_dec "." "."); [now destruct s | contradiction].
Qed.

Lemma set_extensions_loop_spec (l : list string) (acc : gset string) (x : string) :
  x ∈ set_extensions_loop l acc <->
  x ∈ acc
  \/ exists e, In e l
       /\ Py.lower (Py.strip e) <> ""
       /\ x = if Py.startswith (Py.lower (Py.strip e)) "."
              then Py.lower (Py.strip e) else "." +:+ Py.lower (Py.strip e).
Proof.
  revert acc. induction l as [| e l IH]; intros acc; cbn [set_extensions_loop].
  - split; [now left | intros [H | (e & [] & _)]; exact H].
  - destruct (String.eqb (Py.lower (Py.strip e)) "") eqn:E.
    + rewrite IH. apply String.eqb_eq in E. split.
      * intros [H | (e' & Hin & Hne & Hx)]; [now left |].
        right. exists e'. split; [now right | now split].
      * intros [H | (e' & [<- | Hin] & Hne & Hx)]; [now left | contradiction |].
        right. exists e'. now split.
    + rewrite IH. apply String.eqb_neq in E.
      rewrite elem_of_union, elem_of_singleton. split.
      * intros [[H | H] | (e' & Hin & Hne & Hx)].
        -- now left.
        -- right. exists e. split; [now left |]. split; [exact E |].
           rewrite H. now destruct (Py.startswith (Py.lower (Py.strip e)) ".").
        -- right. exists e'. split; [now right | now split].
      * intros [H | (e' & [<- | Hin] & Hne & Hx)].
        -- left. now left.
        -- left. right. rewrite Hx.
           now destruct (Py.startswith (Py.lower (Py.strip e)) ".").
        -- right. exists e'. now split.
Qed.

(** [set_extensions] replaces the allowlist by the entries of the list,
    each stripped and lower-cased, a dot put in front of those that have
    none, the blank ones dropped; what was in the allowlist before does not
    matter.  Every stored extension starts with a dot and is in lower
    case.  An empty list, or a list of blank entries, leaves the allowlist
    empty.  The exclusions are not touched. *)
Theorem set_extensions_normalises (self : extractor) (extension_list : list string) :
  (forall x,
     x ∈ extensions (set_extensions self extension_list) <->
     exists e, In e extension_list
       /\ Py.lower (Py.strip e) <> ""
       /\ x = if Py.startswith (Py.lower (Py.strip e)) "."
              then Py.lower (Py.strip e) else "." +:+ Py.lower (Py.strip e))
  /\ (forall x, x ∈ extensions (set_extensions self extension_list) ->
                Py.startswith x "." = true /\ Py.lower x = x)
  /\ ((forall e, In e extension_list -> Py.strip e = "") ->
      extensions (set_extensions self extension_list) = ∅)
  /\ exclusions (set_extensions self extension_list) = exclusions self.
Proof.
  assert (Hspec : forall x,
     x ∈ extensions (set_extensions self extension_list) <->
     exists e, In e extension_list
       /\ Py.lower (Py.strip e) <> ""
       /\ x = if Py.startswith (Py.lower (Py.strip e)) "."
              then Py.lower (Py.strip e) else "." +:+ Py.lower (Py.strip e)).
  { intros x. cbn [extensions set_extensions]. rewrite set_extensions_loop_spec.
    split; [intros [H | H]; [now apply not_elem_of_empty in H | exact H] | now right]. }
  split; [exact Hspec |]. split; [| split; [| reflexivity]].
  - intros x Hx. apply Hspec in Hx. destruct Hx as (e & _ & Hne & ->).
    destruct (Py.startswith (Py.lower (Py.strip e)) ".") eqn:Es.
    + split; [exact Es | apply lower_idem].
    + split; [apply startswith_dot |].
      change ("." +:+ Py.lower (Py.strip e)) with (String "." (Py.lower (Py.strip e))).
      cbn [Py.lower]. now rewrite lower_idem.
  - intros Hblank. apply set_eq. intros x. rewrite Hspec. split.
    + intros (e & Hin & Hne & _). rewrite (Hblank e Hin) in Hne. now contradiction Hne.
    + intros H. now apply not_elem_of_empty in H.
Qed.

Lemma set_exclusions_spec (self : extractor) (l : list string) (x : string) :
  x ∈ exclusions (set_exclusions self l) <->
  x ∈ DEFAULT_EXCLUSIONS \/ exists e, In e l /\ Py.strip e <> "" /\ x = Py.strip e.
Proof.
  cbn [exclusions set_exclusions].
  rewrite elem_of_union, elem_of_list_to_set, list_elem_of_In, List.in_map_iff.
  split; (intros [H | H]; [now left | right]).
  - destruct H as (e & <- & Hin). apply list_elem_of_In in Hin.
    apply list_elem_of_filter in Hin. destruct Hin as [Hne Hin].
    exists e. split; [now apply list_elem_of_In | now split].
  - destruct H as (e & Hin & Hne & ->). exists e. split; [reflexivity |].
    apply list_elem_of_In, list_elem_of_filter. split; [exact Hne |].
    now apply list_elem_of_In.
Qed.

(** [set_exclusions] replaces the exclusions by the baseline joined to the
    entries of the list, each stripped, the blank ones dropped: the
    baseline can not be removed, and the names given in an earlier call are
    dropped.  The allowlist is not touched.  [build_context], which joins
    the baseline again, leaves these exclusions as they are. *)
Theorem set_exclusions_replaces (self : extractor) (l l' : list string) :
  (forall x,
     x ∈ exclusions (set_exclusions self l) <->
     x ∈ DEFAULT_EXCLUSIONS \/ exists e, In e l /\ Py.strip e <> "" /\ x = Py.strip e)
  /\ set_exclusions (set_exclusions self l') l = set_exclusions self l
  /\ extensions (set_exclusions self l) = extensions self
  /\ with_default_exclusions (set_exclusions self l) = set_exclusions self l
  /\ (forall readers t folder_path extract_content,
        fst (build_context readers (set_exclusions self l) t folder_path extract_content)
        = set_exclusions self l).
Proof.
  assert (Hd : with_default_exclusions (set_exclusions self l) = set_exclusions self l).
  { unfold with_default_exclusions, set_exclusions. cbn [exclusions extensions].
    f_equal. now rewrite (assoc_L (∪)), (idemp_L (∪)). }
  split; [| split; [reflexivity | split; [reflexivity | split; [exact Hd |]]]].
  - intros x. apply set_exclusions_spec.
  - intros readers t folder_path extract_content. exact Hd.
Qed.

(** ** The statistics of a text file *)

Lemma split_len_go_bound (in_word : bool) (s : string) :
  0 <= Py.split_len_go in_word s
  /\ Py.split_len_go in_word s + Py.count "010" s <= Py.len s.
Proof.
  revert in_word. unfold Py.len.
  induction s as [| c s IH]; intros in_word; cbn [Py.split_len_go Py.count String.length].
  - lia.
  - rewrite Nat2Z.inj_succ.
    destruct (Py.isspace c) eqn:Esp.
    + destruct (IH false) as [H0 H1].
      destruct (Ascii.eqb c "010"); lia.
    + destruct (IH true) as [H0 H1].
      assert (Ascii.eqb c "010" = false) as ->.
      { destruct (Ascii.eqb c "010") eqn:E; [| reflexivity].
        apply Ascii.eqb_eq in E. subst c. discriminate Esp. }
      destruct in_word; lia.
Qed.

Lemma count_nonneg (c : ascii) (s : string) : 0 <= Py.count c s.
Proof.
  induction s as [| a s IH]; cbn [Py.count]; [lia |].
  destruct (Ascii.eqb a c); lia.
Qed.

(** [extract_file_content] on a file with a text extension opens the file
    and nothing else.  When the read succeeds the content is the text under
    a [Content:] line; for an ASCII text the statistics count its words
    (the maximal runs of characters that are not white space), its
    newlines and its characters: the tokens are the words, and the words
    and the newlines together are at most the characters.  When the read
    raises [e], the content is the notice [[Error reading text file: e]]
    and the statistics are zero. *)
Theorem text_file_statistics (readers : FormatReaders) (f : file)
    (filepath : string) (indent_level : nat) :
  Py.lower (snd (OsPath.splitext filepath)) ∈ supported_text_exts ->
  let r := extract_file_content readers f filepath indent_level in
  snd r = [OpenText filepath]
  /\ (forall file_content,
        text f = Ok file_content ->
        fst (fst r) = indentation indent_level +:+ "Content:" +:+ nl +:+ file_content
        /\ (Py.isascii file_content = true ->
            f_characters (snd (fst r)) = Z.of_nat (String.length file_content)
            /\ f_words (snd (fst r)) = Py.split_len file_content
            /\ f_lines (snd (fst r)) = Py.count "010" file_content
            /\ f_tokens (snd (fst r)) = f_words (snd (fst r))
            /\ 0 <= f_words (snd (fst r))
            /\ 0 <= f_lines (snd (fst r))
            /\ f_words (snd (fst r)) + f_lines (snd (fst r))
               <= f_characters (snd (fst r))))
  /\ (forall e,
        text f = Raise e ->
        fst r = (indentation indent_level +:+ "[Error reading text file: " +:+ e +:+ "]",
                 file_stats0)).
Proof.
  intros Hext r. subst r. unfold extract_file_content.
  destruct (decide (_ ∈ supported_text_exts)); [| contradiction].
  unfold bind, tell, ret. cbn [fst snd app].
  split; [reflexivity |]. split.
  - intros file_content ->. cbn [fst snd f_characters f_lines f_tokens f_words].
    destruct (split_len_go_bound false file_content) as [H0 H1].
    pose proof (count_nonneg "010" file_content).
    split; [reflexivity |]. intros _.
    unfold Py.split_len, Py.len in *. repeat split; try reflexivity; lia.
  - intros err ->. reflexivity.
Qed.

Lemma text_file_statistics_witness :
  let f := {| st_size := Ok 10; text := Ok "a b
c d e
" |} in
  let r := extract_file_content sample_readers f "/p/notes.TXT" 1 in
  fst (fst r) = "    Content:
a b
c d e
"
  /\ f_characters (snd (fst r)) = 10
  /\ f_words (snd (fst r)) = 5
  /\ f_lines (snd (fst r)) = 2
  /\ f_tokens (snd (fst r)) = f_words (snd (fst r))
  /\ 0 <= f_words (snd (fst r))
  /\ 0 <= f_lines (snd (fst r))
  /\ f_words (snd (fst r)) + f_lines (snd (fst r)) <= f_characters (snd (fst r)).
Proof.
  destruct (proj1 (proj2 (text_file_statistics sample_readers
                            {| st_size := Ok 10; text := Ok "a b
c d e
" |} "/p/notes.TXT" 1 ltac:(by_evaluation))) _ eq_refl) as [Hcontent Hstats].
  split; [exact Hcontent |]. exact (Hstats eq_refl).
Defined.

(** ** Byte sizes that are multiples of a unit *)

Lemma forallb_range (P : nat -> bool) (lo len : nat) (n : Z) :
  forallb P (seq lo len) = true ->
  Z.of_nat lo <= n < Z.of_nat (lo + len) ->
  P (Z.to_nat n) = true.
Proof.
  intros Hall Hn. rewrite List.forallb_forall in Hall. apply Hall.
  apply List.in_seq. lia.
Qed.

Lemma multiples_of_unit (k : Z) (unit : string) (lo : nat) :
  forallb (fun i =>
             String.eqb (human_readable_size (float_of_int (Z.of_nat i * 1024 ^ k)))
                        (Py.str_int (Z.of_nat i) +:+ ".0 " +:+ unit))
          (seq lo (1024 - lo)) = true ->
  forall n, Z.of_nat lo <= n < 1024 ->
    human_readable_size (float_of_int (n * 1024 ^ k))
    = Py.str_int n +:+ ".0 " +:+ unit.
Proof.
  intros Hall n Hn.
  pose proof (forallb_range _ lo (1024 - lo) n Hall) as H.
  cbv beta in H. rewrite Z2Nat.id in H by lia.
  apply String.eqb_eq, H. lia.
Qed.

(** [human_readable_size] on whole multiples of a unit: a number of bytes
    below 1024 is printed as such with [.0 B]; [n] times [1024], for [n]
    from 1 to 1023, is printed as [n.0 KB], and so on for MB, GB and TB.
    PB is the last unit and has no ceiling: 1024 PB is printed as
    [1024.0 PB].  A value that is not a number is printed as [nan PB], an
    infinite one as [inf PB] or, negative, as [-inf B]. *)
Theorem human_readable_size_multiples :
  (forall n, 0 <= n < 1024 ->
     human_readable_size (float_of_int n) = Py.str_int n +:+ ".0 B")
  /\ (forall n, 1 <= n < 1024 ->
     human_readable_size (float_of_int (n * 1024)) = Py.str_int n +:+ ".0 KB")
  /\ (forall n, 1 <= n < 1024 ->
     human_readable_size (float_of_int (n * 1024 ^ 2)) = Py.str_int n +:+ ".0 MB")
  /\ (forall n, 1 <= n < 1024 ->
     human_readable_size (float_of_int (n * 1024 ^ 3)) = Py.str_int n +:+ ".0 GB")
  /\ (forall n, 1 <= n < 1024 ->
     human_readable_size (float_of_int (n * 1024 ^ 4)) = Py.str_int n +:+ ".0 TB")
  /\ (forall n, 1 <= n < 1024 ->
     human_readable_size (float_of_int (n * 1024 ^ 5)) = Py.str_int n +:+ ".0 PB")
  /\ human_readable_size (float_of_int (1024 ^ 6)) = "1024.0 PB"
  /\ human_readable_size nan = "nan PB"
  /\ human_readable_size infinity = "inf PB"
  /\ human_readable_size neg_infinity = "-inf B".
Proof.
  split.
  { intros n Hn.
    replace n with (n * 1024 ^ 0) at 1 by lia.
    apply (multiples_of_unit 0 "B" 0); [vm_compute; reflexivity | lia]. }
  split.
  { intros n Hn. change 1024 with (1024 ^ 1) at 1.
    apply (multiples_of_unit 1 "KB" 1); [vm_compute; reflexivity | lia]. }
  split.
  { intros n Hn. apply (multiples_of_unit 2 "MB" 1); [vm_compute; reflexivity | lia]. }
  split.
  { intros n Hn. apply (multiples_of_unit 3 "GB" 1); [vm_compute; reflexivity | lia]. }
  split.
  { intros n Hn. apply (multiples_of_unit 4 "TB" 1); [vm_compute; reflexivity | lia]. }
  split.
  { intros n Hn. apply (multiples_of_unit 5 "PB" 1); [vm_compute; reflexivity | lia]. }
  repeat split; vm_compute; reflexivity.
Qed.

(** ** Extensions that are listed but not read *)

(** [extract_file_content] on a file whose extension is neither a text
    extension nor one of the spreadsheet, notebook, document and PDF
    extensions returns the notice [[Binary or unsupported file]] with zero
    statistics and opens nothing.  Of the extensions in the allowlist of a
    fresh extractor, those below are of that kind: a full extraction lists
    files with these extensions and asks for their size, but their content
    is never extracted. *)
Theorem unsupported_extensions_not_read (readers : FormatReaders) :
  (forall f filepath indent_level,
     let ext := Py.lower (snd (OsPath.splitext filepath)) in
     ext ∉ supported_text_exts ->
     ext ∉ ({[ ".xlsx"; ".xls"; ".ipynb"; ".docx"; ".pdf" ]} : gset string) ->
     extract_file_content readers f filepath indent_level
     = ((indentation indent_level +:+ "[Binary or unsupported file]", file_stats0), []))
  /\ extensions init_extractor
       ∖ (supported_text_exts ∪ {[ ".xlsx"; ".xls"; ".ipynb"; ".docx"; ".pdf" ]})
     = {[ ".pyw"; ".hpp"; ".hh"; ".cc"; ".cxx"; ".c++";
          ".bash"; ".zsh"; ".ksh"; ".cmd"; ".make"; ".mk"; "Makefile";
          ".go"; ".rs"; ".swift"; ".php"; ".rb"; ".pl"; ".pm";
          ".scala"; ".kt"; ".kts"; ".lua"; ".sql"; ".toml";
          ".ps1"; ".psm1"; ".psd1"; ".cmake"; "CMakeLists.txt"; "Dockerfile";
          "dockerfile"; "Vagrantfile"; "Procfile" ]}.
Proof.
  split.
  - intros f filepath indent_level ext Htext Hother.
    unfold extract_file_content. fold ext.
    destruct (decide (ext ∈ supported_text_exts)); [contradiction |].
    rewrite !not_elem_of_union, !not_elem_of_singleton in Hother.
    destruct Hother as ((((H1 & H2) & H3) & H4) & H5).
    destruct (decide (ext ∈ ({[ ".xlsx"; ".xls" ]} : gset string))) as [Hx | _].
    { apply elem_of_union in Hx. rewrite !elem_of_singleton in Hx. tauto. }
    apply String.eqb_neq in H3, H4, H5. now rewrite H3, H4, H5.
  - by_evaluation.
Qed.

(** * Further properties of the application *)

Section Conversation.

Variable readers : FormatReaders.
Variable cwd : string.
Variable islink : string -> bool.
Variable lower : string -> string.
Variable project : node.
Variable json_loads : string -> outcome json.
Variable MARKDOWN_AVAILABLE : bool.
Variable markdown_to_html : string -> string.

Lemma reload_context_run (self : HolaIbotApp) (path : string) :
  loaded_path self = Some path ->
  path <> "" ->
  let b := build_context readers (the_extractor self) project path false in
  reload_context readers project self
  = (Returned tt,
     set_askButton true (set_otherButtons true
       (set_chat_history [] (set_promptEdit ""
         (set_responseEdit [extracting_notice; loaded_notice]
           (set_contextEdit ("Structure Ready:" +:+ nl +:+ nl +:+ fst (snd b))
             (set_loaded_context (fst (snd b))
               (set_the_extractor (fst b) self))))))),
     map Fs (snd (snd b))).
Proof.
  intros Hpath Hne b. unfold reload_context. rewrite mbind_get, Hpath.
  rewrite bool_decide_eq_false_2.
  2:{ intros [H | H]; [discriminate | congruence]. }
  unfold clear_response, set_buttons_enabled, display_agent_message.
  rewrite !mbind_modify. unfold call_build_context.
  rewrite mbind_assoc, mbind_get.
  cbn [loaded_path set_responseEdit set_contextEdit set_askButton set_otherButtons
       set_chat_history set_promptEdit].
  rewrite Hpath.
  rewrite mbind_assoc, mbind_get, mbind_assoc, mbind_modify, mbind_assoc.
  unfold mbind at 1, lift_io at 1. cbn [fst snd].
  rewrite mbind_mret. rewrite !mbind_modify. unfold modify.
  cbn [the_extractor set_responseEdit set_contextEdit set_askButton set_otherButtons
       set_chat_history set_promptEdit set_the_extractor].
  fold b. rewrite List.app_nil_r.
  reflexivity.
Qed.

(** [reload_context] with a folder chosen: the conversation, the prompt and
    the response pane are cleared, the structure-only report of
    [build_context] becomes the loaded context and is shown under
    [Structure Ready:], the extractor keeps the baseline exclusions joined
    by [build_context], and the buttons are enabled again.  The only calls
    on the file system are [os.listdir] and [os.path.isdir]: no file is
    sized or opened, and no worker is started.  [select_folder] with a
    folder chosen stores it and does the same. *)
Theorem reload_context_resets (self : HolaIbotApp) (path : string) :
  loaded_path self = Some path ->
  path <> "" ->
  let b := build_context readers (the_extractor self) project path false in
  reload_context readers project self
  = (Returned tt,
     set_askButton true (set_otherButtons true
       (set_chat_history [] (set_promptEdit ""
         (set_responseEdit [extracting_notice; loaded_notice]
           (set_contextEdit ("Structure Ready:" +:+ nl +:+ nl +:+ fst (snd b))
             (set_loaded_context (fst (snd b))
               (set_the_extractor (with_default_exclusions (the_extractor self))
                  self))))))),
     map Fs (snd (snd b)))
  /\ Forall (fun ev => lists_only ev = true) (snd (snd b))
  /\ (forall self0,
        select_folder readers project path self0
        = reload_context readers project (set_loaded_path (Some path) self0)).
Proof.
  intros Hpath Hne b. split; [| split].
  - exact (reload_context_run self path Hpath Hne).
  - destruct (build_context_structure_trace readers (the_extractor self) project path)
      as [_ H]. exact H.
  - intros self0. unfold select_folder.
    apply String.eqb_neq in Hne. rewrite Hne. now rewrite mbind_modify.
Qed.

(** [reload_context] with no folder chosen (none yet, or the empty path)
    changes nothing and calls nothing: only a warning box is shown.  So does
    [select_folder] when the dialog is cancelled. *)
Theorem reload_context_without_folder (self : HolaIbotApp) :
  loaded_path self = None \/ loaded_path self = Some "" ->
  reload_context readers project self = (Returned tt, self, [])
  /\ select_folder readers project "" self = (Returned tt, self, []).
Proof.
  intros Hpath. split; [| reflexivity].
  unfold reload_context. rewrite mbind_get.
  now rewrite bool_decide_eq_true_2.
Qed.

(** [ask_gpt] with a blank prompt, or with no project context loaded,
    changes nothing: the prompt is not recorded and no worker is started. *)
Theorem ask_gpt_ignores_blank (self : HolaIbotApp) :
  Py.strip (promptEdit self) = "" \/ loaded_context self = "" ->
  ask_gpt readers project MARKDOWN_AVAILABLE markdown_to_html self
  = (Returned tt, self, []).
Proof.
  intros H. unfold ask_gpt. rewrite mbind_get.
  destruct (String.eqb (Py.strip (promptEdit self)) "") eqn:Ep; [reflexivity |].
  apply String.eqb_neq in Ep. destruct H as [H | H]; [contradiction |].
  rewrite mbind_get, H. reflexivity.
Qed.

(** [ask_gpt] in prompt-view mode, with a question typed and a project
    loaded: the question is recorded in the chat history and shown, the
    full report of [build_context] with content is built and shown inside
    the final prompt, and that is all: no worker is started, the attempt
    counter, the loaded context and the button are left as they were. *)
Theorem ask_gpt_prompt_view (self : HolaIbotApp) (path : string) :
  Py.strip (promptEdit self) <> "" ->
  loaded_context self <> "" ->
  mode_show_prompt self = true ->
  loaded_path self = Some path ->
  let prompt := Py.strip (promptEdit self) in
  let b := build_context readers (the_extractor self) project path true in
  exists self',
    ask_gpt readers project MARKDOWN_AVAILABLE markdown_to_html self
    = (Returned tt, self', map Fs (snd (snd b)))
    /\ chat_history self' = chat_history self ++ [mkMessage "user" prompt]
    /\ current_user_prompt self' = prompt
    /\ promptEdit self' = ""
    /\ gpt_worker self' = gpt_worker self
    /\ current_query_attempt self' = current_query_attempt self
    /\ loaded_context self' = loaded_context self
    /\ askButton self' = askButton self
    /\ the_extractor self' = with_default_exclusions (the_extractor self)
    /\ exists shown,
         responseEdit self' = shown ++ [Append
           (if (markdown_enabled self && MARKDOWN_AVAILABLE)%bool
            then "<div style='font-family:" +:+ dq +:+ "Fira Mono" +:+ dq
                 +:+ ",monospace; font-size:"
                 +:+ Py.str_int (conversation_font_size self) +:+ "pt;'>"
                 +:+ markdown_to_html
                       ("### FINAL PROMPT (FULL CONTENT) ###" +:+ nl +:+ nl
                        +:+ "--- [PART 1: SYSTEM INSTRUCTION & CONTEXT] ---" +:+ nl
                        +:+ build_system_prompt (fst (snd b)) +:+ nl +:+ nl
                        +:+ "--- [PART 2: USER REQUEST] ---" +:+ nl
                        +:+ "User: " +:+ prompt +:+ nl)
                 +:+ "</div>"
            else "### FINAL PROMPT (FULL CONTENT) ###" +:+ nl +:+ nl
                 +:+ "--- [PART 1: SYSTEM INSTRUCTION & CONTEXT] ---" +:+ nl
                 +:+ build_system_prompt (fst (snd b)) +:+ nl +:+ nl
                 +:+ "--- [PART 2: USER REQUEST] ---" +:+ nl
                 +:+ "User: " +:+ prompt +:+ nl)].
Proof.
  intros Hp Hc Hmode Hpath prompt b. unfold ask_gpt. rewrite mbind_get.
  apply String.eqb_neq in Hp, Hc. rewrite Hp. rewrite mbind_get, Hc.
  rewrite !mbind_modify. unfold display_user_prompt. rewrite !mbind_modify.
  rewrite mbind_get.
  cbn [mode_show_prompt set_promptEdit set_responseEdit set_chat_history
       set_current_user_prompt].
  rewrite Hmode.
  unfold display_agent_message. rewrite mbind_modify.
  unfold call_build_context. rewrite !mbind_assoc, mbind_get.
  cbn [loaded_path set_promptEdit set_responseEdit set_chat_history
       set_current_user_prompt].
  rewrite Hpath.
  rewrite !mbind_assoc, mbind_get, !mbind_assoc, mbind_modify.
  cbn [the_extractor set_promptEdit set_responseEdit set_chat_history
       set_current_user_prompt].
  fold prompt. fold b.
  rewrite mbind_assoc.
  unfold mbind at 1, lift_io at 1. cbn [fst snd].
  rewrite mbind_mret. unfold display_gpt_output, modify.
  rewrite List.app_nil_r.
  eexists. split; [reflexivity |].
  cbn [chat_history current_user_prompt promptEdit gpt_worker current_query_attempt
       loaded_context askButton the_extractor responseEdit markdown_enabled
       conversation_font_size
       set_promptEdit set_responseEdit set_chat_history set_current_user_prompt
       set_the_extractor].
  repeat (split; [reflexivity |]).
  eexists. reflexivity.
Qed.

(** [on_gpt_response] on a reply without the rate-limit marker, whatever
    else it says: the query is over.  The reply is recorded in the chat
    history as the assistant's message and shown after its header, the
    button is enabled, no worker is started or left in flight, and the
    attempt counter is not changed. *)
Theorem on_gpt_response_records (self : HolaIbotApp) (response : string) :
  Py.contains rate_limit_marker response = false ->
  exists self',
    on_gpt_response MARKDOWN_AVAILABLE markdown_to_html response self
    = (Returned tt, self', [])
    /\ gpt_worker self' = None
    /\ askButton self' = true
    /\ current_query_attempt self' = current_query_attempt self
    /\ chat_history self' = chat_history self ++ [mkMessage "assistant" response]
    /\ loaded_context self' = loaded_context self
    /\ responseEdit self'
       = responseEdit self
         ++ [Append ("<b style=" +:+ dq +:+ "color:#87CEEB;" +:+ dq
                     +:+ ">[Worker (GPT-5.1)]</b> <i>Response received.</i>");
             Append (if (markdown_enabled self && MARKDOWN_AVAILABLE)%bool
                     then "<b style='color:#87CEEB'>Worker (GPT-5.1):</b>"
                     else nl +:+ "--- Worker (GPT-5.1) says: ---" +:+ nl);
             Append (if (markdown_enabled self && MARKDOWN_AVAILABLE)%bool
                     then "<div style='font-family:" +:+ dq +:+ "Fira Mono" +:+ dq
                          +:+ ",monospace; font-size:"
                          +:+ Py.str_int (conversation_font_size self) +:+ "pt;'>"
                          +:+ markdown_to_html response +:+ "</div>"
                     else response)].
Proof.
  intros Hm. unfold on_gpt_response. rewrite Hm.
  unfold display_agent_message, display_gpt_output. rewrite !mbind_modify.
  unfold modify.
  eexists. split; [reflexivity |].
  cbn [chat_history gpt_worker current_query_attempt loaded_context askButton
       responseEdit markdown_enabled conversation_font_size
       set_gpt_worker set_askButton set_responseEdit set_chat_history].
  repeat (split; [reflexivity |]).
  now rewrite <- !List.app_assoc.
Qed.

End Conversation.

Lemma reload_context_without_folder_witness :
  reload_context sample_readers sample_project init_app = (Returned tt, init_app, []).
Proof.
  refine (proj1 (reload_context_without_folder sample_readers sample_project init_app _)).
  left. reflexivity.
Defined.

Lemma reload_context_resets_witness :
  Forall (fun ev => lists_only ev = true)
         (snd (snd (build_context sample_readers (the_extractor sample_app)
                      sample_project "/p" false))).
Proof.
  refine (proj1 (proj2 (reload_context_resets sample_readers sample_project
                          sample_app "/p" _ _))).
  - reflexivity.
  - discriminate.
Defined.

Lemma ask_gpt_ignores_blank_witness :
  ask_gpt sample_readers sample_project false (fun s => s)
    (set_promptEdit "   " sample_app)
  = (Returned tt, set_promptEdit "   " sample_app, []).
Proof.
  refine (ask_gpt_ignores_blank sample_readers sample_project false (fun s => s)
            (set_promptEdit "   " sample_app) _).
  left. reflexivity.
Defined.

Lemma on_gpt_response_records_witness :
  exists self',
    on_gpt_response false (fun s => s)
      "API Error (500): Internal Server Error" sample_app
    = (Returned tt, self', [])
    /\ gpt_worker self' = None
    /\ askButton self' = true
    /\ current_query_attempt self' = current_query_attempt sample_app
    /\ chat_history self'
       = chat_history sample_app
         ++ [mkMessage "assistant" "API Error (500): Internal Server Error"].
Proof.
  destruct (on_gpt_response_records false (fun s => s) sample_app
              "API Error (500): Internal Server Error")
    as (self' & H1 & H2 & H3 & H4 & H5 & _).
  - vm_compute. reflexivity.
  - exists self'. auto.
Defined.

Lemma ask_gpt_prompt_view_witness :
  exists self',
    ask_gpt sample_readers sample_project false (fun s => s)
      sample_app_prompt_view
    = (Returned tt, self',
       map Fs (snd (snd (build_context sample_readers init_extractor sample_project
                           "/p" true))))
    /\ chat_history self' = [mkMessage "user" "why does it fail?"]
    /\ gpt_worker self' = None.
Proof.
  destruct (ask_gpt_prompt_view sample_readers sample_project false (fun s => s)
              sample_app_prompt_view "/p")
    as (self' & H1 & H2 & _ & _ & H5 & _).
  - vm_compute. discriminate.
  - vm_compute. discriminate.
  - reflexivity.
  - reflexivity.
  - exists self'. split; [exact H1 |]. split; [exact H2 | exact H5].
Defined.

(** ** The calls of one query *)

Lemma slots_app (l1 l2 : list app_event) : slots (l1 ++ l2) = slots l1 ++ slots l2.
Proof. unfold slots. now rewrite started_app, map_app. Qed.

Lemma slots_fs (l : list event) : slots (map Fs l) = [].
Proof. unfold slots. now rewrite started_fs. Qed.

Lemma slots_finished (w : GptWorker) (r : string) (evs : list app_event) :
  slots (Finished w r :: evs) = slots evs.
Proof. reflexivity. Qed.

Section Calls.

Variable readers : FormatReaders.
Variable cwd : string.
Variable islink : string -> bool.
Variable lower : string -> string.
Variable project : node.
Variable json_loads : string -> outcome json.
Variable MARKDOWN_AVAILABLE : bool.
Variable markdown_to_html : string -> string.

Local Abbreviation on_filter :=
  (on_filter_response readers cwd islink lower project json_loads).
Local Abbreviation on_gpt :=
  (on_gpt_response MARKDOWN_AVAILABLE markdown_to_html).
Local Abbreviation run_replies :=
  (run readers cwd islink lower project json_loads MARKDOWN_AVAILABLE markdown_to_html).

(** [on_filter_response] ends with the main model started and awaited, or
    with no call in flight and none started; the attempt counter is left. *)
Lemma on_filter_slots (self : HolaIbotApp) (response : string) :
  exists c self' evs,
    on_filter response self = (c, self', evs)
    /\ ((c = Returned tt
         /\ awaiting_main (current_query_attempt self) self'
         /\ slots evs = [on_gpt_response_slot])
        \/ (gpt_worker self' = None /\ slots evs = []
            /\ current_query_attempt self' = current_query_attempt self)).
Proof.
  destruct (parse_file_list json_loads response) as [relevant_files | ex] eqn:Hp.
  2:{ destruct (on_filter_parse_failure readers cwd islink lower project json_loads self response ex Hp)
        as (self' & Heq & Hw & Ha & _).
      exists (Returned tt), self'. eexists. split; [exact Heq |].
      left. split; [reflexivity |]. split; [| reflexivity].
      unfold awaiting_main. rewrite Ha. eauto. }
  unfold on_filter_response. rewrite Hp. rewrite mbind_modify.
  destruct (comma_join (take 3 relevant_files)) as [first_three | ex].
  2:{ unfold raise. do 3 eexists. split; [reflexivity |]. right. cbn. auto. }
  unfold display_agent_message at 1. rewrite mbind_modify.
  unfold call_build_targeted_context. rewrite mbind_assoc, mbind_get.
  cbn [loaded_path set_responseEdit set_gpt_worker].
  destruct (loaded_path self) as [folder_path |].
  2:{ rewrite mbind_mret. unfold display_agent_message. rewrite !mbind_modify.
      unfold modify. do 3 eexists. split; [reflexivity |]. right. cbn. auto. }
  rewrite mbind_assoc, mbind_get, mbind_assoc, mbind_modify.
  cbn [the_extractor set_responseEdit set_gpt_worker set_the_extractor].
  set (b := build_targeted_context readers cwd islink lower (the_extractor self) project
              folder_path relevant_files).
  destruct (snd b) as [[custom_context | ex] trace] eqn:Hb.
  - unfold mbind at 1, lift_io at 1. cbn [fst snd].
    match goal with
    | |- context [send_to_worker ?c ?s] =>
        destruct (send_to_worker_spec s c) as (self' & Heq & Hw & Ha & He & Hc & Hh & Hk)
    end.
    rewrite Heq. do 3 eexists. split; [reflexivity |].
    cbn in Ha. left.
    split; [reflexivity |]. split.
    + unfold awaiting_main. rewrite Ha. eauto.
    + now rewrite slots_app, slots_fs.
  - unfold mbind at 1, lift_io at 1. cbn [fst snd].
    unfold display_agent_message. rewrite !mbind_modify. unfold modify.
    do 3 eexists. split; [reflexivity |]. right.
    rewrite slots_app, slots_fs. cbn. auto.
Qed.

(** The calls that follow a reply of the main model awaited at attempt
    [a]: none when the reply is accepted, those of the next step and of the
    rest of the run when it is rate-limited. *)
Lemma slots_after_main (a : Z) (self : HolaIbotApp) (replies : list string)
    (allowed : list slot) :
  awaiting_main a self ->
  (forall self1 rest,
     gpt_worker self1 = None ->
     current_query_attempt self1 = a + 1 ->
     slots (snd (mbind execute_smart_query_step (fun _ => run_replies rest) self1))
       `prefix_of` allowed) ->
  slots (snd (run_replies replies self)) `prefix_of` allowed.
Proof.
  intros [Ha (w & Hw & Hslot)] Hnext.
  destruct replies as [| r rest]; [apply prefix_nil |].
  rewrite (run_cons readers cwd islink lower project json_loads MARKDOWN_AVAILABLE markdown_to_html
             r rest self w Hw), Hslot.
  destruct (Py.contains rate_limit_marker r) eqn:Hm.
  - destruct (on_gpt_rate_limited MARKDOWN_AVAILABLE markdown_to_html self r Hm)
      as (s1 & Heq & Hw1 & Ha1 & _).
    rewrite Heq. specialize (Hnext s1 rest Hw1 (eq_trans Ha1 (f_equal (fun x => x + 1) Ha))).
    unfold mbind in Hnext.
    destruct (execute_smart_query_step s1) as [[[[] | ex] s2] e2].
    + destruct (run_replies rest s2) as [[c s3] e3]. cbn [snd] in *.
      now rewrite slots_finished.
    + cbn [snd] in *. now rewrite slots_finished.
  - destruct (on_gpt_success MARKDOWN_AVAILABLE markdown_to_html self r Hm)
      as (s1 & Heq & Hw1 & _).
    rewrite Heq.
    rewrite (run_idle readers cwd islink lower project json_loads MARKDOWN_AVAILABLE markdown_to_html
               rest s1 Hw1).
    cbn [snd app]. rewrite slots_finished. apply prefix_nil.
Qed.

(** The calls that follow a reply of the selector awaited at attempt [a]:
    none, or a call of the main model and what follows its reply. *)
Lemma slots_after_selector (a : Z) (self : HolaIbotApp) (replies : list string)
    (allowed : list slot) :
  awaiting_selector a self ->
  (forall self1 rest,
     awaiting_main a self1 ->
     slots (snd (run_replies rest self1)) `prefix_of` allowed) ->
  slots (snd (run_replies replies self)) `prefix_of` (on_gpt_response_slot :: allowed).
Proof.
  intros [Ha (w & Hw & Hslot)] Hnext.
  destruct replies as [| r rest]; [apply prefix_nil |].
  rewrite (run_cons readers cwd islink lower project json_loads MARKDOWN_AVAILABLE markdown_to_html
             r rest self w Hw), Hslot.
  destruct (on_filter_slots self r)
    as (c & s1 & e1 & Heq & [(-> & Hmain & Hs) | (Hnone & Hs & _)]).
  - rewrite Heq. rewrite Ha in Hmain. specialize (Hnext s1 rest Hmain).
    destruct (run_replies rest s1) as [[c s2] e2]. cbn [snd] in *.
    rewrite slots_finished, slots_app, Hs. cbn [app].
    now apply prefix_cons.
  - rewrite Heq. destruct c as [[] | ex].
    + rewrite (run_idle readers cwd islink lower project json_loads MARKDOWN_AVAILABLE
                 markdown_to_html rest s1 Hnone).
      cbn [snd]. rewrite slots_finished, slots_app, Hs. apply prefix_nil.
    + cbn [snd]. rewrite slots_finished, Hs. apply prefix_nil.
Qed.

Lemma slots_from_main_3 (self : HolaIbotApp) (replies : list string) :
  awaiting_main 3 self -> slots (snd (run_replies replies self)) `prefix_of` [].
Proof.
  intros Hmain. apply (slots_after_main 3 self replies [] Hmain).
  intros s1 rest Hw Ha. unfold mbind.
  destruct (step_failed s1 Ha Hw) as (s2 & Heq & Hf). rewrite Heq.
  rewrite (run_idle readers cwd islink lower project json_loads MARKDOWN_AVAILABLE markdown_to_html
             rest s2 (proj1 Hf)).
  apply prefix_nil.
Qed.

Lemma slots_from_main_2 (self : HolaIbotApp) (replies : list string) :
  awaiting_main 2 self ->
  slots (snd (run_replies replies self)) `prefix_of` [on_gpt_response_slot].
Proof.
  intros Hmain. apply (slots_after_main 2 self replies _ Hmain).
  intros s1 rest Hw Ha. unfold mbind.
  destruct (step_structure_only s1 Ha) as (s2 & w & Heq & Hnext & _ & -> & _).
  rewrite Heq.
  pose proof (slots_from_main_3 s2 rest Hnext) as H3.
  destruct (run_replies rest s2) as [[c s3] e3]. cbn [snd] in *.
  apply prefix_nil_inv in H3.
  change (slots ([Started (main_call (loaded_context s1) (chat_history s1))] ++ e3))
    with (on_gpt_response_slot :: slots e3).
  now rewrite H3.
Qed.

Lemma slots_from_selector_2 (self : HolaIbotApp) (replies : list string) :
  awaiting_selector 2 self ->
  slots (snd (run_replies replies self))
    `prefix_of` [on_gpt_response_slot; on_gpt_response_slot].
Proof.
  intros Hsel. apply (slots_after_selector 2 self replies _ Hsel).
  intros s1 rest Hmain. now apply slots_from_main_2.
Qed.

Lemma slots_from_main_1 (self : HolaIbotApp) (replies : list string) :
  awaiting_main 1 self ->
  slots (snd (run_replies replies self))
    `prefix_of` [on_filter_response_slot; on_gpt_response_slot; on_gpt_response_slot].
Proof.
  intros Hmain. apply (slots_after_main 1 self replies _ Hmain).
  intros s1 rest Hw Ha. unfold mbind.
  destruct (step_filter s1 2 Ha (or_intror eq_refl))
    as (s2 & w & Heq & Hnext & _ & _ & -> & _).
  rewrite Heq.
  pose proof (slots_from_selector_2 s2 rest Hnext) as H2.
  destruct (run_replies rest s2) as [[c s3] e3]. cbn [snd] in *.
  change (slots ([Started (selector_call (loaded_context s1) (current_user_prompt s1)
                             (2 =? 2)%Z)] ++ e3))
    with (on_filter_response_slot :: slots e3).
  now apply prefix_cons.
Qed.

Lemma slots_from_selector_1 (self : HolaIbotApp) (replies : list string) :
  awaiting_selector 1 self ->
  slots (snd (run_replies replies self))
    `prefix_of` [on_gpt_response_slot; on_filter_response_slot;
                 on_gpt_response_slot; on_gpt_response_slot].
Proof.
  intros Hsel. apply (slots_after_selector 1 self replies _ Hsel).
  intros s1 rest Hmain. now apply slots_from_main_1.
Qed.

(** Whatever the replies, the calls of one query follow the order of the
    escalation and stop somewhere in it: the selector, the main model, the
    selector again, the main model, the main model.  So a query makes at
    most five calls, at most two of them to the selector. *)
Theorem query_calls_follow_escalation (self : HolaIbotApp) (replies : list string) :
  Py.strip (promptEdit self) <> "" ->
  loaded_context self <> "" ->
  mode_show_prompt self = false ->
  let r := mbind (ask_gpt readers project MARKDOWN_AVAILABLE markdown_to_html)
                 (fun _ => run_replies replies) self in
  slots (snd r) `prefix_of` escalation_order
  /\ (List.length (started (snd r)) <= 5)%nat.
Proof.
  intros Hp Hc Hmode r.
  assert (Hpre : slots (snd r) `prefix_of` escalation_order).
  { subst r.
    destruct (ask_gpt_starts readers project MARKDOWN_AVAILABLE markdown_to_html self
                Hp Hc Hmode) as (s1 & Heq & Hsel & _).
    unfold mbind. rewrite Heq.
    pose proof (slots_from_selector_1 s1 replies Hsel) as H1.
    destruct (run_replies replies s1) as [[c s2] e2]. cbn [snd] in *.
    change (slots ([Started (selector_call (loaded_context self)
                               (Py.strip (promptEdit self)) false)] ++ e2))
      with (on_filter_response_slot :: slots e2).
    now apply prefix_cons. }
  split; [exact Hpre |].
  apply prefix_length in Hpre. unfold slots in Hpre.
  rewrite length_map in Hpre. exact Hpre.
Qed.

End Calls.

Lemma query_calls_follow_escalation_witness :
  slots (snd (mbind (ask_gpt sample_readers sample_project false (fun s => s))
                (fun _ => run sample_readers "/home" no_links Py.lower sample_project sample_json_loads
                              false (fun s => s)
                              ["I cannot help."; "API Error (429): rate limit";
                               "I cannot help."; "API Error (429): rate limit";
                               "API Error (429): rate limit"])
                sample_app))
    `prefix_of` escalation_order.
Proof.
  refine (proj1 (query_calls_follow_escalation sample_readers "/home" no_links Py.lower sample_project
                   sample_json_loads false (fun s => s) sample_app _ _ _ _)).
  - vm_compute. discriminate.
  - vm_compute. discriminate.
  - reflexivity.
Defined.

(** ** The reply of the selector, decoded *)

Lemma take_map_JStr (n : nat) (l : list string) :
  take n (map JStr l) = map JStr (take n l).
Proof.
  revert n. induction l as [| x l IH]; intros [| n]; cbn; try reflexivity.
  now rewrite IH.
Qed.

Lemma join_items_strings (i : Z) (l : list string) :
  join_items i (map JStr l) = Ok l.
Proof.
  revert i. induction l as [| x l IH]; intros i; cbn [map join_items]; [reflexivity |].
  now rewrite IH.
Qed.

Section Selection.

Variable readers : FormatReaders.
Variable cwd : string.
Variable islink : string -> bool.
Variable lower : string -> string.
Variable project : node.
Variable json_loads : string -> outcome json.
Variable MARKDOWN_AVAILABLE : bool.
Variable markdown_to_html : string -> string.

Local Abbreviation on_filter :=
  (on_filter_response readers cwd islink lower project json_loads).
Local Abbreviation run_replies :=
  (run readers cwd islink lower project json_loads MARKDOWN_AVAILABLE markdown_to_html).

Lemma on_filter_response_run (self : HolaIbotApp) (response path : string)
    (relevant_files : list json) (first_three : string) :
  parse_file_list json_loads response = Ok relevant_files ->
  comma_join (take 3 relevant_files) = Ok first_three ->
  loaded_path self = Some path ->
  let b := build_targeted_context readers cwd islink lower (the_extractor self) project path
             relevant_files in
  let shown :=
    set_responseEdit
      (responseEdit self
       ++ [agent_message "Brain"
             ("Selected " +:+ Py.str_int (Z.of_nat (List.length relevant_files))
              +:+ " files: " +:+ first_three +:+ "...") "#87CEEB"])
      (set_gpt_worker None self) in
  on_filter response self
  = match fst (snd b) with
    | Ok custom_context =>
        match send_to_worker custom_context (set_the_extractor (fst b) shown) with
        | (c, self', evs) => (c, self', map Fs (snd (snd b)) ++ evs)
        end
    | Raise e =>
        (Returned tt,
         set_askButton true
           (set_responseEdit
              (responseEdit shown
               ++ [agent_message "System" ("Error building context: " +:+ e)
                     "#FF0000"])
              (set_the_extractor (fst b) shown)),
         map Fs (snd (snd b)))
    end.
Proof.
  intros Hp Hj Hpath b shown.
  unfold on_filter_response. rewrite Hp, Hj. rewrite mbind_modify.
  unfold display_agent_message at 1. rewrite mbind_modify.
  unfold call_build_targeted_context. rewrite mbind_assoc, mbind_get.
  cbn [loaded_path set_responseEdit set_gpt_worker]. rewrite Hpath.
  rewrite mbind_assoc, mbind_get, mbind_assoc, mbind_modify.
  cbn [the_extractor set_responseEdit set_gpt_worker set_the_extractor].
  fold b. cbn [responseEdit set_gpt_worker].
  change (Append _) with
    (agent_message "Brain"
       ("Selected " +:+ Py.str_int (Z.of_nat (List.length relevant_files))
        +:+ " files: " +:+ first_three +:+ "...") "#87CEEB").
  fold shown.
  unfold mbind at 1, lift_io at 1. cbn [fst snd].
  destruct (fst (snd b)) as [custom_context | e].
  - destruct (send_to_worker custom_context (set_the_extractor (fst b) shown))
      as [[c s] e]. reflexivity.
  - unfold display_agent_message. rewrite !mbind_modify. unfold modify.
    now rewrite List.app_nil_r.
Qed.


(** A selector reply that decodes to a list of strings: the targeted
    report of [build_targeted_context] on these files is built and sent to
    the main model with the chat so far, the selection is announced with
    its first three names, and nothing else is started.  The attempt
    counter and the loaded context are left as they were: the targeted
    report is not kept. *)
Theorem selected_files_sent_to_main (self : HolaIbotApp) (response path : string)
    (files : list string) :
  parse_file_list json_loads response = Ok (map JStr files) ->
  loaded_path self = Some path ->
  let b := build_targeted_context readers cwd islink lower (the_extractor self) project path
             (map JStr files) in
  exists custom_context self',
    fst (snd b) = Ok custom_context
    /\ on_filter response self
       = (Returned tt, self',
          map Fs (snd (snd b))
          ++ [Started (main_call custom_context (chat_history self))])
    /\ gpt_worker self' = Some (main_call custom_context (chat_history self))
    /\ current_query_attempt self' = current_query_attempt self
    /\ loaded_context self' = loaded_context self
    /\ chat_history self' = chat_history self
    /\ the_extractor self' = with_default_exclusions (the_extractor self)
    /\ exists shown,
         responseEdit self'
         = responseEdit self
           ++ agent_message "Brain"
                ("Selected " +:+ Py.str_int (Z.of_nat (List.length files))
                 +:+ " files: " +:+ Py.join ", " (take 3 files) +:+ "...") "#87CEEB"
              :: shown.
Proof.
  intros Hp Hpath b.
  assert (Hj : comma_join (take 3 (map JStr files)) = Ok (Py.join ", " (take 3 files))).
  { unfold comma_join. now rewrite take_map_JStr, join_items_strings. }
  pose proof (on_filter_response_run self response path _ _ Hp Hj Hpath) as Hrun.
  cbv zeta in Hrun. fold b in Hrun.
  pose proof (build_targeted_context_eq readers cwd islink lower (the_extractor self) project path
                files) as Hb.
  cbv zeta in Hb. fold b in Hb.
  destruct (snd b) as [text trace] eqn:Esnd. injection Hb as Htext Htrace.
  cbn [fst snd] in Hrun |- *. rewrite Htext in Hrun |- *.
  match type of Hrun with
  | context [send_to_worker ?c ?s] =>
      destruct (send_to_worker_spec s c) as (self' & Heq & Hw & Ha & He & Hc & Hh & _)
  end.
  rewrite Heq in Hrun.
  eexists. exists self'. split; [reflexivity |]. split; [exact Hrun |].
  cbn [chat_history current_query_attempt loaded_context the_extractor
       set_the_extractor set_responseEdit set_gpt_worker] in Hw, Ha, He, Hc, Hh.
  split; [exact Hw |]. split; [exact Ha |]. split; [exact Hc |].
  split; [exact Hh |]. split; [exact He |].
  assert (Hr : exists tl, responseEdit self'
     = responseEdit (set_the_extractor (fst b)
         (set_responseEdit
            (responseEdit self
             ++ [agent_message "Brain"
                   ("Selected " +:+ Py.str_int (Z.of_nat (List.length (map JStr files)))
                    +:+ " files: " +:+ Py.join ", " (take 3 files) +:+ "...")
                   "#87CEEB"])
            (set_gpt_worker None self))) ++ tl).
  { unfold send_to_worker, display_agent_message, start_worker in Heq.
    rewrite !mbind_modify, mbind_get, !mbind_modify in Heq.
    unfold emit in Heq. injection Heq as <-. eexists. reflexivity. }
  destruct Hr as (tl & Hr). exists tl. rewrite Hr.
  cbn [responseEdit set_the_extractor set_responseEdit].
  rewrite length_map. now rewrite <- List.app_assoc.
Qed.

(** A selector reply that decodes to a list whose first three entries are
    strings but which holds an entry that is not a string further on:
    [build_targeted_context] raises after its structure walk, the error is
    shown, the button is enabled again and the query ends there: no call
    of the main model is made, and the attempt counter is left. *)
Theorem unusable_selection_ends_query (self : HolaIbotApp) (response path : string)
    (relevant_files : list json) (first_three e : string) :
  parse_file_list json_loads response = Ok relevant_files ->
  comma_join (take 3 relevant_files) = Ok first_three ->
  clean_targets_of lower relevant_files = Raise e ->
  loaded_path self = Some path ->
  exists self' trace,
    on_filter response self = (Returned tt, self', map Fs trace)
    /\ Forall (fun ev => lists_only ev = true) trace
    /\ gpt_worker self' = None
    /\ askButton self' = true
    /\ current_query_attempt self' = current_query_attempt self
    /\ last (responseEdit self')
       = Some (agent_message "System" ("Error building context: " +:+ e) "#FF0000")
    /\ forall rest,
         run_replies rest self' = (Returned tt, self', []).
Proof.
  intros Hp Hj Hc Hpath.
  pose proof (on_filter_response_run self response path _ _ Hp Hj Hpath) as Hrun.
  cbv zeta in Hrun.
  assert (Hb : snd (build_targeted_context readers cwd islink lower (the_extractor self) project path
                      relevant_files)
               = (Raise e,
                  snd (get_folder_structure_and_content readers
                         (with_default_exclusions (the_extractor self)) false
                         project path 0))).
  { unfold build_targeted_context. cbn [snd]. rewrite Hc.
    unfold bind, ret. cbn [fst snd]. now rewrite List.app_nil_r. }
  rewrite Hb in Hrun. cbn [fst snd] in Hrun.
  do 2 eexists. split; [exact Hrun |].
  split.
  { exact (proj2 (structure_only_walk readers _ project path 0%nat)). }
  cbn [gpt_worker askButton current_query_attempt responseEdit
       set_askButton set_responseEdit set_the_extractor set_gpt_worker].
  repeat (split; [reflexivity |]).
  split; [apply last_snoc |].
  intros rest.
  now apply (run_idle readers cwd islink lower project json_loads MARKDOWN_AVAILABLE markdown_to_html).
Qed.

End Selection.

Lemma selected_files_sent_to_main_witness :
  exists custom_context self',
    fst (snd (build_targeted_context sample_readers "/home" no_links Py.lower init_extractor
                sample_project "/p" [JStr "src/main.py"]))
    = Ok custom_context
    /\ on_filter_response sample_readers "/home" no_links Py.lower sample_project sample_json_loads_mixed
         reply_main_py sample_app
       = (Returned tt, self',
          map Fs (snd (snd (build_targeted_context sample_readers "/home" no_links Py.lower init_extractor
                              sample_project "/p" [JStr "src/main.py"])))
          ++ [Started (main_call custom_context [])])
    /\ current_query_attempt self' = 0.
Proof.
  destruct (selected_files_sent_to_main sample_readers "/home" no_links Py.lower sample_project
              sample_json_loads_mixed sample_app reply_main_py "/p" ["src/main.py"])
    as (custom_context & self' & H1 & H2 & _ & H4 & _).
  - vm_compute. reflexivity.
  - reflexivity.
  - exists custom_context, self'. split; [exact H1 |]. split; [exact H2 | exact H4].
Defined.

Lemma unusable_selection_ends_query_witness :
  exists self' trace,
    on_filter_response sample_readers "/home" no_links Py.lower sample_project sample_json_loads_mixed
      reply_mixed sample_app
    = (Returned tt, self', map Fs trace)
    /\ gpt_worker self' = None
    /\ askButton self' = true
    /\ last (responseEdit self')
       = Some (agent_message "System"
                 "Error building context: expected str, bytes or os.PathLike object, not int"
                 "#FF0000").
Proof.
  destruct (unusable_selection_ends_query sample_readers "/home" no_links Py.lower sample_project
              sample_json_loads_mixed false (fun s => s) sample_app reply_mixed "/p"
              [JStr "a.py"; JStr "b.py"; JStr "c.py"; JInt 4] "a.py, b.py, c.py"
              "expected str, bytes or os.PathLike object, not int")
    as (self' & trace & H1 & _ & H3 & H4 & _ & H6 & _).
  - vm_compute. reflexivity.
  - vm_compute. reflexivity.
  - vm_compute. reflexivity.
  - reflexivity.
  - exists self', trace. auto.
Defined.

(** ** A query that is answered *)

Section Answer.

Variable readers : FormatReaders.
Variable cwd : string.
Variable islink : string -> bool.
Variable lower : string -> string.
Variable project : node.
Variable json_loads : string -> outcome json.
Variable MARKDOWN_AVAILABLE : bool.
Variable markdown_to_html : string -> string.

Local Abbreviation run_replies :=
  (run readers cwd islink lower project json_loads MARKDOWN_AVAILABLE markdown_to_html).




End Answer.


(** ** The dialogs of the allowlist and of the exclusions *)

Lemma In_sorted_strings (e : string) (l : list string) :
  In e (sorted_strings l) <-> In e l.
Proof.
  unfold sorted_strings. rewrite List.in_map_iff. split.
  - intros ([s []] & <- & Hin). apply (proj1 (sorted_In _ _)) in Hin.
    apply List.in_map_iff in Hin. destruct Hin as (s' & [= ->] & Hin). exact Hin.
  - intros Hin. exists (e, tt). split; [reflexivity |].
    apply (proj2 (sorted_In _ _)). apply List.in_map_iff. now exists e.
Qed.

Lemma sorted_strings_nil (l : list string) : sorted_strings l = [] -> l = [].
Proof.
  destruct l as [| x l]; [reflexivity |]. intros H. exfalso.
  assert (Hin : In x (sorted_strings (x :: l))) by (apply In_sorted_strings; now left).
  rewrite H in Hin. destruct Hin.
Qed.

Lemma split_nonempty (sep : ascii) (s : string) : Py.split sep s <> [].
Proof.
  destruct s as [| c s]; cbn [Py.split]; [discriminate |].
  destruct (Ascii.eqb c sep); [discriminate |].
  destruct (Py.split sep s); discriminate.
Qed.

(** Splitting at the separator what starts with a word without it. *)
Lemma split_app_word (sep : ascii) (w rest : string) :
  Py.contains (String sep "") w = false ->
  Py.split sep (w +:+ rest)
  = match Py.split sep rest with
    | [] => [w]
    | x :: xs => (w +:+ x) :: xs
    end.
Proof.
  induction w as [| c w IH]; intros Hw.
  - rewrite string_app_nil_l. destruct (Py.split sep rest) eqn:E; [| reflexivity].
    now apply split_nonempty in E.
  - rewrite contains_char_cons in Hw. apply orb_false_iff in Hw. destruct Hw as [Hc Hw].
    rewrite string_app_cons. cbn [Py.split]. rewrite Hc, (IH Hw).
    destruct (Py.split sep rest); reflexivity.
Qed.

Lemma split_word (sep : ascii) (w : string) :
  Py.contains (String sep "") w = false -> Py.split sep w = [w].
Proof.
  intros Hw. rewrite <- (string_app_nil_r w) at 1.
  rewrite (split_app_word sep w "" Hw). cbn [Py.split]. now rewrite string_app_nil_r.
Qed.

(** Joining words that do not hold the separator and splitting again gives
    the words back. *)
Lemma split_join (sep : ascii) (l : list string) :
  l <> [] ->
  Forall (fun w => Py.contains (String sep "") w = false) l ->
  Py.split sep (Py.join (String sep "") l) = l.
Proof.
  unfold Py.join.
  induction l as [| w l IH]; intros Hne Hall; [contradiction |].
  inversion Hall as [| ? ? Hw Hl]; subst.
  destruct l as [| w' l].
  - cbn [String.concat]. now apply split_word.
  - change (String.concat (String sep "") (w :: w' :: l))
      with (w +:+ String sep "" +:+ String.concat (String sep "") (w' :: l)).
    rewrite (split_app_word sep w _ Hw).
    rewrite string_app_cons, string_app_nil_l. cbn [Py.split].
    rewrite Ascii.eqb_refl. rewrite IH by (discriminate || exact Hl).
    now rewrite string_app_nil_r.
Qed.

Lemma lstrip_char_dot (y : string) :
  Py.startswith y "." = false -> lstrip_char "." ("." +:+ y) = y.
Proof.
  intros Hy. change ("." +:+ y) with (String "." y). cbn [lstrip_char].
  rewrite Ascii.eqb_refl. destruct y as [| c y]; [reflexivity |].
  cbn [lstrip_char]. destruct (Ascii.eqb c ".") eqn:E; [| reflexivity].
  apply Ascii.eqb_eq in E. subst c.
  change (String "." y) with ("." +:+ y) in Hy. now rewrite (startswith_dot y) in Hy.
Qed.

Lemma rstrip_idem (s : string) : Py.rstrip (Py.rstrip s) = Py.rstrip s.
Proof.
  induction s as [| c s IH]; [reflexivity |].
  cbn [Py.rstrip]. destruct (Py.rstrip s) as [| a r] eqn:E.
  - destruct (Py.isspace c) eqn:Ec; [reflexivity |].
    cbn [Py.rstrip]. now rewrite Ec.
  - cbn [Py.rstrip]. cbn [Py.rstrip] in IH. now rewrite IH.
Qed.

Lemma lstrip_head (s : string) :
  Py.lstrip s = "" \/ exists c s', Py.lstrip s = String c s' /\ Py.isspace c = false.
Proof.
  induction s as [| c s IH]; [now left |].
  cbn [Py.lstrip]. destruct (Py.isspace c) eqn:Ec; [exact IH |].
  right. now exists c, s.
Qed.

Lemma lstrip_rstrip (t : string) :
  (t = "" \/ exists c s', t = String c s' /\ Py.isspace c = false) ->
  Py.lstrip (Py.rstrip t) = Py.rstrip t.
Proof.
  intros [-> | (c & s' & -> & Hc)]; [reflexivity |].
  cbn [Py.rstrip]. destruct (Py.rstrip s'); rewrite ?Hc; cbn [Py.lstrip]; now rewrite Hc.
Qed.

Lemma strip_idem (s : string) : Py.strip (Py.strip s) = Py.strip s.
Proof.
  unfold Py.strip. rewrite (lstrip_rstrip (Py.lstrip s) (lstrip_head s)).
  apply rstrip_idem.
Qed.

(** The names of the baseline are plain. *)
Lemma default_exclusions_plain (x : string) :
  x ∈ DEFAULT_EXCLUSIONS -> plain_name x.
Proof.
  intros Hx. apply elem_of_elements, list_elem_of_In in Hx.
  assert (Hall : forallb (fun x => String.eqb (Py.strip x) x
                                    && negb (String.eqb x "")
                                    && negb (Py.contains "," x))%bool
                         (elements DEFAULT_EXCLUSIONS) = true)
    by (vm_compute; reflexivity).
  rewrite List.forallb_forall in Hall. specialize (Hall x Hx).
  apply andb_true_iff in Hall. destruct Hall as [Hall H3].
  apply andb_true_iff in Hall. destruct Hall as [H1 H2].
  apply String.eqb_eq in H1. apply negb_true_iff in H2, H3.
  apply String.eqb_neq in H2.
  split; [exact H1 | split; [exact H2 | exact H3]].
Qed.

Ltac by_evaluation_union := apply elem_of_union; left; by_evaluation.

Section DialogFacts.

Variable readers : FormatReaders.
Variable project : node.

(** [reload_if_loaded] leaves the allowlist, and adds the baseline to the
    exclusions when it reloads. *)
Lemma reload_if_loaded_extractor (self : HolaIbotApp) :
  exists self' evs,
    reload_if_loaded readers project self = (Returned tt, self', evs)
    /\ extensions (the_extractor self') = extensions (the_extractor self)
    /\ (exclusions (the_extractor self') = exclusions (the_extractor self)
        \/ exclusions (the_extractor self')
           = DEFAULT_EXCLUSIONS ∪ exclusions (the_extractor self))
    /\ (loaded_path self = None -> self' = self /\ evs = []).
Proof.
  unfold reload_if_loaded. rewrite mbind_get.
  destruct (loaded_path self) as [path |] eqn:Hpath.
  - destruct (decide (path = "")) as [-> | Hne].
    + rewrite bool_decide_eq_true_2 by now right.
      exists self, []. repeat split; auto; discriminate.
    + rewrite bool_decide_eq_false_2.
      2:{ intros [H | H]; [discriminate | congruence]. }
      rewrite (reload_context_run readers project self path Hpath Hne).
      do 2 eexists. split; [reflexivity |].
      cbn [the_extractor set_askButton set_otherButtons set_chat_history
           set_promptEdit set_responseEdit set_contextEdit set_loaded_context
           set_the_extractor].
      split; [reflexivity |]. split; [now right | discriminate].
  - rewrite bool_decide_eq_true_2 by now left.
    exists self, []. repeat split; auto.
Qed.

(** The allowlist dialog.  Cancelled, it changes nothing.  Accepted as it
    is opened, it keeps an allowlist of plain extensions (a dot, then a
    lower-case name with no blank at its ends, no comma and no further
    leading dot), the empty allowlist included; this is not so for the
    allowlist of a fresh extractor, whose dotless names come back in lower
    case with a dot in front. *)
Theorem extension_dialog_round_trip (self : HolaIbotApp) :
  (forall x, x ∈ extensions (the_extractor self) -> plain_extension x) ->
  (exists self' evs,
      App.set_extensions readers project accept_unchanged self
      = (Returned tt, self', evs)
      /\ extensions (the_extractor self') = extensions (the_extractor self))
  /\ App.set_extensions readers project cancel_dialog self = (Returned tt, self, [])
  /\ extensions
       (the_extractor
          (snd (fst (App.set_extensions readers project accept_unchanged init_app))))
     = extensions init_extractor
         ∖ {[ "Makefile"; "CMakeLists.txt"; "Dockerfile"; "dockerfile";
              "Vagrantfile"; "Procfile" ]}
         ∪ {[ ".makefile"; ".cmakelists.txt"; ".dockerfile";
              ".vagrantfile"; ".procfile" ]}.
Proof.
  intros Hplain. split; [| split; [reflexivity |]].
  - unfold App.set_extensions. rewrite mbind_get.
    unfold accept_unchanged. cbn [fst snd]. rewrite mbind_modify.
    match goal with
    | |- context [reload_if_loaded readers project ?s] =>
        destruct (reload_if_loaded_extractor s) as (self' & evs & Heq & Hext & _)
    end.
    exists self', evs. split; [exact Heq |]. rewrite Hext.
    cbn [the_extractor set_the_extractor extensions set_extensions].
    set (S := extensions (the_extractor self)) in *.
    set (L := sorted_strings (map (lstrip_char ".") (elements S))).
    assert (HL : forall e, In e L <-> exists x, x ∈ S /\ e = lstrip_char "." x).
    { intros e. subst L. rewrite In_sorted_strings, List.in_map_iff. split.
      - intros (x & <- & Hin). exists x. split; [| reflexivity].
        now apply elem_of_elements, list_elem_of_In.
      - intros (x & Hin & ->). exists x. split; [reflexivity |].
        now apply list_elem_of_In, elem_of_elements. }
    assert (Hy : forall e, In e L ->
                 plain_name e /\ Py.lower e = e /\ Py.startswith e "." = false
                 /\ "." +:+ e ∈ S).
    { intros e He. apply HL in He. destruct He as (x & Hx & ->).
      destruct (Hplain x Hx) as (y & -> & Hp & Hl & Hs).
      rewrite (lstrip_char_dot y Hs). auto. }
    apply set_eq. intros z. rewrite set_extensions_loop_spec.
    destruct (decide (L = [])) as [EL | EL].
    + (* the allowlist is empty *)
      assert (HS : elements S = []).
      { subst L. apply sorted_strings_nil in EL. now destruct (elements S). }
      apply elements_empty_inv in HS. apply leibniz_equiv in HS. rewrite HS.
      rewrite EL. cbn. split; [| intros H; now apply not_elem_of_empty in H].
      intros [H | (e & [] & _)]. exact H.
    + assert (Hsplit : Py.split "," (Py.join "," L) = L).
      { apply split_join.
        - exact EL.
        - apply List.Forall_forall. intros e He.
          destruct (Hy e He) as ((_ & _ & Hc) & _). exact Hc. }
      rewrite Hsplit. split.
      * intros [H | (e & Hin & Hne & ->)]; [now apply not_elem_of_empty in H |].
        apply List.in_map_iff in Hin. destruct Hin as (y & <- & Hin).
        apply list_elem_of_In, list_elem_of_filter in Hin. destruct Hin as [_ Hin].
        apply list_elem_of_In in Hin.
        destruct (Hy y Hin) as ((Hst & _ & _) & Hl & Hs & HinS).
        rewrite Hst, Hl, Hst, Hl, Hs. exact HinS.
      * intros Hz. right.
        destruct (Hplain z Hz) as (y & -> & (Hst & Hne & Hc) & Hl & Hs).
        assert (Hin : In y L).
        { apply HL. exists ("." +:+ y). split; [exact Hz |].
          now rewrite (lstrip_char_dot y Hs). }
        exists y. split.
        -- apply List.in_map_iff. exists y. rewrite Hst, Hl. split; [reflexivity |].
           apply list_elem_of_In, list_elem_of_filter. split.
           ++ now rewrite Hst.
           ++ now apply list_elem_of_In.
        -- rewrite Hst, Hl, Hs. split; [exact Hne | reflexivity].
  - by_evaluation.
Qed.

(** The exclusion dialog.  Cancelled, it changes nothing.  Accepted as it
    is opened, it leaves the baseline joined to the user's exclusions, when
    these are plain names (no blank at the ends, no comma, not empty).
    Accepted with any text, it sets the exclusions to the baseline joined
    to the names between the commas of the text, stripped, the blank ones
    dropped: a name of the baseline that the user deletes from the text
    stays excluded. *)
Theorem exclusion_dialog_round_trip (self : HolaIbotApp) :
  (forall x, x ∈ exclusions (the_extractor self) -> plain_name x) ->
  (exists self' evs,
      App.set_exclusions readers project accept_unchanged self
      = (Returned tt, self', evs)
      /\ exclusions (the_extractor self')
         = DEFAULT_EXCLUSIONS ∪ exclusions (the_extractor self))
  /\ App.set_exclusions readers project cancel_dialog self = (Returned tt, self, [])
  /\ (forall txt,
        exists self' evs,
          App.set_exclusions readers project (replace_text txt) self
          = (Returned tt, self', evs)
          /\ forall x,
               x ∈ exclusions (the_extractor self') <->
               x ∈ DEFAULT_EXCLUSIONS
               \/ exists e, In e (Py.split "," txt) /\ Py.strip e <> ""
                            /\ x = Py.strip e).
Proof.
  intros Hplain.
  assert (Hany : forall txt,
            exists self' evs,
              App.set_exclusions readers project (replace_text txt) self
              = (Returned tt, self', evs)
              /\ forall x,
                   x ∈ exclusions (the_extractor self') <->
                   x ∈ DEFAULT_EXCLUSIONS
                   \/ exists e, In e (Py.split "," txt) /\ Py.strip e <> ""
                                /\ x = Py.strip e).
  { intros txt. unfold App.set_exclusions. rewrite mbind_get.
    unfold replace_text. cbn [fst snd]. rewrite mbind_modify.
    match goal with
    | |- context [reload_if_loaded readers project ?s] =>
        destruct (reload_if_loaded_extractor s) as (self' & evs & Heq & _ & Hexc & _)
    end.
    exists self', evs. split; [exact Heq |].
    intros x.
    assert (Hx : x ∈ exclusions (the_extractor self') <->
                 x ∈ exclusions
                       (set_exclusions (the_extractor self)
                          (map Py.strip
                             (filter (fun x => Py.strip x <> "") (Py.split "," txt))))).
    { destruct Hexc as [-> | ->];
        cbn [the_extractor set_the_extractor]; [reflexivity |].
      cbn [exclusions set_exclusions].
      now rewrite (assoc_L (∪)), (idemp_L (∪)). }
    rewrite Hx.
    rewrite set_exclusions_spec. split; (intros [H | H]; [now left | right]).
    - destruct H as (e & Hin & Hne & ->).
      apply List.in_map_iff in Hin. destruct Hin as (e0 & <- & Hin).
      apply list_elem_of_In, list_elem_of_filter in Hin. destruct Hin as [Hne0 Hin].
      exists e0. rewrite strip_idem. split; [now apply list_elem_of_In | now split].
    - destruct H as (e & Hin & Hne & ->).
      exists (Py.strip e). rewrite strip_idem. split; [| now split].
      apply List.in_map_iff. exists e. split; [reflexivity |].
      apply list_elem_of_In, list_elem_of_filter. split; [exact Hne |].
      now apply list_elem_of_In. }
  split; [| split; [reflexivity | exact Hany]].
  set (S := DEFAULT_EXCLUSIONS ∪ exclusions (the_extractor self)).
  set (L := sorted_strings (elements S)).
  assert (HL : forall e, In e L <-> e ∈ S).
  { intros e. subst L. rewrite In_sorted_strings, <- list_elem_of_In.
    apply elem_of_elements. }
  assert (HS : forall e, e ∈ S -> plain_name e).
  { intros e He. apply elem_of_union in He. destruct He as [He | He]; [| now apply Hplain].
    now apply default_exclusions_plain. }
  assert (Hsplit : Py.split "," (Py.join "," L) = L).
  { apply split_join.
    - intros E. assert (Hin : In "venv" L) by (apply HL; subst S; by_evaluation_union).
      rewrite E in Hin. destruct Hin.
    - apply List.Forall_forall. intros e He. apply HL, HS in He. apply He. }
  destruct (Hany (Py.join "," L)) as (self' & evs & Heq & Hspec).
  exists self', evs. split; [exact Heq |].
  apply set_eq. intros x. rewrite Hspec, Hsplit. fold S. split.
  - intros [H | (e & Hin & Hne & ->)].
    + subst S. apply elem_of_union. now left.
    + apply HL in Hin. destruct (HS e Hin) as (-> & _). exact Hin.
  - intros Hx. right. exists x. destruct (HS x Hx) as (Hst & Hne & _).
    rewrite Hst. split; [now apply HL | now split].
Qed.

End DialogFacts.

Lemma extension_dialog_round_trip_witness :
  exists self' evs,
    App.set_extensions sample_readers sample_project accept_unchanged
      sample_app_two_extensions
    = (Returned tt, self', evs)
    /\ extensions (the_extractor self')
       = extensions (the_extractor sample_app_two_extensions).
Proof.
  refine (proj1 (extension_dialog_round_trip sample_readers sample_project
                   sample_app_two_extensions _)).
  intros x Hx. cbn in Hx.
  apply elem_of_union in Hx. destruct Hx as [Hx | Hx];
    apply elem_of_singleton in Hx; subst x.
  - exists "py". vm_compute. repeat split; congruence.
  - exists "md". vm_compute. repeat split; congruence.
Defined.

Lemma exclusion_dialog_round_trip_witness :
  exists self' evs,
    App.set_exclusions sample_readers sample_project accept_unchanged
      sample_app_user_exclusion
    = (Returned tt, self', evs)
    /\ exclusions (the_extractor self')
       = DEFAULT_EXCLUSIONS ∪ exclusions (the_extractor sample_app_user_exclusion).
Proof.
  refine (proj1 (exclusion_dialog_round_trip sample_readers sample_project
                   sample_app_user_exclusion _)).
  intros x Hx. cbn in Hx. apply elem_of_singleton in Hx. subst x.
  vm_compute. repeat split; congruence.
Defined.

(** * The request to the remote model *)

(** Without an API key in the environment (unset or empty),
    [gpt4_1_request] sends nothing and returns a fixed error text.  The
    text does not carry the rate-limit marker: delivered to
    [on_gpt_response], it is recorded in the chat history as the
    assistant's answer and the query ends, without a retry. *)
Theorem request_without_api_key (getenv : string -> option string)
    (post : Request -> outcome Response) (format_exc : string)
    (messages : list message) (model_name : option string) :
  getenv "OPENAI_API_KEY" = None \/ getenv "OPENAI_API_KEY" = Some "" ->
  let notice :=
    "API Error: The environment variable 'OPENAI_API_KEY' is not defined." in
  gpt4_1_request getenv post format_exc messages model_name = (JStr notice, [])
  /\ Py.contains rate_limit_marker notice = false
  /\ forall MARKDOWN_AVAILABLE markdown_to_html self,
       exists self',
         on_gpt_response MARKDOWN_AVAILABLE markdown_to_html notice self
         = (Returned tt, self', [])
         /\ chat_history self' = chat_history self ++ [mkMessage "assistant" notice]
         /\ current_query_attempt self' = current_query_attempt self
         /\ gpt_worker self' = None
         /\ askButton self' = true.
Proof.
  intros Hkey notice. split; [| split].
  - unfold gpt4_1_request. destruct Hkey as [-> | ->]; reflexivity.
  - vm_compute. reflexivity.
  - intros MARKDOWN_AVAILABLE markdown_to_html self.
    destruct (on_gpt_success MARKDOWN_AVAILABLE markdown_to_html self notice)
      as (self' & Heq & Hw & Ha & Hb & Hh); [vm_compute; reflexivity |].
    exists self'. auto.
Qed.

Lemma request_without_api_key_witness :
  gpt4_1_request no_api_key (server_replies 200 "" (Ok JNull)) "" [] (Some "gpt-5.1")
  = (JStr "API Error: The environment variable 'OPENAI_API_KEY' is not defined.", []).
Proof.
  refine (proj1 (request_without_api_key no_api_key (server_replies 200 "" (Ok JNull))
                   "" [] (Some "gpt-5.1") _)).
  left. reflexivity.
Defined.

Lemma marker_in_status_429 (body : string) :
  Py.contains rate_limit_marker ("API Error (" +:+ Py.str_int 429 +:+ "): " +:+ body)
  = true.
Proof.
  change ("API Error (" +:+ Py.str_int 429 +:+ "): " +:+ body)
    with ("API Error (429)" +:+ (": " +:+ body)).
  unfold rate_limit_marker.
  generalize (": " +:+ body). intros rest.
  destruct rest; vm_compute; reflexivity.
Qed.

(** With an API key, when the server answers with a status other than 200,
    [gpt4_1_request] has sent one request (to the completions URL, with the
    key as bearer token, the model asked for or [gpt-4o] when none is, and
    a timeout of 120 seconds) and returns [API Error (status): body].  For
    the status 429 this text carries the rate-limit marker: delivered to
    [on_gpt_response], it raises the attempt counter and runs the next
    step of the query. *)
Theorem http_error_reported (getenv : string -> option string)
    (post : Request -> outcome Response) (format_exc : string)
    (messages : list message) (model_name : option string)
    (api_key : string) (response : Response) :
  getenv "OPENAI_API_KEY" = Some api_key ->
  api_key <> "" ->
  let request :=
    {| url := "https://api.openai.com/v1/chat/completions";
       headers := [("Content-Type", "application/json");
                   ("Authorization", "Bearer " +:+ api_key)];
       data_model := match model_name with
                     | None | Some "" => "gpt-4o"
                     | Some m => m
                     end;
       data_messages := messages;
       data_response_format := "text";
       timeout := 120 |} in
  post request = Ok response ->
  status_code response <> 200 ->
  let result := "API Error (" +:+ Py.str_int (status_code response) +:+ "): "
                +:+ response_text response in
  gpt4_1_request getenv post format_exc messages model_name = (JStr result, [request])
  /\ (status_code response = 429 ->
      Py.contains rate_limit_marker result = true
      /\ forall MARKDOWN_AVAILABLE markdown_to_html self,
           exists self1,
             on_gpt_response MARKDOWN_AVAILABLE markdown_to_html result self
             = execute_smart_query_step self1
             /\ gpt_worker self1 = None
             /\ current_query_attempt self1 = current_query_attempt self + 1
             /\ chat_history self1 = chat_history self).
Proof.
  intros Hkey Hne request Hpost Hstatus result. split.
  - unfold gpt4_1_request. rewrite Hkey.
    destruct api_key as [| c k]; [contradiction |].
    change ("https://api.openai.com/v1" +:+ "/chat/completions")
      with "https://api.openai.com/v1/chat/completions".
    fold request. rewrite Hpost.
    apply Z.eqb_neq in Hstatus. rewrite Hstatus. reflexivity.
  - intros H429.
    assert (Hm : Py.contains rate_limit_marker result = true).
    { subst result. rewrite H429. apply marker_in_status_429. }
    split; [exact Hm |].
    intros MARKDOWN_AVAILABLE markdown_to_html self.
    destruct (on_gpt_rate_limited MARKDOWN_AVAILABLE markdown_to_html self result Hm)
      as (self1 & Heq & Hw & Ha & _ & _ & Hh & _).
    exists self1. auto.
Qed.

Lemma http_error_reported_witness :
  gpt4_1_request with_api_key
    (server_replies 429 "Too Many Requests" (Raise "Expecting value")) "" []
    (Some "gpt-5.1")
  = (JStr "API Error (429): Too Many Requests",
     [{| url := "https://api.openai.com/v1/chat/completions";
         headers := [("Content-Type", "application/json");
                     ("Authorization", "Bearer sk-test")];
         data_model := "gpt-5.1";
         data_messages := [];
         data_response_format := "text";
         timeout := 120 |}]).
Proof.
  refine (proj1 (http_error_reported with_api_key
                   (server_replies 429 "Too Many Requests" (Raise "Expecting value"))
                   "" [] (Some "gpt-5.1") "sk-test"
                   {| status_code := 429; response_text := "Too Many Requests";
                      response_json := Raise "Expecting value" |} _ _ _ _)).
  - reflexivity.
  - discriminate.
  - reflexivity.
  - discriminate.
Defined.

(** * Running the code of the sandbox *)

(** [CodeExecutionWorker.run] once the code is written to the temporary
    file: whatever the script does (it completes, it runs into the time
    limit of 15 seconds, it cannot be started), the script is run once,
    then the file is looked up and removed, and then the result is emitted,
    once, as the last thing.  On a time-out the result is an empty output
    and the time-out notice, on another failure an empty output and the
    text of the exception. *)
Theorem temporary_file_removed (sys : System) (code_to_execute name : string) :
  named_temporary_file sys = Ok name ->
  name <> "" ->
  write_file sys name code_to_execute = Ok tt ->
  close_file sys name = Ok tt ->
  path_exists sys name = true ->
  unlink sys name = Ok tt ->
  let result :=
    match subprocess_run sys name with
    | Completed stdout stderr => (stdout, stderr)
    | TimeoutExpired => ("", timeout_notice)
    | RunError e => ("", subprocess_error sys e)
    end in
  CodeExecutionWorker_run sys code_to_execute
  = (Returned tt,
     [TempFile; WriteFile name code_to_execute; CloseFile name;
      RunPython name 15; PathExists name; Unlink name;
      Emit (fst result) (snd result)]).
Proof.
  intros Htemp Hne Hwrite Hclose Hexists Hunlink result.
  unfold CodeExecutionWorker_run, write_temporary.
  rewrite Htemp, Hwrite, Hclose.
  apply String.eqb_neq in Hne.
  subst result.
  destruct (subprocess_run sys name) as [stdout stderr | | e];
    rewrite Hne, Hexists, Hunlink; reflexivity.
Qed.

Lemma temporary_file_removed_witness :
  CodeExecutionWorker_run (healthy_system TimeoutExpired) "while True: pass"
  = (Returned tt,
     [TempFile; WriteFile "/tmp/tmpab12.py" "while True: pass";
      CloseFile "/tmp/tmpab12.py"; RunPython "/tmp/tmpab12.py" 15;
      PathExists "/tmp/tmpab12.py"; Unlink "/tmp/tmpab12.py";
      Emit "" timeout_notice]).
Proof.
  refine (temporary_file_removed (healthy_system TimeoutExpired) "while True: pass"
            "/tmp/tmpab12.py" _ _ _ _ _ _); try reflexivity.
  discriminate.
Defined.

(** [CodeExecutionWorker.run] when the code cannot be written to the
    temporary file that was created: the script is not run, the error is
    emitted as [Subprocess error: ...], and the file, whose name was not
    yet kept, is neither looked up nor removed. *)
Theorem unwritten_file_left_behind (sys : System) (code_to_execute name e : string) :
  named_temporary_file sys = Ok name ->
  write_file sys name code_to_execute = Raise e ->
  exists e',
    CodeExecutionWorker_run sys code_to_execute
    = (Returned tt,
       [TempFile; WriteFile name code_to_execute; CloseFile name;
        Emit "" (subprocess_error sys e')])
    /\ (e' = e \/ close_file sys name = Raise e').
Proof.
  intros Htemp Hwrite. unfold CodeExecutionWorker_run, write_temporary.
  rewrite Htemp, Hwrite.
  destruct (close_file sys name) as [[] | e'] eqn:Hclose.
  - exists e. split; [reflexivity | now left].
  - exists e'. split; [reflexivity | now right].
Qed.

Lemma unwritten_file_left_behind_witness :
  exists e',
    CodeExecutionWorker_run full_disk "print(1)"
    = (Returned tt,
       [TempFile; WriteFile "/tmp/tmpab12.py" "print(1)"; CloseFile "/tmp/tmpab12.py";
        Emit "" (subprocess_error full_disk e')])
    /\ (e' = "[Errno 28] No space left on device"
        \/ close_file full_disk "/tmp/tmpab12.py" = Raise e').
Proof.
  refine (unwritten_file_left_behind full_disk "print(1)" "/tmp/tmpab12.py"
            "[Errno 28] No space left on device" _ _); reflexivity.
Defined.

(** * The code sandbox *)

(** In a session of the sandbox the request button and the execution
    button are enabled or disabled together, they are enabled exactly when
    no worker of the sandbox is in flight, and at most one worker of the
    sandbox, a request to the assistant or an execution, is in flight at a
    time. *)
Theorem sandbox_single_flight (self : Sandbox) :
  sandbox_reachable self ->
  sandboxAskButton self = sandboxExecuteButton self
  /\ (sandboxAskButton self = true <->
      sandbox_gpt_worker self = None /\ exec_worker self = None)
  /\ (sandbox_gpt_worker self = None \/ exec_worker self = None).
Proof.
  induction 1 as [| self self' Hreach IH Hstep].
  - cbn. repeat split; auto.
  - destruct IH as (Hsame & Hidle & Hone).
    destruct Hstep as [self txt | self txt | self txt | self Hask | self Hexec | self
                      | self w response permitted Hw
                      | self code stdout stderr permitted Hw].
    + cbn. auto.
    + cbn. auto.
    + cbn. auto.
    + (* the request button *)
      destruct (proj1 Hidle Hask) as [Hg He].
      unfold ask_sandbox_gpt.
      destruct (String.eqb (Py.strip (sandboxPromptEdit self)) "");
        cbn [fst]; [auto |].
      cbn. rewrite He. repeat split; auto; try discriminate.
      intros [H _]. discriminate H.
    + (* the execution button *)
      rewrite <- Hsame in Hexec. destruct (proj1 Hidle Hexec) as [Hg He].
      unfold execute_current_sandbox_code.
      destruct (String.eqb (Py.strip (sandboxCodeEdit self)) ""); cbn [fst].
      * cbn. auto.
      * cbn. rewrite Hg. repeat split; auto; try discriminate.
        intros [_ H]. discriminate H.
    + cbn. auto.
    + (* a reply of the assistant *)
      assert (He : exec_worker self = None).
      { destruct Hone as [Hg | He]; [congruence | exact He]. }
      unfold on_sandbox_gpt_response.
      destruct (search_code_block response) as [[[before group1] after] |].
      * destruct permitted.
        -- unfold execute_current_sandbox_code. cbn [sandboxCodeEdit].
           destruct (String.eqb (Py.strip (Py.strip group1)) ""); cbn [fst].
           ++ cbn. rewrite He. repeat split; auto.
           ++ cbn. repeat split; auto; try discriminate.
              intros [_ H]. discriminate H.
        -- cbn. rewrite He. repeat split; auto.
      * cbn. rewrite He. repeat split; auto.
    + (* the end of an execution *)
      assert (Hg : sandbox_gpt_worker self = None).
      { destruct Hone as [Hg | He]; [exact Hg | congruence]. }
      unfold on_sandbox_execution_finished.
      destruct (String.eqb stderr ""); cbn [fst].
      * cbn. rewrite Hg. repeat split; auto.
      * destruct permitted.
        -- cbn. repeat split; auto; try discriminate.
           intros [H _]. discriminate H.
        -- cbn. rewrite Hg. repeat split; auto.
Qed.

Lemma sandbox_single_flight_witness :
  let self := fst (ask_sandbox_gpt (type_prompt "sort a list" init_sandbox)) in
  sandboxAskButton self = sandboxExecuteButton self
  /\ (sandboxAskButton self = true <->
      sandbox_gpt_worker self = None /\ exec_worker self = None)
  /\ (sandbox_gpt_worker self = None \/ exec_worker self = None).
Proof.
  refine (sandbox_single_flight _ _).
  eapply reach_step.
  - eapply reach_step; [apply reach_init_sandbox |].
    apply (step_type_prompt init_sandbox "sort a list").
  - apply step_ask. reflexivity.
Defined.

(** ** The block of code in a reply *)

Lemma prefix_app_self (p s : string) : String.prefix p (p +:+ s) = true.
Proof.
  induction p as [| c p IH]; [now destruct s |].
  rewrite string_app_cons. cbn [String.prefix].
  destruct (ascii_dec c c); [exact IH | contradiction].
Qed.

Lemma prefix_head_neq (a c : ascii) (p s : string) :
  a <> c -> String.prefix (String a p) (String c s) = false.
Proof.
  intros Hne. cbn [String.prefix]. destruct (ascii_dec a c); [contradiction | reflexivity].
Qed.

Lemma string_take_app (pre s : string) : string_take (String.length pre) (pre +:+ s) = pre.
Proof.
  induction pre as [| c pre IH]; [now destruct s |].
  rewrite string_app_cons. cbn [String.length string_take]. now rewrite IH.
Qed.

Lemma string_drop_app (pre s : string) : string_drop (String.length pre) (pre +:+ s) = s.
Proof.
  induction pre as [| c pre IH]; [now destruct s |].
  rewrite string_app_cons. cbn [String.length string_drop]. exact IH.
Qed.

Lemma string_drop_add (n m : nat) (s : string) :
  string_drop (n + m) s = string_drop m (string_drop n s).
Proof.
  revert s. induction n as [| n IH]; intros s; [reflexivity |].
  destruct s as [| c s]; cbn [Nat.add string_drop]; [now destruct m | apply IH].
Qed.

(** The first occurrence of a word that starts with [c], after a text
    without [c]. *)
Lemma find_sub_after (c : ascii) (p pre rest : string) :
  Py.contains (String c "") pre = false ->
  find_sub (String c p) (pre +:+ String c p +:+ rest) = Some (String.length pre).
Proof.
  induction pre as [| a pre IH]; intros Hpre.
  - rewrite string_app_nil_l.
    change (find_sub (String c p) (String c p +:+ rest))
      with (if String.prefix (String c p) (String c p +:+ rest) then Some O
            else option_map S (find_sub (String c p) (p +:+ rest))).
    now rewrite prefix_app_self.
  - rewrite contains_char_cons in Hpre. apply orb_false_iff in Hpre.
    destruct Hpre as [Ha Hpre]. apply Ascii.eqb_neq in Ha.
    rewrite string_app_cons. cbn [find_sub].
    rewrite prefix_head_neq by congruence.
    rewrite (IH Hpre). reflexivity.
Qed.

(** No occurrence of a word that starts with [c] in a text without [c]. *)
Lemma find_sub_absent (c : ascii) (p s : string) :
  Py.contains (String c "") s = false -> find_sub (String c p) s = None.
Proof.
  induction s as [| a s IH]; intros Hs; [reflexivity |].
  rewrite contains_char_cons in Hs. apply orb_false_iff in Hs.
  destruct Hs as [Ha Hs]. apply Ascii.eqb_neq in Ha.
  cbn [find_sub]. rewrite prefix_head_neq by congruence.
  now rewrite (IH Hs).
Qed.

(** The first closing fence after a text without a backtick. *)
Lemma find_close_after (code rest : string) :
  Py.contains "`" code = false ->
  find_sub fence_close (code +:+ fence_close +:+ rest) = Some (String.length code).
Proof.
  induction code as [| a code IH]; intros Hcode.
  - rewrite string_app_nil_l.
    change (find_sub fence_close (fence_close +:+ rest))
      with (if String.prefix fence_close (fence_close +:+ rest) then Some O
            else option_map S (find_sub fence_close ("```" +:+ rest))).
    now rewrite prefix_app_self.
  - rewrite contains_char_cons in Hcode. apply orb_false_iff in Hcode.
    destruct Hcode as [Ha Hcode].
    rewrite string_app_cons. cbn [find_sub].
    assert (Hp : String.prefix fence_close (String a (code +:+ fence_close +:+ rest))
                 = false).
    { unfold fence_close, nl. rewrite string_app_cons, string_app_nil_l.
      cbn [String.prefix]. destruct (ascii_dec "010" a); [| reflexivity].
      destruct code as [| b code].
      - reflexivity.
      - rewrite contains_char_cons in Hcode. apply orb_false_iff in Hcode.
        destruct Hcode as [Hb _]. apply Ascii.eqb_neq in Hb.
        rewrite string_app_cons. apply prefix_head_neq. congruence. }
    rewrite Hp, (IH Hcode). reflexivity.
Qed.

Lemma search_code_block_found (pre code post : string) :
  Py.contains "`" pre = false ->
  Py.contains "`" code = false ->
  search_code_block (pre +:+ fence_open +:+ code +:+ fence_close +:+ post)
  = Some (pre, code, post).
Proof.
  intros Hpre Hcode. unfold search_code_block.
  assert (Hopen : find_sub fence_open
                    (pre +:+ fence_open +:+ code +:+ fence_close +:+ post)
                  = Some (String.length pre)).
  { exact (find_sub_after "`" ("``python" +:+ nl) pre _ Hpre). }
  rewrite Hopen. cbv zeta.
  rewrite string_drop_add, string_drop_app, string_drop_app.
  rewrite (find_close_after code post Hcode).
  rewrite string_take_app, string_take_app.
  rewrite string_drop_add, string_drop_app, string_drop_app.
  reflexivity.
Qed.

Lemma search_code_block_absent (s : string) :
  Py.contains "`" s = false -> search_code_block s = None.
Proof.
  intros Hs. unfold search_code_block.
  pose proof (find_sub_absent "`" ("``python" +:+ nl) s Hs) as Hnone.
  change (String "`" ("``python" +:+ nl)) with fence_open in Hnone.
  now rewrite Hnone.
Qed.

(** A reply of the assistant made of a text, a block of code between the
    fences and a text, with no backtick elsewhere: the block is found, the
    code between the fences, stripped, becomes the current code and the
    text of the code editor, the reply as received is added to the
    history, and the explanation shown is the reply with the block
    replaced by a pointer to the editor.  The code is executed when the
    user permits it and it is not blank.  A reply without any backtick
    holds no block: the code and the editor are emptied, the reply is shown
    as it is and nothing is executed. *)
Theorem code_block_extracted (self : Sandbox) (pre code post : string)
    (permitted : bool) :
  Py.contains "`" pre = false ->
  Py.contains "`" code = false ->
  Py.contains "`" post = false ->
  let response := pre +:+ fence_open +:+ code +:+ fence_close +:+ post in
  let r := on_sandbox_gpt_response response permitted self in
  search_code_block response = Some (pre, code, post)
  /\ current_sandbox_code (fst r) = Py.strip code
  /\ sandboxCodeEdit (fst r) = Py.strip code
  /\ sandbox_history (fst r) = sandbox_history self ++ [mkMessage "assistant" response]
  /\ snd r = (if (permitted && negb (String.eqb (Py.strip code) ""))%bool
              then [ExecStarted (Py.strip code)] else [])
  /\ (exists shown,
        sandboxResponseEdit (fst r)
        = sandboxResponseEdit self
          ++ ("<b style='color:#87CEEB;'>Agent:</b> "
              +:+ Py.strip (pre +:+ "[Code block below]" +:+ post) +:+ nl) :: shown)
  /\ (let r0 := on_sandbox_gpt_response (pre +:+ post) permitted self in
      current_sandbox_code (fst r0) = ""
      /\ sandboxCodeEdit (fst r0) = ""
      /\ snd r0 = []
      /\ sandboxResponseEdit (fst r0)
         = sandboxResponseEdit self
           ++ ["<b style='color:#87CEEB;'>Agent:</b> " +:+ (pre +:+ post) +:+ nl]).
Proof.
  intros Hpre Hcode Hpost response r.
  pose proof (search_code_block_found pre code post Hpre Hcode) as Hfound.
  fold response in Hfound.
  assert (Hrepl : replace_code_blocks "[Code block below]" response
                  = pre +:+ "[Code block below]" +:+ post).
  { unfold replace_code_blocks.
    assert (Hlen : exists n, String.length response = S n).
    { subst response. destruct pre as [| c pre].
      - rewrite string_app_nil_l. now eexists.
      - rewrite string_app_cons. now eexists. }
    destruct Hlen as (n & ->). cbn [sub_code_blocks]. rewrite Hfound.
    destruct n as [| n]; cbn [sub_code_blocks]; [reflexivity |].
    now rewrite (search_code_block_absent post Hpost). }
  split; [exact Hfound |].
  subst r. unfold on_sandbox_gpt_response. rewrite Hfound, Hrepl.
  assert (Hnone : search_code_block (pre +:+ post) = None).
  { apply search_code_block_absent.
    clear - Hpre Hpost. induction pre as [| c pre IH]; [exact Hpost |].
    rewrite string_app_cons, contains_char_cons.
    rewrite contains_char_cons in Hpre. apply orb_false_iff in Hpre.
    destruct Hpre as [Hc Hpre]. rewrite Hc. cbn [orb]. now apply IH. }
  rewrite Hnone.
  destruct permitted; cbn [andb].
  - unfold execute_current_sandbox_code. cbn [sandboxCodeEdit].
    rewrite strip_idem.
    destruct (String.eqb (Py.strip code) "") eqn:Eblank; cbn [negb fst snd].
    + apply String.eqb_eq in Eblank.
      cbn [current_sandbox_code sandboxCodeEdit sandbox_history sandboxResponseEdit].
      repeat split; try reflexivity; try (now rewrite Eblank).
      eexists. rewrite <- List.app_assoc. reflexivity.
    + cbn [current_sandbox_code sandboxCodeEdit sandbox_history sandboxResponseEdit].
      repeat split; try reflexivity.
      eexists. rewrite <- List.app_assoc. reflexivity.
  - cbn [fst snd current_sandbox_code sandboxCodeEdit sandbox_history
         sandboxResponseEdit].
    repeat split; try reflexivity.
    eexists. rewrite <- List.app_assoc. reflexivity.
Qed.

Lemma code_block_extracted_witness :
  let r := on_sandbox_gpt_response sample_reply true sample_sandbox in
  search_code_block sample_reply
  = Some ("Here is the code." +:+ nl, "print(2, 3, 5)", nl +:+ "Run it.")
  /\ current_sandbox_code (fst r) = "print(2, 3, 5)"
  /\ snd r = [ExecStarted "print(2, 3, 5)"].
Proof.
  assert (Hreply : sample_reply
                   = ("Here is the code." +:+ nl) +:+ fence_open +:+ "print(2, 3, 5)"
                     +:+ fence_close +:+ nl +:+ "Run it.") by reflexivity.
  destruct (code_block_extracted sample_sandbox ("Here is the code." +:+ nl)
              "print(2, 3, 5)" (nl +:+ "Run it.") true)
    as (H1 & H2 & _ & _ & H5 & _); try (vm_compute; reflexivity).
  rewrite <- Hreply in H1, H2, H5.
  split; [exact H1 |]. split; [exact H2 | exact H5].
Defined.

Lemma apply_edits_frame (edits : list sandbox_edit) (self : Sandbox) :
  let later := apply_edits edits self in
  sandbox_history later
  = (if existsb is_clear edits then [] else sandbox_history self)
  /\ current_sandbox_code later
     = (if existsb is_clear edits then "" else current_sandbox_code self)
  /\ sandbox_gpt_worker later = sandbox_gpt_worker self
  /\ exec_worker later = exec_worker self
  /\ sandboxAskButton later = sandboxAskButton self
  /\ sandboxExecuteButton later = sandboxExecuteButton self.
Proof.
  cbv zeta. revert self. unfold apply_edits.
  induction edits as [| e edits IH]; intros self; [cbn; auto 10 |].
  cbn [fold_left existsb].
  destruct (IH (apply_edit self e)) as (H1 & H2 & H3 & H4 & H5 & H6).
  rewrite H1, H2, H3, H4, H5, H6.
  destruct e; cbn; destruct (existsb is_clear edits); auto 10.
Qed.

(** From the click on the execution button to the request for a fix, with
    whatever the user does in the tab while the code runs (the two buttons
    are disabled until the run ends, the fields and the clear button are
    not).  The code that runs is the text of the code editor, stripped.
    When the run ends with an error output and the user permits the fix,
    one request is sent to the assistant, and it is the persistent
    history.  If the sandbox was not cleared meanwhile, the request is the
    history as it was, followed by a message that quotes the error and the
    code that was run, whatever was typed in the editor.  If the sandbox
    was cleared meanwhile, the request is that message alone, and the code
    it quotes is empty.  When the fix is refused, or the error output is
    empty, nothing is sent and the two buttons are enabled again. *)
Theorem failed_run_asks_for_fix (self : Sandbox) (edits : list sandbox_edit)
    (stdout stderr : string) (permitted : bool) :
  Py.strip (sandboxCodeEdit self) <> "" ->
  let code := Py.strip (sandboxCodeEdit self) in
  let running := execute_current_sandbox_code self in
  let later := apply_edits edits (fst running) in
  let cleared := existsb is_clear edits in
  let r := on_sandbox_execution_finished stdout stderr permitted later in
  snd running = [ExecStarted code]
  /\ exec_worker later = Some code
  /\ sandboxAskButton later = false
  /\ sandboxExecuteButton later = false
  /\ exec_worker (fst r) = None
  /\ (stderr <> "" ->
      permitted = true ->
      let request :=
        (if cleared then [] else sandbox_history self)
        ++ [mkMessage "user" (debug_prompt stderr (if cleared then "" else code))] in
      snd r = [SandboxStarted (mkSandboxWorker request "gpt-5-mini")]
      /\ sandbox_history (fst r) = request
      /\ sandboxAskButton (fst r) = false
      /\ sandboxExecuteButton (fst r) = false)
  /\ (stderr = "" \/ permitted = false ->
      snd r = []
      /\ sandbox_history (fst r) = (if cleared then [] else sandbox_history self)
      /\ sandboxAskButton (fst r) = true
      /\ sandboxExecuteButton (fst r) = true
      /\ last (sandboxResponseEdit (fst r))
         = Some (if String.eqb stderr ""
                 then "<i>[System] Execution finished successfully.</i>" +:+ nl
                 else "<i>[User] Debugging cancelled.</i>" +:+ nl)).
Proof.
  intros Hcode code running later cleared r.
  assert (Hrun : running
                 = ({| sandbox_history := sandbox_history self;
                       current_sandbox_code := code;
                       sandbox_loaded_context := sandbox_loaded_context self;
                       sandbox_gpt_worker := sandbox_gpt_worker self;
                       exec_worker := Some code;
                       sandboxResponseEdit :=
                         sandboxResponseEdit self
                         ++ ["<i>[System] Executing code...</i>" +:+ nl];
                       sandboxCodeEdit := sandboxCodeEdit self;
                       sandboxPromptEdit := sandboxPromptEdit self;
                       sandboxAskButton := false;
                       sandboxExecuteButton := false |}, [ExecStarted code])).
  { subst running. unfold execute_current_sandbox_code.
    apply String.eqb_neq in Hcode. now rewrite Hcode. }
  destruct (apply_edits_frame edits (fst running)) as (Hh & Hc & Hg & He & Ha & Hx).
  fold later cleared in Hh, Hc, Hg, He, Ha, Hx.
  rewrite Hrun in Hh, Hc, Hg, He, Ha, Hx. cbn [fst snd] in Hh, Hc, Hg, He, Ha, Hx.
  cbn [sandbox_history current_sandbox_code sandbox_gpt_worker exec_worker
       sandboxAskButton sandboxExecuteButton] in Hh, Hc, Hg, He, Ha, Hx.
  split; [now rewrite Hrun |].
  split; [exact He |]. split; [exact Ha |]. split; [exact Hx |].
  subst r. unfold on_sandbox_execution_finished.
  split.
  { destruct (String.eqb stderr ""); [reflexivity |].
    destruct permitted; reflexivity. }
  split.
  - intros Herr ->. apply String.eqb_neq in Herr. rewrite Herr.
    unfold debug_sandbox_code.
    cbn [fst snd sandbox_history current_sandbox_code sandboxAskButton
         sandboxExecuteButton].
    rewrite Hh, Hc. destruct cleared; repeat split; reflexivity.
  - intros Hquiet.
    destruct (String.eqb stderr "") eqn:Herr.
    + cbn [fst snd sandbox_history sandboxAskButton sandboxExecuteButton
           sandboxResponseEdit].
      repeat split; try reflexivity; [exact Hh | apply last_snoc].
    + destruct Hquiet as [-> | ->]; [discriminate Herr |].
      cbn [fst snd sandbox_history sandboxAskButton sandboxExecuteButton
           sandboxResponseEdit].
      repeat split; try reflexivity; [exact Hh | apply last_snoc].
Qed.

Lemma failed_run_asks_for_fix_witness :
  let self := type_code " print(1/0) " sample_sandbox in
  let later :=
    apply_edits [TypeCode "print(1)"; ClearSandbox; TypeCode "print(2)"]
      (fst (execute_current_sandbox_code self)) in
  snd (on_sandbox_execution_finished "" "ZeroDivisionError: division by zero" true later)
  = [SandboxStarted
       (mkSandboxWorker
          [mkMessage "user"
             (debug_prompt "ZeroDivisionError: division by zero" "")]
          "gpt-5-mini")].
Proof.
  destruct (failed_run_asks_for_fix (type_code " print(1/0) " sample_sandbox)
              [TypeCode "print(1)"; ClearSandbox; TypeCode "print(2)"]
              "" "ZeroDivisionError: division by zero" true)
    as (_ & _ & _ & _ & _ & Hfix & _).
  - vm_compute. discriminate.
  - destruct Hfix as [Hsent _]; [discriminate | reflexivity |]. exact Hsent.
Defined.
